(** * Emulation cores of [o3emuds.py]: a shallow embedding and its properties

    The development follows the Python source top-down: the exceptions the
    code can raise, Python texts and their encodings, the [Image] object
    of Pillow as far as the code uses it, the random source, the null core
    [EmulatorCore], the foreign library behind [NoGbaCore], [NoGbaCore]
    itself, the main block and the front end.  Theorems come after all
    definitions. *)

From Stdlib Require Import ZArith Ascii String Lia.
From stdpp Require Import base list strings.

#[local] Open Scope Z_scope.

(** ** Exceptions and fallible computations *)

(** The exceptions that the modelled part of the program raises or
    catches: [OSError] (from [ctypes.CDLL]), [RuntimeError] (raised by
    [NoGbaCore.__init__]), [IndexError] (from [Image.putpixel] outside
    the image), [AttributeError] (from the lookup of a name that a
    [ctypes] library does not export) and [UnicodeEncodeError] (from
    [str.encode] and from [print]).  An argument is the message, what
    [str(e)] gives. *)
Inductive exn : Type :=
  | OSError
  | RuntimeError (msg : string)
  | IndexError
  | AttributeError (msg : string)
  | UnicodeEncodeError (msg : string).

Inductive result (A : Type) : Type :=
  | Ok (a : A)
  | Raise (e : exn).
Arguments Ok {A} a.
Arguments Raise {A} e.

#[global] Instance result_ret : MRet result := fun A a => Ok a.
#[global] Instance result_bind : MBind result := fun A B f m =>
  match m with
  | Ok a => f a
  | Raise e => Raise e
  end.

(** A Python [for] loop over a list whose body updates the loop state and
    may raise. *)
Fixpoint for_each {A S : Type} (xs : list A) (body : A → S → result S)
    (s : S) : result S :=
  match xs with
  | [] => Ok s
  | x :: xs' => s' ← body x s; for_each xs' body s'
  end.

(** [enumerate(src)]: the elements of [src] paired with their index. *)
Definition enumerate {A : Type} (src : list A) : list (nat * A) :=
  zip (seq 0 (length src)) src.

(** ** Formatting of integers, as by Python's format specifications *)

Definition digit_char (d : Z) : ascii :=
  match d with
  | 0 => "0" | 1 => "1" | 2 => "2" | 3 => "3" | 4 => "4" | 5 => "5"
  | 6 => "6" | 7 => "7" | 8 => "8" | 9 => "9" | 10 => "A" | 11 => "B"
  | 12 => "C" | 13 => "D" | 14 => "E" | 15 => "F" | _ => "?"
  end%char.

(** The digits of [v >= 0] in base [base], most significant first, put
    before [acc]; [fuel] bounds the number of digits. *)
Fixpoint digits_from (fuel : nat) (base v : Z) (acc : string) : string :=
  match fuel with
  | O => acc
  | S fuel' =>
      let acc := String (digit_char (v mod base)) acc in
      if decide (v / base = 0) then acc
      else digits_from fuel' base (v / base) acc
  end.

Definition digits (base v : Z) : string :=
  digits_from (S (Z.to_nat (Z.log2 v))) base v "".

Fixpoint zeros (n : nat) : string :=
  match n with
  | O => ""
  | S n' => String "0" (zeros n')
  end.

Definition zfill (width : nat) (s : string) : string :=
  zeros (width - String.length s) +:+ s.

(** [format(v, "0<width>d")] for [base = 10] and [format(v, "0<width>X")]
    for [base = 16]: zero padding goes after the sign. *)
Definition format_int (base : Z) (width : nat) (v : Z) : string :=
  if decide (v < 0) then "-" +:+ zfill (width - 1) (digits base (- v))
  else zfill width (digits base v).

(** ["\n"] *)
Definition nl : string := String "010" "".

(** ** Texts and their encodings *)

(** A Python [str] is held as the bytes that
    [s.encode("utf-8", "surrogatepass")] gives: the UTF-8 encoding of its
    characters, where a surrogate (U+D800 to U+DFFF, which UTF-8 proper
    does not encode) takes the three bytes that the scheme gives it.
    Every [str] has such bytes, and different ones have different
    bytes. *)

(** The value of a byte. *)
Definition ord (c : ascii) : Z := Z.of_N (N_of_ascii c).

(** The six bits that a continuation byte carries. *)
Definition low6 (c : ascii) : Z := Z.land (ord c) 0x3F.

(** The characters of a text, as code points: a byte below 0xC0 stands
    for itself, a leading byte of 0xC0, 0xE0 or 0xF0 and above starts a
    character of two, three or four bytes. *)
Fixpoint code_points (s : string) : list Z :=
  match s with
  | EmptyString => []
  | String a s1 =>
      if ord a <? 0xC0 then ord a :: code_points s1
      else
        match s1 with
        | EmptyString => []
        | String b s2 =>
            if ord a <? 0xE0 then
              Z.lor (Z.shiftl (Z.land (ord a) 0x1F) 6) (low6 b)
              :: code_points s2
            else
              match s2 with
              | EmptyString => []
              | String c s3 =>
                  if ord a <? 0xF0 then
                    Z.lor (Z.shiftl (Z.land (ord a) 0x0F) 12)
                      (Z.lor (Z.shiftl (low6 b) 6) (low6 c))
                    :: code_points s3
                  else
                    match s3 with
                    | EmptyString => []
                    | String d s4 =>
                        Z.lor (Z.shiftl (Z.land (ord a) 0x07) 18)
                          (Z.lor (Z.shiftl (low6 b) 12)
                             (Z.lor (Z.shiftl (low6 c) 6) (low6 d)))
                        :: code_points s4
                    end
              end
        end
  end.

(** [format(v, "0<width>x")]: the digits of ["0<width>X"] in lower
    case. *)
Definition lower (c : ascii) : ascii :=
  if (65 <=? ord c) && (ord c <=? 90)
  then ascii_of_N (Z.to_N (ord c + 32)) else c.
Fixpoint lower_string (s : string) : string :=
  match s with
  | EmptyString => EmptyString
  | String c s' => String (lower c) (lower_string s')
  end.
Definition format_hex (width : nat) (v : Z) : string :=
  lower_string (format_int 16 width v).

(** [str(n)] for [n >= 0]. *)
Definition decimal (n : nat) : string := digits 10 (Z.of_nat n).

(** How the message of a [UnicodeEncodeError] shows the character it is
    about. *)
Definition escape_char (cp : Z) : string :=
  if cp <=? 0xFF then "\x" +:+ format_hex 2 cp
  else if cp <=? 0xFFFF then "\u" +:+ format_hex 4 cp
  else "\U" +:+ format_hex 8 cp.

(** [str(e)] for [e = UnicodeEncodeError(codec, text, start, stop,
    reason)]. *)
Definition encode_error (codec : string) (text : list Z) (start stop : nat)
    (reason : string) : string :=
  "'" +:+ codec +:+ "' codec can't encode " +:+
  (if decide (stop = S start)
   then "character '" +:+ escape_char (nth start text 0)
        +:+ "' in position " +:+ decimal start
   else "characters in position " +:+ decimal start +:+ "-"
        +:+ decimal (stop - 1))
  +:+ ": " +:+ reason.

(** The number of characters at the head of [text] that satisfy [p]. *)
Fixpoint span (p : Z → bool) (text : list Z) : nat :=
  match text with
  | cp :: text' => if p cp then S (span p text') else O
  | [] => O
  end.

(** Encoding under the error handler ["strict"] with a codec that takes
    every character but those of [bad]: the first run of characters it
    cannot take is reported; a text without any is encoded (for UTF-8,
    to the bytes it is held as). *)
Definition strict (codec reason : string) (bad : Z → bool) (s : string)
    : result (list Byte.byte) :=
  let text := code_points s in
  let start := span (fun cp => negb (bad cp)) text in
  let run := span bad (drop start text) in
  if decide (run = O) then Ok (list_byte_of_string s)
  else Raise (UnicodeEncodeError
                (encode_error codec text start (start + run) reason)).

Definition is_surrogate (cp : Z) : bool := (0xD800 <=? cp) && (cp <=? 0xDFFF).

(** [s.encode("utf-8")] *)
Definition encode_utf8 (s : string) : result (list Byte.byte) :=
  strict "utf-8" "surrogates not allowed" is_surrogate s.

(** [s.isascii()] *)
Fixpoint isascii (s : string) : bool :=
  match s with
  | EmptyString => true
  | String c s' => (ord c <? 128) && isascii s'
  end.

(** ** Pillow images, as far as the program uses them *)

Definition pixel : Type := Z * Z * Z.

(** An ["RGB"] image: its size and its pixels in row-major order. *)
Record Image : Type := mkImage {
  im_width : nat;
  im_height : nat;
  im_data : list pixel
}.

Definition black : pixel := (0, 0, 0).

(** [Image.new("RGB", (w, h), "black")]; the colour is black by default. *)
Definition Image_new (w h : nat) : Image :=
  mkImage w h (replicate (w * h) black).

(** [img.putpixel((x, y), c)]: [IndexError] outside the image. *)
Definition putpixel (img : Image) (xy : nat * nat) (c : pixel) : result Image :=
  let '(x, y) := xy in
  if decide (x < im_width img ∧ y < im_height img)%nat
  then Ok (mkImage (im_width img) (im_height img)
                   (<[(y * im_width img + x)%nat := c]> (im_data img)))
  else Raise IndexError.

(** [img.getpixel((x, y))], used to observe the images. *)
Definition getpixel (img : Image) (xy : nat * nat) : option pixel :=
  let '(x, y) := xy in
  if decide (x < im_width img ∧ y < im_height img)%nat
  then im_data img !! (y * im_width img + x)%nat
  else None.

(** ** The random source *)

(** The two functions of Python's [random] module that the program calls,
    over an explicit generator state. *)
Class RandomSource (G : Type) : Type := {
  randint : Z → Z → G → Z * G;
  choice : list Z → G → Z * G
}.

(** [[random.randint(lo, hi) for _ in range(n)]] *)
Fixpoint randint_list {G} `{RandomSource G} (n : nat) (lo hi : Z) (g : G)
    : list Z * G :=
  match n with
  | O => ([], g)
  | S n' =>
      let '(v, g1) := randint lo hi g in
      let '(vs, g2) := randint_list n' lo hi g1 in
      (v :: vs, g2)
  end.

(** ** Constants *)

Definition FB_W : nat := 256.
Definition FB_H : nat := 192.

(** ** [class EmulatorCore] *)

Record EmulatorCore : Type := mkEmulatorCore {
  rom_path : option string;
  running : bool;
  _frame : Z;
  arm9 : list Z;
  arm7 : list Z;
  cpsr9 : Z;
  cpsr7 : Z;
  fb_top : Image;
  fb_bot : Image
}.

Module EmulatorCore.

Definition __init__ : EmulatorCore :=
  {| rom_path := None;
     running := false;
     _frame := 0;
     arm9 := replicate 16 0;
     arm7 := replicate 16 0;
     cpsr9 := 0x1F;
     cpsr7 := 0x1F;
     fb_top := Image_new FB_W FB_H;
     fb_bot := Image_new FB_W FB_H |}.

Definition set_rom_path (v : option string) (self : EmulatorCore) :=
  mkEmulatorCore v (running self) (_frame self) (arm9 self) (arm7 self)
    (cpsr9 self) (cpsr7 self) (fb_top self) (fb_bot self).
Definition set_running (v : bool) (self : EmulatorCore) :=
  mkEmulatorCore (rom_path self) v (_frame self) (arm9 self) (arm7 self)
    (cpsr9 self) (cpsr7 self) (fb_top self) (fb_bot self).
Definition set_frame (v : Z) (self : EmulatorCore) :=
  mkEmulatorCore (rom_path self) (running self) v (arm9 self) (arm7 self)
    (cpsr9 self) (cpsr7 self) (fb_top self) (fb_bot self).
Definition set_registers (r9 r7 : list Z) (c9 c7 : Z) (self : EmulatorCore) :=
  mkEmulatorCore (rom_path self) (running self) (_frame self) r9 r7
    c9 c7 (fb_top self) (fb_bot self).
Definition set_framebuffers (top bot : Image) (self : EmulatorCore) :=
  mkEmulatorCore (rom_path self) (running self) (_frame self) (arm9 self)
    (arm7 self) (cpsr9 self) (cpsr7 self) top bot.

(** Returns [True] on success; the null core always succeeds. *)
Definition load_rom (self : EmulatorCore) (path : string)
    : bool * EmulatorCore :=
  (true, set_rom_path (Some path) self).

Definition reset (self : EmulatorCore) : EmulatorCore :=
  set_running false (set_frame 0 self).

Definition get_registers (self : EmulatorCore)
    : list Z * list Z * Z * Z :=
  (arm9 self, arm7 self, cpsr9 self, cpsr7 self).

Definition get_framebuffers (self : EmulatorCore) : Image * Image :=
  (fb_top self, fb_bot self).

Definition _fake_registers {G} `{RandomSource G} (self : EmulatorCore)
    (g : G) : EmulatorCore * G :=
  let '(r9, g1) := randint_list 16 0 0xFFFFFFFF g in
  let '(r7, g2) := randint_list 16 0 0xFFFFFFFF g1 in
  let '(c9, g3) := choice [0x10; 0x1F; 0x13] g2 in
  let '(c7, g4) := choice [0x10; 0x1F; 0x13] g3 in
  (set_registers r9 r7 c9 c7 self, g4).

(** The two colours computed before the loops. *)
Definition c1 (frame : Z) : pixel := (60 + 10 * (frame mod 6), 50, 255).
Definition c2 (frame : Z) : pixel := (255, 60 + 7 * (frame mod 8), 80).

(** The colour written at row [y]: [c] on the bands where
    [(y // 8) % 2 == 0], the fixed colour [other] elsewhere. *)
Definition band (y : nat) (c other : pixel) : pixel :=
  if ((y / 8) mod 2 =? 0)%nat then c else other.

(** The body of the inner loop: one pixel of each screen. *)
Definition paint (c1 c2 : pixel) (y x : nat) (self : EmulatorCore)
    : result EmulatorCore :=
  top ← putpixel (fb_top self) (x, y) (band y c1 (42, 54, 84));
  bot ← putpixel (fb_bot self) (x, y) (band y c2 (34, 34, 34));
  Ok (set_framebuffers top bot self).

Definition _fake_framebuffers (self : EmulatorCore) : result EmulatorCore :=
  let c1 := c1 (_frame self) in
  let c2 := c2 (_frame self) in
  for_each (seq 0 FB_H) (fun y =>
    for_each (seq 0 FB_W) (fun x => paint c1 c2 y x)) self.

(** Advance one emulation frame. *)
Definition run_frame {G} `{RandomSource G} (self : EmulatorCore) (g : G)
    : result (EmulatorCore * G) :=
  let self := set_frame (_frame self + 1) self in
  let '(self, g) := _fake_registers self g in
  self ← _fake_framebuffers self;
  Ok (self, g).

End EmulatorCore.

(** ** The native library behind [NoGbaCore] *)

(** [ctypes] arrays.  A buffer handed to native code is a block of memory
    addressed by element index; Python reads element [i] of an array of
    [c_uint32] (of [c_uint16]) as the stored word reduced to 32 (to 16)
    bits, and an array has the fixed length it was created with. *)
Definition buffer : Type := nat → Z.

Definition c_uint32 (v : Z) : Z := v mod 2 ^ 32.
Definition c_uint16 (v : Z) : Z := v mod 2 ^ 16.

(** [(ctype * n)()]: zero-initialised. *)
Definition carray_new : buffer := fun _ => 0.

(** [list(arr)] for an array of [n] elements of type [ctype]. *)
Definition carray_list (ctype : Z → Z) (n : nat) (arr : buffer) : list Z :=
  (fun i => ctype (arr i)) <$> seq 0 n.

(** The C API listed in the module docstring, over the state [L] of the
    loaded library.  [_init_functions] declares exactly these signatures:
    [nogba_init] and [nogba_load_rom] return a C [int], the others return
    nothing and may write into the buffer they are given. *)
Class NativeLib (L : Type) : Type := {
  nogba_init : L → Z * L;
  nogba_reset : L → L;
  nogba_load_rom : list Byte.byte → L → Z * L;
  nogba_run_frame : L → L;
  nogba_get_arm9_regs : buffer → L → buffer * L;
  nogba_get_arm7_regs : buffer → L → buffer * L;
  nogba_get_framebuffer_top : buffer → L → buffer * L;
  nogba_get_framebuffer_bot : buffer → L → buffer * L
}.

(** What the program reads from its surroundings: [os.name],
    [__file__], the two [os.path] functions, the loader [ctypes.CDLL],
    which returns a library or raises, the lookup of a name in a loaded
    library ([lib.name], which raises [AttributeError] when the library
    does not export the name), and the standard output, which takes a
    text or raises ([UnicodeEncodeError] when its encoding has no bytes
    for a character of the text). *)
Record Env (L : Type) : Type := mkEnv {
  os_name : string;
  __file__ : string;
  os_path_dirname : string → string;
  os_path_join : string → string → string;
  CDLL : string → result L;
  CDLL_getattr : L → string → result ();
  sys_stdout_write : string → result ()
}.
Arguments os_name {L} _.
Arguments __file__ {L} _.
Arguments os_path_dirname {L} _ _.
Arguments os_path_join {L} _ _ _.
Arguments CDLL {L} _ _.
Arguments CDLL_getattr {L} _ _ _.
Arguments sys_stdout_write {L} _ _.

(** [print(s)] after the lines [out] were printed: the line is added to
    them, unless the standard output raises; nothing of the line is
    written then. *)
Definition print {L : Type} (env : Env L) (s : string) (out : list string)
    : list string * result () :=
  match sys_stdout_write env s with
  | Ok _ => (out ++ [s], Ok ())
  | Raise e => (out, Raise e)
  end.

(** "Convert RGB565 to RGB888": the three assignments in the loop of
    [convert]. *)
Definition rgb565_to_rgb888 (pix : Z) : pixel :=
  let r := Z.shiftl (Z.land (Z.shiftr pix 11) 0x1F) 3 in
  let g := Z.shiftl (Z.land (Z.shiftr pix 5) 0x3F) 2 in
  let b := Z.shiftl (Z.land pix 0x1F) 3 in
  (r, g, b).

(** The local function [convert] of [_pull_framebuffers]. *)
Definition convert (src : list Z) : result Image :=
  for_each (enumerate src) (fun '(i, pix) img =>
    putpixel img ((i mod FB_W)%nat, (i / FB_W)%nat) (rgb565_to_rgb888 pix))
    (Image_new FB_W FB_H).

(** ** [class NoGbaCore(EmulatorCore)] *)

(** The inherited attributes and the library handle [_lib]; a handle is
    the state of the library it refers to, [None] when none was bound. *)
Record NoGbaCore (L : Type) : Type := mkNoGbaCore {
  base : EmulatorCore;
  _lib : option L
}.
Arguments mkNoGbaCore {L} _ _.
Arguments base {L} _.
Arguments _lib {L} _.

Module NoGbaCore.
Section WithLibrary.
Context {L : Type} `{NativeLib L}.

Definition set_base (b : EmulatorCore) (self : NoGbaCore L) : NoGbaCore L :=
  mkNoGbaCore b (_lib self).
Definition set_lib (l : option L) (self : NoGbaCore L) : NoGbaCore L :=
  mkNoGbaCore (base self) l.

Definition candidates (env : Env L) : list string :=
  [ if String.eqb (os_name env) "nt" then "nogba.dll" else "libnogba.so";
    os_path_join env (os_path_dirname env (__file__ env)) "nogba.dll";
    os_path_join env (os_path_dirname env (__file__ env)) "libnogba.so" ]%string.

(** The loop of [_load_library]: the first candidate that loads is
    returned, [OSError] moves on to the next one, any other exception
    escapes; [None] stands for leaving the loop without a return. *)
Fixpoint try_candidates (env : Env L) (paths : list string)
    : result (option L) :=
  match paths with
  | [] => Ok None
  | path :: paths' =>
      match CDLL env path with
      | Ok lib => Ok (Some lib)
      | Raise OSError => try_candidates env paths'
      | Raise e => Raise e
      end
  end.

Definition warning : string :=
  "[WARN] no$gba shared library not found — falling back to stub mode.".

(** Returns the lines printed and the value returned or exception
    raised.  The [print] after the loop is outside the [try]: what it
    raises leaves [_load_library]. *)
Definition _load_library (env : Env L) : list string * result (option L) :=
  match try_candidates env (candidates env) with
  | Ok None =>
      let '(out, r) := print env warning [] in
      (out, _ ← r; Ok None)
  | r => ([], r)
  end.

(** The names that [_init_functions] looks up in the library, in the
    order of its statements (the second statement about
    [nogba_load_rom] finds the function that the first one bound). *)
Definition entry_points : list string :=
  [ "nogba_init"; "nogba_reset"; "nogba_load_rom"; "nogba_run_frame";
    "nogba_get_arm9_regs"; "nogba_get_arm7_regs";
    "nogba_get_framebuffer_top"; "nogba_get_framebuffer_bot" ]%string.

(** [_init_functions]: every [self._lib.<name>] looks the name up, and
    the first name that the library does not export ends the method with
    the [AttributeError] of the lookup.  The assignments themselves
    declare the C signatures, which are the types of the fields of
    [NativeLib]. *)
Definition _init_functions (env : Env L) (lib : L) : result () :=
  for_each entry_points (fun name _ => CDLL_getattr env lib name) ().

(** The outcome of calling the constructor: the lines printed, the
    object as [__init__] left it, and whether [__init__] returned or
    raised. *)
Record constructed : Type := mkConstructed {
  printed : list string;
  self_of : NoGbaCore L;
  outcome : result ()
}.

Definition __init__ (env : Env L) : constructed :=
  let self := mkNoGbaCore EmulatorCore.__init__ None in
  let '(out, r) := _load_library env in
  match r with
  | Raise e => mkConstructed out self (Raise e)
  | Ok None => mkConstructed out self (Ok ())
  | Ok (Some lib) =>
      let self := set_lib (Some lib) self in
      match _init_functions env lib with
      | Raise e => mkConstructed out self (Raise e)
      | Ok _ =>
          let '(rc, lib) := nogba_init lib in
          let self := set_lib (Some lib) self in
          if decide (rc ≠ 0)
          then mkConstructed out self
                 (Raise (RuntimeError "no$gba: initialization failed"))
          else mkConstructed out self (Ok ())
      end
  end.

(** [path.encode("utf-8")] is evaluated before the library is called and
    before anything is assigned. *)
Definition load_rom (self : NoGbaCore L) (path : string)
    : result (bool * NoGbaCore L) :=
  match _lib self with
  | None =>
      let '(r, b) := EmulatorCore.load_rom (base self) path in
      Ok (r, set_base b self)
  | Some lib =>
      bytes ← encode_utf8 path;
      let '(rc, lib) := nogba_load_rom bytes lib in
      let self := set_lib (Some lib) self in
      if decide (rc ≠ 0) then Ok (false, self)
      else Ok (true, set_base (EmulatorCore.set_rom_path (Some path)
                                 (base self)) self)
  end.

Definition reset (self : NoGbaCore L) : NoGbaCore L :=
  let self :=
    match _lib self with
    | Some lib => set_lib (Some (nogba_reset lib)) self
    | None => self
    end in
  set_base (EmulatorCore.reset (base self)) self.

(** The two helpers below use [self._lib] without a test and are only
    called where it is bound: they take the library as an argument and
    return it with the attributes of the object. *)
Definition _pull_registers (lib : L) (self : EmulatorCore)
    : EmulatorCore * L :=
  let arr := carray_new in
  let '(arr, lib) := nogba_get_arm9_regs arr lib in
  let r9 := take 16 (carray_list c_uint32 17 arr) in
  let c9 := c_uint32 (arr 16%nat) in
  let '(arr, lib) := nogba_get_arm7_regs arr lib in
  let r7 := take 16 (carray_list c_uint32 17 arr) in
  let c7 := c_uint32 (arr 16%nat) in
  (EmulatorCore.set_registers r9 r7 c9 c7 self, lib).

Definition _pull_framebuffers (lib : L) (self : EmulatorCore)
    : result (EmulatorCore * L) :=
  let buf_top := carray_new in
  let buf_bot := carray_new in
  let '(buf_top, lib) := nogba_get_framebuffer_top buf_top lib in
  let '(buf_bot, lib) := nogba_get_framebuffer_bot buf_bot lib in
  top ← convert (carray_list c_uint16 (FB_W * FB_H) buf_top);
  bot ← convert (carray_list c_uint16 (FB_W * FB_H) buf_bot);
  Ok (EmulatorCore.set_framebuffers top bot self, lib).

Definition run_frame {G} `{RandomSource G} (self : NoGbaCore L) (g : G)
    : result (NoGbaCore L * G) :=
  match _lib self with
  | None =>
      '(b, g) ← EmulatorCore.run_frame (base self) g;
      Ok (set_base b self, g)
  | Some lib =>
      let lib := nogba_run_frame lib in
      let '(b, lib) := _pull_registers lib (base self) in
      '(b, lib) ← _pull_framebuffers lib b;
      let b := EmulatorCore.set_frame (_frame b + 1) b in
      Ok (mkNoGbaCore b (Some lib), g)
  end.

(** Inherited unchanged from [EmulatorCore]. *)
Definition get_registers (self : NoGbaCore L) : list Z * list Z * Z * Z :=
  EmulatorCore.get_registers (base self).

Definition get_framebuffers (self : NoGbaCore L) : Image * Image :=
  EmulatorCore.get_framebuffers (base self).

End WithLibrary.
End NoGbaCore.

(** ** The core as the front end holds it *)

(** The front end keeps one core, of either class, and calls its methods
    through dynamic dispatch. *)
Inductive core (L : Type) : Type :=
  | AsEmulatorCore (c : EmulatorCore)
  | AsNoGbaCore (c : NoGbaCore L).
Arguments AsEmulatorCore {L} c.
Arguments AsNoGbaCore {L} c.

(** The calls of the public API and what they return. *)
Inductive call : Type :=
  | LoadRom (path : string)
  | Reset
  | RunFrame
  | GetRegisters
  | GetFramebuffers.

Inductive retval : Type :=
  | RetBool (b : bool)
  | RetNone
  | RetRegisters (regs : list Z * list Z * Z * Z)
  | RetFramebuffers (fbs : Image * Image).

Module Core.
Section Dispatch.
Context {L : Type} `{NativeLib L} {G : Type} `{RandomSource G}.

(** The attributes every core has. *)
Definition attrs (c : core L) : EmulatorCore :=
  match c with
  | AsEmulatorCore e => e
  | AsNoGbaCore n => base n
  end.

Definition load_rom (c : core L) (path : string) : result (bool * core L) :=
  match c with
  | AsEmulatorCore e =>
      let '(r, e) := EmulatorCore.load_rom e path in Ok (r, AsEmulatorCore e)
  | AsNoGbaCore n =>
      '(r, n) ← NoGbaCore.load_rom n path; Ok (r, AsNoGbaCore n)
  end.

Definition reset (c : core L) : core L :=
  match c with
  | AsEmulatorCore e => AsEmulatorCore (EmulatorCore.reset e)
  | AsNoGbaCore n => AsNoGbaCore (NoGbaCore.reset n)
  end.

Definition run_frame (c : core L) (g : G) : result (core L * G) :=
  match c with
  | AsEmulatorCore e =>
      '(e, g) ← EmulatorCore.run_frame e g; Ok (AsEmulatorCore e, g)
  | AsNoGbaCore n =>
      '(n, g) ← NoGbaCore.run_frame n g; Ok (AsNoGbaCore n, g)
  end.

Definition get_registers (c : core L) : list Z * list Z * Z * Z :=
  match c with
  | AsEmulatorCore e => EmulatorCore.get_registers e
  | AsNoGbaCore n => NoGbaCore.get_registers n
  end.

Definition get_framebuffers (c : core L) : Image * Image :=
  match c with
  | AsEmulatorCore e => EmulatorCore.get_framebuffers e
  | AsNoGbaCore n => NoGbaCore.get_framebuffers n
  end.

(** [run_frame] called [n] times in a row. *)
Fixpoint run_frames (n : nat) (c : core L) (g : G) : result (core L * G) :=
  match n with
  | O => Ok (c, g)
  | S n' => '(c, g) ← run_frame c g; run_frames n' c g
  end.

(** One call of the API: the value returned and the state left. *)
Definition do_call (k : call) (c : core L) (g : G)
    : result (retval * core L * G) :=
  match k with
  | LoadRom path => '(r, c) ← load_rom c path; Ok (RetBool r, c, g)
  | Reset => Ok (RetNone, reset c, g)
  | RunFrame => '(c, g) ← run_frame c g; Ok (RetNone, c, g)
  | GetRegisters => Ok (RetRegisters (get_registers c), c, g)
  | GetFramebuffers => Ok (RetFramebuffers (get_framebuffers c), c, g)
  end.

(** A sequence of calls: the values returned, in order, and the final
    state. *)
Fixpoint do_calls (ks : list call) (c : core L) (g : G)
    : result (list retval * core L * G) :=
  match ks with
  | [] => Ok ([], c, g)
  | k :: ks' =>
      '(r, c, g) ← do_call k c g;
      '(rs, c, g) ← do_calls ks' c g;
      Ok (r :: rs, c, g)
  end.

(** The cores a program can hold: a constructor returned it, or a method
    was called on a core it could hold and returned. *)
Inductive reachable : core L → Prop :=
  | reach_EmulatorCore :
      reachable (AsEmulatorCore EmulatorCore.__init__)
  | reach_NoGbaCore env :
      NoGbaCore.outcome (NoGbaCore.__init__ env) = Ok () →
      reachable (AsNoGbaCore (NoGbaCore.self_of (NoGbaCore.__init__ env)))
  | reach_load_rom c path r c' :
      reachable c → load_rom c path = Ok (r, c') → reachable c'
  | reach_reset c :
      reachable c → reachable (reset c)
  | reach_run_frame c g c' g' :
      reachable c → run_frame c g = Ok (c', g') → reachable c'.

End Dispatch.
End Core.

(** ** Closed forms used in the statements *)

(** The image of size [w] x [h] whose pixel number [j], in row-major
    order, is [f j]. *)
Definition image_of (w h : nat) (f : nat → pixel) : Image :=
  mkImage w h (f <$> seq 0 (w * h)).

(** The image of size [w] x [h] whose row [y] has the colour [col y]. *)
Definition rows_image (w h : nat) (col : nat → pixel) : Image :=
  image_of w h (fun j => col (j / w)%nat).

(** The first [k] pixels (in row-major order) of an image of size
    [w] x [h] are already those of [image_of w h f]. *)
Definition filled (w h : nat) (f : nat → pixel) (k : nat) (img : Image)
    : Prop :=
  im_width img = w ∧ im_height img = h ∧
  length (im_data img) = (w * h)%nat ∧
  ∀ j, (j < k)%nat → im_data img !! j = Some (f j).

(** What [_fake_framebuffers] draws at frame counter [frame]. *)
Definition top_picture (frame : Z) : Image :=
  rows_image FB_W FB_H
    (fun y => EmulatorCore.band y (EmulatorCore.c1 frame) (42, 54, 84)).
Definition bot_picture (frame : Z) : Image :=
  rows_image FB_W FB_H
    (fun y => EmulatorCore.band y (EmulatorCore.c2 frame) (34, 34, 34)).

(** Both screens have the size fixed by [FB_W] and [FB_H]. *)
Definition screen_ok (img : Image) : Prop :=
  im_width img = FB_W ∧ im_height img = FB_H ∧
  length (im_data img) = (FB_W * FB_H)%nat.
Definition screens_ok (self : EmulatorCore) : Prop :=
  screen_ok (fb_top self) ∧ screen_ok (fb_bot self).

(** The general-purpose register arrays have 16 entries each. *)
Definition regs16 (self : EmulatorCore) : Prop :=
  length (arm9 self) = 16%nat ∧ length (arm7 self) = 16%nat.

(** ** Concrete instances for examples *)

(** A seeded linear congruential generator as random source. *)
#[local] Instance lcg : RandomSource Z := {|
  randint lo hi g := (lo + g mod (hi - lo + 1), (g * 1103515245 + 12345) mod 2 ^ 31);
  choice xs g :=
    (nth (Z.to_nat (g mod Z.of_nat (length xs))) xs 0,
     (g * 1103515245 + 12345) mod 2 ^ 31)
|}.

(** A toy native library.  Its state is a frame count; a negative state is
    a library whose [nogba_init] fails; it refuses to load the empty
    path. *)
#[local] Instance toy_lib : NativeLib Z := {|
  nogba_init l := (if decide (l < 0) then 1 else 0, l);
  nogba_reset l := 0;
  nogba_load_rom path l := (if decide (path = []) then 1 else 0, l);
  nogba_run_frame l := l + 1;
  nogba_get_arm9_regs arr l := (fun i => l + Z.of_nat i, l);
  nogba_get_arm7_regs arr l := (fun i => if decide (i < 8)%nat then arr i else 7, l);
  nogba_get_framebuffer_top arr l := (fun i => l + Z.of_nat i, l);
  nogba_get_framebuffer_bot arr l := (fun i => 0xF800, l)
|}.


(** Two standard outputs: one whose encoding is UTF-8 and one whose
    encoding is ASCII, both with the error handler ["strict"]. *)
Definition utf8_stdout (s : string) : result () :=
  _ ← encode_utf8 s; Ok ().
Definition ascii_stdout (s : string) : result () :=
  _ ← strict "ascii" "ordinal not in range(128)" (fun cp => 128 <=? cp) s;
  Ok ().

(** Environments: no library anywhere; a library (with the given initial
    state) next to the script; no library and a standard output in
    ASCII; a library without entry points under a directory whose name
    is not in ASCII, with a standard output in ASCII; a library next to
    the script that lacks one of the entry points. *)
Definition env_no_library : Env Z :=
  mkEnv Z "posix" "/opt/emuds/o3emuds.py" (fun _ => "/opt/emuds")
    (fun d f => d +:+ "/" +:+ f) (fun _ => Raise OSError)
    (fun _ _ => Ok ()) utf8_stdout.
Definition env_with_library (l0 : Z) : Env Z :=
  mkEnv Z "posix" "/opt/emuds/o3emuds.py" (fun _ => "/opt/emuds")
    (fun d f => d +:+ "/" +:+ f)
    (fun p => if String.eqb p "/opt/emuds/libnogba.so" then Ok l0
              else Raise OSError)
    (fun _ _ => Ok ()) utf8_stdout.
Definition env_ascii_stdout : Env Z :=
  mkEnv Z "posix" "/opt/emuds/o3emuds.py" (fun _ => "/opt/emuds")
    (fun d f => d +:+ "/" +:+ f) (fun _ => Raise OSError)
    (fun _ _ => Ok ()) ascii_stdout.
Definition env_cafe : Env Z :=
  mkEnv Z "posix" "/opt/café/o3emuds.py" (fun _ => "/opt/café")
    (fun d f => d +:+ "/" +:+ f)
    (fun p => if String.eqb p "/opt/café/libnogba.so" then Ok 0
              else Raise OSError)
    (fun _ name =>
       Raise (AttributeError
                ("/opt/café/libnogba.so: undefined symbol: " +:+ name)))
    ascii_stdout.
Definition env_incomplete_library : Env Z :=
  mkEnv Z "posix" "/opt/emuds/o3emuds.py" (fun _ => "/opt/emuds")
    (fun d f => d +:+ "/" +:+ f)
    (fun p => if String.eqb p "/opt/emuds/libnogba.so" then Ok 0
              else Raise OSError)
    (fun _ name =>
       if String.eqb name "nogba_get_arm7_regs"
       then Raise (AttributeError
                     "/opt/emuds/libnogba.so: undefined symbol: nogba_get_arm7_regs")
       else Ok ())
    utf8_stdout.

(** Invariant of the loops of [_fake_framebuffers] run on [self0], for
    screens of size [w] x [h] and the colours [ca] and [cb]: only the two
    images differ from [self0], and their first [k] pixels are drawn. *)
Definition drawn (w h : nat) (ca cb : pixel) (self0 : EmulatorCore)
    (k : nat) (self : EmulatorCore) : Prop :=
  ∃ top bot,
    self = EmulatorCore.set_framebuffers top bot self0 ∧
    filled w h (fun j => EmulatorCore.band (j / w) ca (42, 54, 84)) k top ∧
    filled w h (fun j => EmulatorCore.band (j / w) cb (34, 34, 34)) k bot.

(** ** Notions used in the statements *)

(** The library a core is bound to, if any: the null core has none. *)
Definition bound_library {L : Type} (c : core L) : option L :=
  match c with
  | AsEmulatorCore _ => None
  | AsNoGbaCore n => _lib n
  end.

(** A [NoGbaCore] in stub mode with the attributes of the given core. *)
Definition as_stub {L : Type} `{NativeLib L} (c : core L) : core L :=
  AsNoGbaCore (mkNoGbaCore (Core.attrs c) None).

Definition result_map {A B : Type} (f : A → B) (m : result A) : result B :=
  match m with
  | Ok a => Ok (f a)
  | Raise e => Raise e
  end.

(** "[load_rom] fails on an unreadable path and leaves [rom_path] as it
    was", for a file system given by the paths it can read. *)
Definition load_rom_rejects {L : Type} `{NativeLib L}
    (readable : string → bool) (c : core L) (path : string) : Prop :=
  readable path = false →
  ∃ c', Core.load_rom c path = Ok (false, c') ∧
        rom_path (Core.attrs c') = rom_path (Core.attrs c).

(** The pixel at [xy] of the top ([top = true]) or bottom screen that
    [_fake_framebuffers] draws on a fresh core whose frame counter is
    [frame]. *)
Definition pixel_drawn (top : bool) (xy : nat * nat)
    (drawn : result EmulatorCore) : option pixel :=
  match drawn with
  | Ok self => getpixel (if top then fb_top self else fb_bot self) xy
  | Raise _ => None
  end.
Definition screen_pixel (top : bool) (frame : Z) (xy : nat * nat)
    : option pixel :=
  pixel_drawn top xy
    (EmulatorCore._fake_framebuffers
       (EmulatorCore.set_frame frame EmulatorCore.__init__)).

(** "The colour of the band of row [y] of that screen depends on the
    frame counter": two frame counters give different colours. *)
Definition band_animated (top : bool) (y : nat) : Prop :=
  ∃ f1 f2 : Z, screen_pixel top f1 (0%nat, y) ≠ screen_pixel top f2 (0%nat, y).

(** ** Further notions: value ranges and the contract of [random] *)

(** What Python documents for the two functions of [random]:
    [randint(lo, hi)] lies between its bounds when [lo <= hi], and
    [choice] returns an element of a non-empty sequence. *)
Class RandomContract (G : Type) `{RandomSource G} : Prop := {
  randint_range : ∀ lo hi (g : G), lo ≤ hi → lo ≤ (randint lo hi g).1 ≤ hi;
  choice_elem : ∀ xs (g : G), xs ≠ [] → (choice xs g).1 ∈ xs
}.

(** An unsigned 32-bit value. *)
Definition u32 (v : Z) : Prop := 0 ≤ v < 2 ^ 32.

(** All registers and both status words are unsigned 32-bit values. *)
Definition regs_u32 (self : EmulatorCore) : Prop :=
  Forall u32 (arm9 self) ∧ Forall u32 (arm7 self) ∧
  u32 (cpsr9 self) ∧ u32 (cpsr7 self).


(** A native library whose [nogba_get_arm7_regs] writes nothing: the
    other entry points are those of the toy library. *)
Definition lazy_arm7_lib : NativeLib Z := {|
  nogba_init l := (0, l);
  nogba_reset l := 0;
  nogba_load_rom path l := (0, l);
  nogba_run_frame l := l + 1;
  nogba_get_arm9_regs arr l := (fun i => l + Z.of_nat i, l);
  nogba_get_arm7_regs arr l := (arr, l);
  nogba_get_framebuffer_top arr l := (arr, l);
  nogba_get_framebuffer_bot arr l := (arr, l)
|}.

(** ** The main block: choosing the core *)

(** [str(e)] for the exceptions of the model: the message, nothing for
    an exception raised without arguments. *)
Definition str_exn (e : exn) : string :=
  match e with
  | RuntimeError msg | AttributeError msg | UnicodeEncodeError msg => msg
  | OSError | IndexError => ""
  end.

(** The body of the [try] statement of the main block: the lines printed
    (those of [NoGbaCore.__init__] included) and the core constructed, or
    the exception raised. *)
Definition main_try {L : Type} `{NativeLib L} (env : Env L)
    : list string * result (core L) :=
  let made := NoGbaCore.__init__ env in
  let out := NoGbaCore.printed made in
  match NoGbaCore.outcome made with
  | Raise e => (out, Raise e)
  | Ok _ =>
      let core := AsNoGbaCore (NoGbaCore.self_of made) in
      match _lib (NoGbaCore.self_of made) with
      | Some _ =>
          let '(out, r) :=
            print env "[INFO] no$gba core successfully loaded." out in
          (out, _ ← r; Ok core)
      | None => (out, Ok core)
      end
  end.

(** The two lines that the [except] branch prints for the exception
    [e]. *)
Definition except_lines (e : exn) : string * string :=
  ("[ERROR] Failed to initialize no$gba core: " +:+ str_exn e,
   "[INFO] Falling back to dummy core.").

(** The [except] branch, entered with the exception [e] after the lines
    [out] were printed; what one of its [print] raises leaves the main
    block. *)
Definition except_branch {L : Type} `{NativeLib L} (env : Env L) (e : exn)
    (out : list string) : list string * result (core L) :=
  let '(out, r) := print env (except_lines e).1 out in
  match r with
  | Raise e' => (out, Raise e')
  | Ok _ =>
      let '(out, r) := print env (except_lines e).2 out in
      match r with
      | Raise e' => (out, Raise e')
      | Ok _ => (out, Ok (AsEmulatorCore EmulatorCore.__init__))
      end
  end.

(** The [try] statement of the main block: the lines printed and the
    core chosen, or the exception that leaves the statement.  [except
    Exception] catches every exception of the model. *)
Definition main_core {L : Type} `{NativeLib L} (env : Env L)
    : list string * result (core L) :=
  match main_try env with
  | (out, Ok c) => (out, Ok c)
  | (out, Raise e) => except_branch env e out
  end.

(** What the [except] branch leaves when it is entered with the
    exception [e]. *)
Definition fallback {L : Type} `{NativeLib L} (env : Env L) (e : exn)
    : result (core L) :=
  (except_branch env e []).2.

(** The standard output takes the text [s]. *)
Definition stdout_takes {L : Type} (env : Env L) (s : string) : Prop :=
  sys_stdout_write env s = Ok ().

(** UTF-8 has bytes for the text [s]. *)
Definition encodable (s : string) : Prop :=
  ∃ bytes, encode_utf8 s = Ok bytes.

(** The frame counter expected after the calls [ks], starting from
    [frame]: [reset] sets it to 0, [run_frame] adds 1, the other calls
    leave it. *)
Definition frames_after (ks : list call) (frame : Z) : Z :=
  fold_left (fun f k =>
    match k with
    | Reset => 0
    | RunFrame => f + 1
    | LoadRom _ | GetRegisters | GetFramebuffers => f
    end) ks frame.

(** Every path passed to [load_rom] by the calls [ks] is a text that
    UTF-8 has bytes for. *)
Definition paths_encodable (ks : list call) : Prop :=
  Forall (fun k =>
    match k with
    | LoadRom path => encodable path
    | Reset | RunFrame | GetRegisters | GetFramebuffers => True
    end) ks.

(** The processor modes [_fake_registers] chooses from. *)
Definition fake_modes : list Z := [0x10; 0x1F; 0x13].

(** [l[i]] on a Python list, for [i >= 0]. *)
Definition getitem (l : list Z) (i : nat) : result Z :=
  match l !! i with
  | Some v => Ok v
  | None => Raise IndexError
  end.

(** ** [class EmuDSNoGBA]: the front end *)

(** What the front end takes from its libraries without the program
    fixing it: [os.path.basename] and [Image.resize]. *)
Class Toolkit : Type := {
  os_path_basename : string → string;
  Image_resize : Image → nat * nat → Image
}.

(** The type of the attribute [core]: a core of either class. *)
Definition backend (L : Type) : Type := core L.

(** What the user and the event loop can make the front end do: the menu
    commands ([LoadGame] with what the file dialog returned, the empty
    string when it was cancelled), the firing of a callback scheduled
    with [root.after], and an edit in the memory view, the one widget
    that takes input ([EditMemView] with the text that the edit
    leaves). *)
Inductive command : Type :=
  | LoadGame (fname : string)
  | Run
  | Stop
  | ResetCmd
  | MemoryViewer
  | VramViewer
  | SoundLog
  | AfterCallback
  | EditMemView (text : string).

Module EmuDSNoGBA.

(** The attributes of the object and the contents of its widgets:
    [reg_text] and [mem_view] are the texts shown, [mem_editable] tells
    whether the state of [mem_view] is [NORMAL] (the state of [reg_text]
    is [DISABLED] whenever a command starts), [screen_top] and
    [screen_bot] are the images shown, [rom_label] and [statusbar] the
    label texts, and [after_pending] counts the callbacks scheduled with
    [root.after] that have not fired yet. *)
Record gui (L : Type) : Type := mkGui {
  core : backend L;
  rom_name : string;
  running : bool;
  reg_text : string;
  mem_view : string;
  mem_editable : bool;
  screen_top : option Image;
  screen_bot : option Image;
  rom_label : string;
  statusbar : string;
  after_pending : nat
}.
Arguments mkGui {L} _ _ _ _ _ _ _ _ _ _ _.
Arguments core {L} _.
Arguments rom_name {L} _.
Arguments running {L} _.
Arguments reg_text {L} _.
Arguments mem_view {L} _.
Arguments mem_editable {L} _.
Arguments screen_top {L} _.
Arguments screen_bot {L} _.
Arguments rom_label {L} _.
Arguments statusbar {L} _.
Arguments after_pending {L} _.

Section FrontEnd.
Context {L : Type} `{NativeLib L} {G : Type} `{RandomSource G} `{Toolkit}.

Definition set_core (v : backend L) (self : gui L) : gui L :=
  mkGui v (rom_name self) (running self) (reg_text self) (mem_view self)
    (mem_editable self) (screen_top self) (screen_bot self) (rom_label self)
    (statusbar self) (after_pending self).
Definition set_rom_name (v : string) (self : gui L) : gui L :=
  mkGui (core self) v (running self) (reg_text self) (mem_view self)
    (mem_editable self) (screen_top self) (screen_bot self) (rom_label self)
    (statusbar self) (after_pending self).
Definition set_running (v : bool) (self : gui L) : gui L :=
  mkGui (core self) (rom_name self) v (reg_text self) (mem_view self)
    (mem_editable self) (screen_top self) (screen_bot self) (rom_label self)
    (statusbar self) (after_pending self).
Definition set_reg_text (v : string) (self : gui L) : gui L :=
  mkGui (core self) (rom_name self) (running self) v (mem_view self)
    (mem_editable self) (screen_top self) (screen_bot self) (rom_label self)
    (statusbar self) (after_pending self).
Definition set_mem_view (v : string) (self : gui L) : gui L :=
  mkGui (core self) (rom_name self) (running self) (reg_text self) v
    (mem_editable self) (screen_top self) (screen_bot self) (rom_label self)
    (statusbar self) (after_pending self).
Definition set_mem_editable (v : bool) (self : gui L) : gui L :=
  mkGui (core self) (rom_name self) (running self) (reg_text self)
    (mem_view self) v (screen_top self) (screen_bot self) (rom_label self)
    (statusbar self) (after_pending self).
Definition set_screens (top bot : option Image) (self : gui L) : gui L :=
  mkGui (core self) (rom_name self) (running self) (reg_text self)
    (mem_view self) (mem_editable self) top bot (rom_label self)
    (statusbar self) (after_pending self).
Definition set_rom_label (v : string) (self : gui L) : gui L :=
  mkGui (core self) (rom_name self) (running self) (reg_text self)
    (mem_view self) (mem_editable self) (screen_top self) (screen_bot self)
    v (statusbar self) (after_pending self).
Definition set_after_pending (v : nat) (self : gui L) : gui L :=
  mkGui (core self) (rom_name self) (running self) (reg_text self)
    (mem_view self) (mem_editable self) (screen_top self) (screen_bot self)
    (rom_label self) (statusbar self) v.

Definition status (msg : string) (self : gui L) : gui L :=
  mkGui (core self) (rom_name self) (running self) (reg_text self)
    (mem_view self) (mem_editable self) (screen_top self) (screen_bot self)
    (rom_label self) msg (after_pending self).

(** One pass of a loop of [_draw_registers]:
    [text += f"R{i:02}={regs[i]:08X}   R{i+1:02}={regs[i+1]:08X}\n"] *)
Definition reg_line (regs : list Z) (i : nat) (text : string)
    : result string :=
  a ← getitem regs i;
  b ← getitem regs (i + 1);
  Ok (text +:+ "R" +:+ format_int 10 2 (Z.of_nat i) +:+ "="
      +:+ format_int 16 8 a +:+ "   R"
      +:+ format_int 10 2 (Z.of_nat (i + 1)) +:+ "="
      +:+ format_int 16 8 b +:+ nl).

(** [range(0, 16, 2)] *)
Definition range_0_16_2 : list nat := (fun k => 2 * k)%nat <$> seq 0 8.

(** The text that [_draw_registers] builds. *)
Definition registers_text (regs : list Z * list Z * Z * Z) : result string :=
  let '(arm9, arm7, cpsr9, cpsr7) := regs in
  let text := "ARM9 (67 MHz)" +:+ nl in
  text ← for_each range_0_16_2 (reg_line arm9) text;
  let text := text +:+ "CPSR=" +:+ format_int 16 8 cpsr9 +:+ nl +:+ nl
              +:+ "ARM7 (33 MHz)" +:+ nl in
  text ← for_each range_0_16_2 (reg_line arm7) text;
  Ok (text +:+ "CPSR=" +:+ format_int 16 8 cpsr7 +:+ nl).

Definition _draw_registers (self : gui L) : result (gui L) :=
  text ← registers_text (Core.get_registers (core self));
  Ok (set_reg_text text self).

(** The widget is made editable, its text is replaced by the dump, and
    it is disabled. *)
Definition _draw_memory_dump (self : gui L) (g : G) : gui L * G :=
  let '(bytes, g) := randint_list 256 0 255 g in
  let dump := String.concat " " (format_int 16 2 <$> bytes) in
  let self := set_mem_editable true self in
  let self := set_mem_view dump self in
  (set_mem_editable false self, g).

Definition _draw_screens (self : gui L) : gui L :=
  let '(fb_top, fb_bot) := Core.get_framebuffers (core self) in
  let img_top := Image_resize fb_top (256%nat, 192%nat) in
  let img_bot := Image_resize fb_bot (256%nat, 192%nat) in
  set_screens (Some img_top) (Some img_bot) self.

(** [EmuDSNoGBA(root, core)]: the lines printed (by [NoGbaCore()], when
    no core is given) and the object, or the exception raised.
    [_build_gui] creates [reg_text] empty and disabled, [mem_view] empty
    and editable, and the labels with their first texts. *)
Definition __init__ (env : Env L) (core : option (backend L))
    : list string * result (gui L) :=
  let '(out, chosen) :=
    match core with
    | Some c => ([], Ok c)
    | None =>
        let made := NoGbaCore.__init__ env in
        (NoGbaCore.printed made,
         _ ← NoGbaCore.outcome made;
         Ok (AsNoGbaCore (NoGbaCore.self_of made)))
    end in
  (out,
   c ← chosen;
   let self := mkGui c "NO GAME" false "" "" true None None
                 ("ROM: " +:+ "NO GAME") "" 0 in
   self ← _draw_registers self;
   let self := _draw_screens self in
   Ok (status "Ready." self)).

Definition reset (self : gui L) (g : G) : result (gui L * G) :=
  let self := set_core (Core.reset (core self)) self in
  let self := set_running false self in
  self ← _draw_registers self;
  let '(self, g) := _draw_memory_dump self g in
  let self := _draw_screens self in
  Ok (status "System reset." self, g).

(** What [self.core.load_rom(fname)] raises leaves the method before
    anything of the front end has changed. *)
Definition load_rom (fname : string) (self : gui L) (g : G)
    : result (gui L * G) :=
  if decide (fname ≠ "") then
    '(ok, c) ← Core.load_rom (core self) fname;
    let self := set_core c self in
    if negb ok then
      Ok (status "Failed to load ROM in backend core." self, g)
    else
      let self := set_rom_name (os_path_basename fname) self in
      let self := set_rom_label ("ROM: " +:+ rom_name self) self in
      let self := status ("Loaded " +:+ rom_name self) self in
      reset self g
  else Ok (status "ROM load cancelled." self, g).

Definition _animate (self : gui L) (g : G) : result (gui L * G) :=
  if negb (running self) then Ok (self, g)
  else
    '(c, g) ← Core.run_frame (core self) g;
    let self := set_core c self in
    self ← _draw_registers self;
    let '(self, g) := _draw_memory_dump self g in
    let self := _draw_screens self in
    Ok (set_after_pending (S (after_pending self)) self, g).

Definition run (self : gui L) (g : G) : result (gui L * G) :=
  if String.eqb (rom_name self) "NO GAME" then
    Ok (status "No ROM loaded." self, g)
  else if running self then Ok (self, g)
  else
    let self := set_running true self in
    let self := status "Emulation running..." self in
    _animate self g.

Definition stop (self : gui L) : gui L :=
  status "Emulation stopped." (set_running false self).

Definition memory_viewer (self : gui L) : gui L :=
  status "Memory viewer not implemented (placeholder)" self.
Definition vram_viewer (self : gui L) : gui L :=
  status "VRAM viewer not implemented (placeholder)" self.
Definition sound_log (self : gui L) : gui L :=
  status "Sound log not implemented (placeholder)" self.

(** The event loop fires one of the callbacks scheduled with
    [root.after], if there is one: it calls [_animate]. *)
Definition after_callback (self : gui L) (g : G) : result (gui L * G) :=
  match after_pending self with
  | O => Ok (self, g)
  | S n => _animate (set_after_pending n self) g
  end.

(** An edit in the memory view: a [Text] widget takes the edits of the
    user while its state is [NORMAL] and ignores them when it is
    [DISABLED]. *)
Definition edit_mem_view (text : string) (self : gui L) : gui L :=
  if mem_editable self then set_mem_view text self else self.

Definition handle (k : command) (self : gui L) (g : G)
    : result (gui L * G) :=
  match k with
  | LoadGame fname => load_rom fname self g
  | Run => run self g
  | Stop => Ok (stop self, g)
  | ResetCmd => reset self g
  | MemoryViewer => Ok (memory_viewer self, g)
  | VramViewer => Ok (vram_viewer self, g)
  | SoundLog => Ok (sound_log self, g)
  | AfterCallback => after_callback self g
  | EditMemView text => Ok (edit_mem_view text self, g)
  end.

(** Several commands, one after the other. *)
Fixpoint handle_all (ks : list command) (self : gui L) (g : G)
    : result (gui L * G) :=
  match ks with
  | [] => Ok (self, g)
  | k :: ks' => '(self, g) ← handle k self g; handle_all ks' self g
  end.

(** The main block: the core is chosen, then the front end is built on
    it. *)
Definition main (env : Env L) : list string * result (gui L) :=
  let '(out, chosen) := main_core env in
  match chosen with
  | Raise e => (out, Raise e)
  | Ok c =>
      let '(out', made) := __init__ env (Some c) in
      (out ++ out', made)
  end.

(** The states of the front end a run of the program goes through. *)
Inductive reachable : gui L → Prop :=
  | reach_main env self :
      (main env).2 = Ok self → reachable self
  | reach_handle k self g self' g' :
      reachable self → handle k self g = Ok (self', g') → reachable self'.

End FrontEnd.
End EmuDSNoGBA.

(** Every file name that the dialog returns in the commands [ks] is a
    text that UTF-8 has bytes for. *)
Definition names_encodable (ks : list command) : Prop :=
  Forall (fun k =>
    match k with
    | LoadGame fname => encodable fname
    | _ => True
    end) ks.

(** A front-end toolkit for examples: the base name is what follows the
    last slash, and an image is resized to its own size as it is. *)
Fixpoint basename_from (s : string) (acc : string) : string :=
  match s with
  | EmptyString => acc
  | String c s' =>
      if Ascii.eqb c "/" then basename_from s' "" 
      else basename_from s' (acc +:+ String c "")
  end.

#[local] Instance toy_toolkit : Toolkit := {|
  os_path_basename s := basename_from s "";
  Image_resize img size := img
|}.

(** What holds of the front end after every command: its core is one a
    program can hold; while no game is loaded the emulation is stopped at
    frame 0; while the emulation runs a callback is scheduled; and the
    register text and the two images shown are those of the core. *)
Definition gui_ok {L : Type} `{NativeLib L} {G : Type} `{RandomSource G}
    `{Toolkit} (self : EmuDSNoGBA.gui L) : Prop :=
  Core.reachable (G := G) (EmuDSNoGBA.core self) ∧
  (EmuDSNoGBA.rom_name self = "NO GAME" →
   EmuDSNoGBA.running self = false ∧
   _frame (Core.attrs (EmuDSNoGBA.core self)) = 0) ∧
  (EmuDSNoGBA.running self = true → (1 ≤ EmuDSNoGBA.after_pending self)%nat) ∧
  EmuDSNoGBA.registers_text (Core.get_registers (EmuDSNoGBA.core self))
  = Ok (EmuDSNoGBA.reg_text self) ∧
  EmuDSNoGBA.screen_top self
  = Some (Image_resize (Core.get_framebuffers (EmuDSNoGBA.core self)).1
            (256%nat, 192%nat)) ∧
  EmuDSNoGBA.screen_bot self
  = Some (Image_resize (Core.get_framebuffers (EmuDSNoGBA.core self)).2
            (256%nat, 192%nat)).

(** The three refreshes that [reset] and [_animate] share, once the core
    [c] is in place and the register text [text] is built: the state they
    leave, the memory dump being drawn from the random source in state
    [g]. *)
Definition refreshed {L : Type} `{NativeLib L} {G : Type} `{RandomSource G}
    `{Toolkit} (c : core L) (text : string) (g : G)
    (self : EmuDSNoGBA.gui L) : EmuDSNoGBA.gui L :=
  EmuDSNoGBA.mkGui c (EmuDSNoGBA.rom_name self) (EmuDSNoGBA.running self) text
    (String.concat " " (format_int 16 2 <$> (randint_list 256 0 255 g).1))
    false
    (Some (Image_resize (Core.get_framebuffers c).1 (256%nat, 192%nat)))
    (Some (Image_resize (Core.get_framebuffers c).2 (256%nat, 192%nat)))
    (EmuDSNoGBA.rom_label self) (EmuDSNoGBA.statusbar self)
    (EmuDSNoGBA.after_pending self).

(** A native library that refuses every path. *)
Definition refusing_lib : NativeLib Z := {|
  nogba_init l := (0, l);
  nogba_reset l := 0;
  nogba_load_rom path l := (1, l + 1);
  nogba_run_frame l := l + 1;
  nogba_get_arm9_regs arr l := (arr, l);
  nogba_get_arm7_regs arr l := (arr, l);
  nogba_get_framebuffer_top arr l := (arr, l);
  nogba_get_framebuffer_bot arr l := (arr, l)
|}.

(** * Properties *)

(** ** Loops *)

Lemma bind_Ok {A B} (m : result A) (f : A → result B) a :
  m = Ok a → (m ≫= f) = f a.
Proof. by intros ->. Qed.

(** A loop over [range(a, a + n)] whose body keeps an invariant indexed by
    the loop counter terminates normally and establishes the invariant at
    [a + n]. *)
Lemma for_each_seq_inv {St} (P : nat → St → Prop) (body : nat → St → result St)
    (n a : nat) (s : St) :
  P a s →
  (∀ i s, (a ≤ i < a + n)%nat → P i s → ∃ s', body i s = Ok s' ∧ P (S i) s') →
  ∃ s', for_each (seq a n) body s = Ok s' ∧ P (a + n)%nat s'.
Proof.
  revert a s. induction n as [|n IH]; intros a s Ha Hstep.
  - exists s. split; [done|]. by rewrite Nat.add_0_r.
  - destruct (Hstep a s) as (s1 & Hb & H1); [lia|done|].
    destruct (IH (S a) s1) as (s2 & Hloop & H2); [done| |].
    + intros i t Hi. apply Hstep. lia.
    + exists s2. split.
      * cbn [seq for_each]. by rewrite (bind_Ok _ _ _ Hb).
      * by replace (a + S n)%nat with (S a + n)%nat by lia.
Qed.

(** The same for a loop over [enumerate(src)], counting from [a]. *)
Lemma for_each_zip_inv {A St} (P : nat → St → Prop)
    (body : nat * A → St → result St) (src : list A) (a : nat) (s : St) :
  P a s →
  (∀ i x s, (a ≤ i)%nat → src !! (i - a)%nat = Some x → P i s →
            ∃ s', body (i, x) s = Ok s' ∧ P (S i) s') →
  ∃ s', for_each (zip (seq a (length src)) src) body s = Ok s' ∧
        P (a + length src)%nat s'.
Proof.
  revert a s. induction src as [|x src IH]; intros a s Ha Hstep.
  - exists s. split; [done|]. by rewrite Nat.add_0_r.
  - destruct (Hstep a x s) as (s1 & Hb & H1); [lia| |done|].
    { by rewrite Nat.sub_diag. }
    destruct (IH (S a) s1) as (s2 & Hloop & H2); [done| |].
    + intros i y t Hi Hy. apply Hstep; [lia|].
      replace (i - a)%nat with (S (i - S a)) by lia. done.
    + exists s2. split.
      * cbn [length seq zip zip_with for_each].
        by rewrite (bind_Ok _ _ _ Hb).
      * cbn [length].
        by replace (a + S (length src))%nat with (S a + length src)%nat by lia.
Qed.

(** ** Images *)

Lemma div_row (w y x : nat) : (x < w)%nat → ((y * w + x) / w)%nat = y.
Proof.
  intros Hx. symmetry. apply (Nat.div_unique _ _ _ x); lia.
Qed.

Lemma putpixel_filled w h f x y c img :
  (x < w)%nat → (y < h)%nat → c = f (y * w + x)%nat →
  filled w h f (y * w + x) img →
  ∃ img', putpixel img (x, y) c = Ok img' ∧
          filled w h f (S (y * w + x)) img'.
Proof.
  intros Hx Hy -> (Hw & Hh & Hlen & Hpix).
  unfold putpixel. rewrite Hw, Hh.
  destruct (decide _) as [_|Hn]; [|lia].
  eexists. split; [done|].
  split; [done|]. split; [done|]. cbn [im_width im_height im_data]. split.
  - by rewrite length_insert.
  - intros j Hj. destruct (decide (j = y * w + x)%nat) as [->|Hne].
    + by rewrite list_lookup_insert_eq by nia.
    + rewrite list_lookup_insert_ne by done. apply Hpix. lia.
Qed.

Lemma filled_full w h f img :
  filled w h f (w * h) img → img = image_of w h f.
Proof.
  intros (Hw & Hh & Hlen & Hpix). destruct img as [w' h' d]; cbn in *.
  subst w' h'. unfold image_of. f_equal.
  apply list_eq. intros j. rewrite list_lookup_fmap.
  destruct (decide (j < w * h)%nat) as [Hj|Hj].
  - rewrite Hpix by done. by rewrite lookup_seq_lt.
  - rewrite lookup_ge_None_2 by lia.
    by rewrite lookup_seq_ge by lia.
Qed.

Lemma filled_start w h f img :
  im_width img = w → im_height img = h →
  length (im_data img) = (w * h)%nat → filled w h f 0 img.
Proof.
  intros. split; [done|]. split; [done|]. split; [done|]. intros j Hj. lia.
Qed.

Lemma image_of_getpixel w h f x y :
  (x < w)%nat → (y < h)%nat →
  getpixel (image_of w h f) (x, y) = Some (f (y * w + x)%nat).
Proof.
  intros Hx Hy. unfold getpixel, image_of; cbn [im_width im_height im_data].
  destruct (decide _) as [_|Hn]; [|lia].
  by rewrite list_lookup_fmap, lookup_seq_lt by nia.
Qed.

Lemma rows_image_getpixel w h col x y :
  (x < w)%nat → (y < h)%nat →
  getpixel (rows_image w h col) (x, y) = Some (col y).
Proof.
  intros Hx Hy. unfold rows_image.
  rewrite image_of_getpixel by done. by rewrite div_row.
Qed.

Lemma image_of_screen_ok f : screen_ok (image_of FB_W FB_H f).
Proof.
  split; [done|]. split; [done|]. unfold image_of; cbn [im_data].
  by rewrite length_fmap, length_seq.
Qed.

Lemma Image_new_screen_ok : screen_ok (Image_new FB_W FB_H).
Proof.
  split; [done|]. split; [done|]. unfold Image_new; cbn [im_data].
  by rewrite length_replicate.
Qed.

(** ** [EmulatorCore._fake_framebuffers] *)

Section FakeFramebuffers.
Import EmulatorCore.
Variables (w h : nat) (ca cb : pixel) (self0 : EmulatorCore).

Lemma paint_drawn x y self :
  (x < w)%nat → (y < h)%nat → drawn w h ca cb self0 (y * w + x)%nat self →
  ∃ self', paint ca cb y x self = Ok self' ∧ drawn w h ca cb self0 (S (y * w + x)) self'.
Proof.
  intros Hx Hy (top & bot & -> & Ht & Hb).
  destruct (putpixel_filled w h (fun j => band (j / w) ca (42, 54, 84))
              x y (band y ca (42, 54, 84)) top Hx Hy)
    as (top' & Htop & Ht'); [|done|].
  { by rewrite div_row. }
  destruct (putpixel_filled w h (fun j => band (j / w) cb (34, 34, 34))
              x y (band y cb (34, 34, 34)) bot Hx Hy)
    as (bot' & Hbot & Hb'); [|done|].
  { by rewrite div_row. }
  exists (set_framebuffers top' bot' self0). split.
  - unfold paint. cbn [set_framebuffers fb_top fb_bot].
    by rewrite (bind_Ok _ _ _ Htop), (bind_Ok _ _ _ Hbot).
  - by exists top', bot'.
Qed.

Lemma row_drawn y self :
  (y < h)%nat → drawn w h ca cb self0 (y * w)%nat self →
  ∃ self', for_each (seq 0 w) (fun x => paint ca cb y x) self = Ok self' ∧
           drawn w h ca cb self0 (S y * w)%nat self'.
Proof.
  intros Hy Hd.
  destruct (for_each_seq_inv (fun x => drawn w h ca cb self0 (y * w + x)%nat)
              (fun x => paint ca cb y x) w 0 self) as (s' & Hs & Hd').
  - by rewrite Nat.add_0_r.
  - intros x s Hx Hs. replace (y * w + S x)%nat with (S (y * w + x)) by lia.
    apply paint_drawn; [lia|done|done].
  - exists s'. split; [done|].
    by replace (S y * w)%nat with (y * w + (0 + w))%nat by lia.
Qed.

Lemma loops_drawn :
  im_width (fb_top self0) = w → im_height (fb_top self0) = h →
  length (im_data (fb_top self0)) = (w * h)%nat →
  im_width (fb_bot self0) = w → im_height (fb_bot self0) = h →
  length (im_data (fb_bot self0)) = (w * h)%nat →
  for_each (seq 0 h) (fun y => for_each (seq 0 w) (fun x => paint ca cb y x))
    self0
  = Ok (set_framebuffers
          (rows_image w h (fun y => band y ca (42, 54, 84)))
          (rows_image w h (fun y => band y cb (34, 34, 34))) self0).
Proof.
  intros Htw Hth Htl Hbw Hbh Hbl.
  destruct (for_each_seq_inv (fun y => drawn w h ca cb self0 (y * w)%nat)
              (fun y => for_each (seq 0 w) (fun x => paint ca cb y x))
              h 0 self0) as (s' & Hs & (top & bot & -> & Ht & Hb)).
  - exists (fb_top self0), (fb_bot self0). split; [by destruct self0|].
    split; by apply filled_start.
  - intros y s Hy Hd. apply row_drawn; [lia|done].
  - rewrite Hs. unfold rows_image. do 2 f_equal; apply filled_full.
    + by replace (w * h)%nat with ((0 + h) * w)%nat by lia.
    + by replace (w * h)%nat with ((0 + h) * w)%nat by lia.
Qed.
End FakeFramebuffers.

(** [_fake_framebuffers] returns normally on screens of the fixed size,
    and replaces the two images by the pictures of the frame counter. *)
Lemma fake_framebuffers_eq (self : EmulatorCore) :
  screens_ok self →
  EmulatorCore._fake_framebuffers self
  = Ok (EmulatorCore.set_framebuffers (top_picture (_frame self))
          (bot_picture (_frame self)) self).
Proof.
  intros [(Htw & Hth & Htl) (Hbw & Hbh & Hbl)].
  unfold EmulatorCore._fake_framebuffers, top_picture, bot_picture.
  by apply loops_drawn.
Qed.

(** ** [convert] *)

(** On a buffer of [FB_W * FB_H] pixels, [convert] returns normally the
    image of the converted pixels, in the order of the buffer. *)
Lemma convert_eq (src : list Z) :
  length src = (FB_W * FB_H)%nat →
  convert src = Ok (mkImage FB_W FB_H (rgb565_to_rgb888 <$> src)).
Proof.
  intros Hlen. unfold convert, enumerate.
  set (f := fun j => rgb565_to_rgb888 (nth j src 0)).
  assert (Hw : (0 < FB_W)%nat) by (unfold FB_W; lia).
  destruct (for_each_zip_inv (filled FB_W FB_H f)
    (fun '(i, pix) img =>
       putpixel img ((i mod FB_W)%nat, (i / FB_W)%nat) (rgb565_to_rgb888 pix))
    src 0 (Image_new FB_W FB_H)) as (img & Himg & Hfull).
  - destruct Image_new_screen_ok as (? & ? & ?). by apply filled_start.
  - intros i x img Hi Hx Hinv. rewrite Nat.sub_0_r in Hx.
    assert (i < FB_W * FB_H)%nat as Hlt.
    { rewrite <- Hlen. by eapply lookup_lt_Some. }
    pose proof (Nat.div_mod_eq i FB_W) as Hdm.
    pose proof (Nat.mod_upper_bound i FB_W ltac:(lia)) as Hm.
    assert (i / FB_W < FB_H)%nat as Hd.
    { apply Nat.Div0.div_lt_upper_bound. lia. }
    assert (i = (i / FB_W * FB_W + i mod FB_W)%nat) as Hi' by lia.
    rewrite Hi' in Hinv.
    destruct (putpixel_filled FB_W FB_H f (i mod FB_W) (i / FB_W)
                (rgb565_to_rgb888 x) img) as (img' & Hp & Hinv');
      [done|done| |done|].
    { rewrite <- Hi'. unfold f. f_equal. symmetry.
      by apply nth_lookup_Some with (d := 0) in Hx. }
    exists img'. split; [done|]. by rewrite <- Hi' in Hinv'.
  - rewrite Himg. f_equal. rewrite Nat.add_0_l, Hlen in Hfull.
    rewrite (filled_full _ _ _ _ Hfull). unfold image_of. f_equal.
    apply list_eq. intros j. rewrite !list_lookup_fmap.
    destruct (decide (j < FB_W * FB_H)%nat) as [Hj|Hj].
    + rewrite lookup_seq_lt by done. cbn. unfold f.
      destruct (lookup_lt_is_Some_2 src j) as [x Hx]; [lia|].
      rewrite Hx. cbn. f_equal. f_equal. by apply nth_lookup_Some.
    + rewrite lookup_seq_ge by lia. by rewrite lookup_ge_None_2 by lia.
Qed.

(** ** Register arrays *)

Lemma randint_list_length {G} `{RandomSource G} n lo hi (g : G) :
  length (randint_list n lo hi g).1 = n.
Proof.
  revert g. induction n as [|n IH]; intros g; [done|].
  cbn [randint_list]. destruct (randint lo hi g) as [v g1].
  specialize (IH g1). destruct (randint_list n lo hi g1) as [vs g2].
  cbn in *. by rewrite IH.
Qed.

Lemma carray_list_length ctype n arr : length (carray_list ctype n arr) = n.
Proof. unfold carray_list. by rewrite length_fmap, length_seq. Qed.

Lemma fake_registers_spec {G} `{RandomSource G} self (g : G) :
  let self' := (EmulatorCore._fake_registers self g).1 in
  regs16 self' ∧ _frame self' = _frame self ∧
  rom_path self' = rom_path self ∧ running self' = running self ∧
  fb_top self' = fb_top self ∧ fb_bot self' = fb_bot self.
Proof.
  unfold EmulatorCore._fake_registers.
  pose proof (randint_list_length 16 0 0xFFFFFFFF g) as H9.
  destruct (randint_list 16 0 0xFFFFFFFF g) as [r9 g1].
  pose proof (randint_list_length 16 0 0xFFFFFFFF g1) as H7.
  destruct (randint_list 16 0 0xFFFFFFFF g1) as [r7 g2].
  destruct (choice _ g2) as [c9 g3]. destruct (choice _ g3) as [c7 g4].
  cbn in *. by repeat split.
Qed.

Section Invariants.
Context {L : Type} `{NativeLib L} {G : Type} `{RandomSource G}.

Lemma pull_registers_spec (lib : L) self :
  let self' := (NoGbaCore._pull_registers lib self).1 in
  regs16 self' ∧ _frame self' = _frame self ∧
  rom_path self' = rom_path self ∧ running self' = running self ∧
  fb_top self' = fb_top self ∧ fb_bot self' = fb_bot self.
Proof.
  unfold NoGbaCore._pull_registers.
  destruct (nogba_get_arm9_regs carray_new lib) as [a9 l1].
  destruct (nogba_get_arm7_regs a9 l1) as [a7 l2].
  cbn [fst EmulatorCore.set_registers regs16 arm9 arm7 _frame rom_path
       running fb_top fb_bot].
  split; [|done].
  unfold regs16, EmulatorCore.set_registers; cbn [arm9 arm7].
  rewrite !length_take, !carray_list_length. lia.
Qed.

Lemma pull_framebuffers_spec (lib : L) self :
  ∃ self' lib', NoGbaCore._pull_framebuffers lib self = Ok (self', lib') ∧
    screens_ok self' ∧ _frame self' = _frame self ∧
    rom_path self' = rom_path self ∧ running self' = running self ∧
    arm9 self' = arm9 self ∧ arm7 self' = arm7 self.
Proof.
  unfold NoGbaCore._pull_framebuffers.
  destruct (nogba_get_framebuffer_top carray_new lib) as [bt l1].
  destruct (nogba_get_framebuffer_bot carray_new l1) as [bb l2].
  rewrite !convert_eq by apply carray_list_length.
  eexists _, _. split; [done|].
  split; [|done].
  split; (split; [done|]; split; [done|]); cbn [fb_top fb_bot
    EmulatorCore.set_framebuffers im_data];
    by rewrite length_fmap, carray_list_length.
Qed.

(** What one call of [run_frame] does, whatever the class of the core:
    it returns normally, the frame counter is one more, the path and the
    running flag are the same, and the invariants hold afterwards. *)
Lemma run_frame_spec (c : core L) (g : G) :
  screens_ok (Core.attrs c) →
  ∃ c' g', Core.run_frame c g = Ok (c', g') ∧
    _frame (Core.attrs c') = _frame (Core.attrs c) + 1 ∧
    rom_path (Core.attrs c') = rom_path (Core.attrs c) ∧
    running (Core.attrs c') = running (Core.attrs c) ∧
    screens_ok (Core.attrs c') ∧ regs16 (Core.attrs c').
Proof.
  assert (HE : ∀ e, screens_ok e →
    ∃ e' g', EmulatorCore.run_frame e g = Ok (e', g') ∧
      _frame e' = _frame e + 1 ∧ rom_path e' = rom_path e ∧
      running e' = running e ∧ screens_ok e' ∧ regs16 e').
  { intros e Hok. unfold EmulatorCore.run_frame.
    pose proof (fake_registers_spec (EmulatorCore.set_frame (_frame e + 1) e) g)
      as (Hr & Hf & Hp & Hrun & Ht & Hb).
    destruct (EmulatorCore._fake_registers _ g) as [e1 g1]. cbn [fst] in *.
    rewrite fake_framebuffers_eq.
    2:{ unfold screens_ok. rewrite Ht, Hb. exact Hok. }
    eexists _, _. split; [done|].
    unfold regs16, screens_ok, EmulatorCore.set_framebuffers.
    cbn [_frame rom_path running fb_top fb_bot arm9 arm7].
    split; [by rewrite Hf|]. split; [by rewrite Hp|].
    split; [by rewrite Hrun|].
    split; [split; apply image_of_screen_ok|]. exact Hr. }
  intros Hok. destruct c as [e|[b [lib|]]]; cbn [Core.attrs base] in *.
  - destruct (HE e Hok) as (e' & g' & He & ?).
    unfold Core.run_frame. rewrite He. by eexists _, _.
  - unfold Core.run_frame, NoGbaCore.run_frame. cbn [_lib base].
    pose proof (pull_registers_spec (nogba_run_frame lib) b)
      as (Hr & Hf & Hp & Hrun & _).
    destruct (NoGbaCore._pull_registers _ b) as [b1 l1]. cbn [fst] in *.
    destruct (pull_framebuffers_spec l1 b1)
      as (b2 & l2 & Hpull & Hs & Hf2 & Hp2 & Hrun2 & H9 & H7).
    rewrite Hpull.
    eexists _, _. split; [done|]. cbn [Core.attrs base].
    cbn [EmulatorCore.set_frame _frame rom_path running].
    unfold regs16, EmulatorCore.set_frame in *.
    cbn [_frame rom_path running fb_top fb_bot arm9 arm7].
    split; [congruence|]. split; [congruence|]. split; [congruence|].
    split; [exact Hs|]. by rewrite H9, H7.
  - destruct (HE b Hok) as (e' & g' & He & ?).
    unfold Core.run_frame, NoGbaCore.run_frame. cbn [_lib base].
    rewrite He. by eexists _, _.
Qed.

(** What [load_rom] does: it raises only when a library is bound and
    [path.encode] raises; when it returns, only [rom_path] can have
    changed, and it has not when [False] is returned. *)
Lemma load_rom_cases (c : core L) (path : string) :
  match Core.load_rom c path with
  | Ok (r, c') =>
      Core.attrs c'
      = (if r then EmulatorCore.set_rom_path (Some path) (Core.attrs c)
         else Core.attrs c) ∧
      (is_Some (bound_library c') ↔ is_Some (bound_library c)) ∧
      (bound_library c = None → r = true ∧ bound_library c' = None)
  | Raise e => is_Some (bound_library c) ∧ encode_utf8 path = Raise e
  end.
Proof.
  destruct c as [e|[b [lib|]]]; cbn -[encode_utf8]; [done| |done].
  destruct (encode_utf8 path) as [bytes|err]; cbn [mbind result_bind].
  2:{ split; [by eexists|done]. }
  destruct (nogba_load_rom bytes lib) as [rc lib'].
  destruct (decide (rc ≠ 0)); cbn; (split; [done|]);
    (split; [by split; intros _; eexists|done]).
Qed.

Lemma load_rom_inv (c : core L) path r c' :
  screens_ok (Core.attrs c) ∧ regs16 (Core.attrs c) →
  Core.load_rom c path = Ok (r, c') →
  screens_ok (Core.attrs c') ∧ regs16 (Core.attrs c').
Proof.
  intros Hinv Hload. pose proof (load_rom_cases c path) as Hc.
  rewrite Hload in Hc. destruct Hc as [-> _]. by destruct r.
Qed.

Lemma reset_inv (c : core L) :
  screens_ok (Core.attrs c) ∧ regs16 (Core.attrs c) →
  screens_ok (Core.attrs (Core.reset c)) ∧ regs16 (Core.attrs (Core.reset c)).
Proof. by destruct c as [e|[b [lib|]]]. Qed.

Lemma init_base (env : Env L) :
  base (NoGbaCore.self_of (NoGbaCore.__init__ env)) = EmulatorCore.__init__.
Proof.
  unfold NoGbaCore.__init__. destruct (NoGbaCore._load_library env) as [out r].
  destruct r as [[lib|]|e]; [|done..].
  destruct (NoGbaCore._init_functions env lib) as [[]|e]; [|done].
  destruct (nogba_init lib) as [rc lib']. by destruct (decide _).
Qed.

Lemma init_inv : screens_ok EmulatorCore.__init__ ∧ regs16 EmulatorCore.__init__.
Proof.
  split; [split; apply Image_new_screen_ok|]. done.
Qed.

(** Every core a program can hold has screens of the fixed size and
    register arrays of 16 entries. *)
Lemma reachable_inv (c : core L) :
  Core.reachable (G := G) c →
  screens_ok (Core.attrs c) ∧ regs16 (Core.attrs c).
Proof.
  induction 1 as [|env Hout|c path r c' _ IH Hload|c _ IH|c g c' g' _ IH Hrun].
  - apply init_inv.
  - cbn [Core.attrs]. rewrite init_base. apply init_inv.
  - by eapply load_rom_inv.
  - by apply reset_inv.
  - destruct (run_frame_spec c g) as (c1 & g1 & Hc & ? & ? & ? & ? & ?);
      [apply IH|].
    rewrite Hrun in Hc. by simplify_eq.
Qed.

End Invariants.

(** ** The frame counter *)

Section FrameCounter.
Context {L : Type} `{NativeLib L} {G : Type} `{RandomSource G}.

Lemma reset_attrs (c : core L) :
  Core.attrs (Core.reset c) = EmulatorCore.reset (Core.attrs c).
Proof. by destruct c as [e|[b [lib|]]]. Qed.

Lemma run_frames_spec (n : nat) (c : core L) (g : G) :
  screens_ok (Core.attrs c) →
  ∃ c' g', Core.run_frames n c g = Ok (c', g') ∧
    _frame (Core.attrs c') = _frame (Core.attrs c) + Z.of_nat n ∧
    rom_path (Core.attrs c') = rom_path (Core.attrs c).
Proof.
  revert c g. induction n as [|n IH]; intros c g Hok.
  - exists c, g. split; [done|]. split; [lia|done].
  - destruct (run_frame_spec c g Hok)
      as (c1 & g1 & Hrun & Hf & Hp & _ & Hok1 & _).
    destruct (IH c1 g1 Hok1) as (c2 & g2 & Hruns & Hf2 & Hp2).
    exists c2, g2. split.
    + cbn [Core.run_frames]. by rewrite Hrun.
    + split; [lia|congruence].
Qed.

End FrameCounter.

(** C1: on every core a program can hold, of either class, [run_frame]
    called [n] times after [reset] returns normally each time and leaves
    [_frame] equal to [n]; and one call of [run_frame] returns normally and
    makes [_frame] exactly one more than it was. *)
Theorem C1_frame_counter {L : Type} `{NativeLib L} {G : Type} `{RandomSource G}
    (c : core L) (n : nat) (g : G) :
  Core.reachable (G := G) c →
  (∃ c' g', Core.run_frames n (Core.reset c) g = Ok (c', g') ∧
            _frame (Core.attrs c') = Z.of_nat n) ∧
  (∃ c' g', Core.run_frame c g = Ok (c', g') ∧
            _frame (Core.attrs c') = _frame (Core.attrs c) + 1).
Proof.
  intros Hreach. destruct (reachable_inv c Hreach) as [Hok Hregs]. split.
  - destruct (run_frames_spec n (Core.reset c) g) as (c' & g' & Hrun & Hf & _).
    { by apply reset_inv. }
    exists c', g'. split; [done|]. rewrite Hf, reset_attrs.
    unfold EmulatorCore.reset, EmulatorCore.set_running, EmulatorCore.set_frame.
    cbn [_frame]. lia.
  - destruct (run_frame_spec c g Hok) as (c' & g' & Hrun & Hf & _).
    by exists c', g'.
Qed.

(** C1 on the null core just constructed, with three frames. *)
Lemma C1_frame_counter_witness :
  (∃ c' g', Core.run_frames 3 (Core.reset (L := Z)
              (AsEmulatorCore EmulatorCore.__init__)) 42 = Ok (c', g') ∧
            _frame (Core.attrs c') = 3) ∧
  (∃ c' g', Core.run_frame (L := Z) (AsEmulatorCore EmulatorCore.__init__) 42
            = Ok (c', g') ∧
            _frame (Core.attrs c') = 0 + 1).
Proof.
  apply (C1_frame_counter (L := Z) (G := Z)
           (AsEmulatorCore EmulatorCore.__init__) 3 42).
  apply Core.reach_EmulatorCore.
Defined.

(** ** The pixel converter *)

Lemma testbit_0x1F i : 0 ≤ i < 5 → Z.testbit 0x1F i = true.
Proof.
  intros Hi.
  assert (i = 0 ∨ i = 1 ∨ i = 2 ∨ i = 3 ∨ i = 4) as Hc by lia.
  by destruct Hc as [->|[->|[->|[->| ->]]]].
Qed.

Lemma testbit_0x3F i : 0 ≤ i < 6 → Z.testbit 0x3F i = true.
Proof.
  intros Hi.
  assert (i = 0 ∨ i = 1 ∨ i = 2 ∨ i = 3 ∨ i = 4 ∨ i = 5) as Hc by lia.
  by destruct Hc as [->|[->|[->|[->|[->| ->]]]]].
Qed.

(** A field masked to [n] bits and shifted left by [k] is a multiple of
    [2 ^ k] below [2 ^ (n + k)]. *)
Lemma field_range v n k :
  0 ≤ n → 0 ≤ k →
  0 ≤ Z.shiftl (Z.land v (Z.ones n)) k < 2 ^ (n + k) ∧
  Z.shiftl (Z.land v (Z.ones n)) k mod 2 ^ k = 0.
Proof.
  intros Hn Hk. rewrite Z.land_ones, Z.shiftl_mul_pow2 by done.
  pose proof (Z.mod_pos_bound v (2 ^ n) ltac:(lia)) as Hm.
  assert (0 < 2 ^ k) by lia.
  rewrite Z.pow_add_r by done. split; [nia|].
  by rewrite Z.mod_mul by lia.
Qed.

(** [convert] writes the conversion of element [i] of the buffer at the
    coordinates [(i % FB_W, i // FB_W)]. *)
Lemma convert_getpixel (src : list Z) (i : nat) (p : Z) :
  length src = (FB_W * FB_H)%nat → src !! i = Some p →
  ∃ img, convert src = Ok img ∧
         getpixel img ((i mod FB_W)%nat, (i / FB_W)%nat)
         = Some (rgb565_to_rgb888 p).
Proof.
  intros Hlen Hi. rewrite convert_eq by done. eexists. split; [done|].
  assert (i < FB_W * FB_H)%nat as Hlt.
  { rewrite <- Hlen. by eapply lookup_lt_Some. }
  assert (0 < FB_W)%nat as Hw by (unfold FB_W; lia).
  pose proof (Nat.div_mod_eq i FB_W) as Hdm.
  pose proof (Nat.mod_upper_bound i FB_W ltac:(lia)) as Hm.
  assert (i / FB_W < FB_H)%nat as Hd.
  { apply Nat.Div0.div_lt_upper_bound. lia. }
  unfold getpixel; cbn [im_width im_height im_data].
  destruct (decide _) as [_|Hn]; [|lia].
  replace (i / FB_W * FB_W + i mod FB_W)%nat with i by lia.
  by rewrite list_lookup_fmap, Hi.
Qed.

(** C2: for every 16-bit pixel [p] the converter yields the triple of the
    three shifted fields; bit [i + 3] of red is bit [i + 11] of [p]
    (5 bits), bit [i + 2] of green is bit [i + 5] of [p] (6 bits), bit
    [i + 3] of blue is bit [i] of [p] (5 bits); the low 3 bits of red and
    blue and the low 2 bits of green are zero; each channel fits 8 bits;
    and [convert] stores this triple for every element [p] of its buffer,
    at the coordinates of that element. *)
Theorem C2_pixel_converter (p : Z) :
  0 ≤ p < 2 ^ 16 →
  ∃ r g b,
    rgb565_to_rgb888 p = (r, g, b) ∧
    r = Z.shiftl (Z.land (Z.shiftr p 11) 0x1F) 3 ∧
    g = Z.shiftl (Z.land (Z.shiftr p 5) 0x3F) 2 ∧
    b = Z.shiftl (Z.land p 0x1F) 3 ∧
    (∀ i, 0 ≤ i < 5 → Z.testbit r (i + 3) = Z.testbit p (i + 11)) ∧
    (∀ i, 0 ≤ i < 6 → Z.testbit g (i + 2) = Z.testbit p (i + 5)) ∧
    (∀ i, 0 ≤ i < 5 → Z.testbit b (i + 3) = Z.testbit p i) ∧
    (∀ i, 0 ≤ i < 3 → Z.testbit r i = false ∧ Z.testbit b i = false) ∧
    (∀ i, 0 ≤ i < 2 → Z.testbit g i = false) ∧
    0 ≤ r < 2 ^ 8 ∧ 0 ≤ g < 2 ^ 8 ∧ 0 ≤ b < 2 ^ 8 ∧
    (∀ (src : list Z) (k : nat),
       length src = (FB_W * FB_H)%nat → src !! k = Some p →
       ∃ img, convert src = Ok img ∧
              getpixel img ((k mod FB_W)%nat, (k / FB_W)%nat) = Some (r, g, b)).
Proof.
  intros Hp. eexists _, _, _. split; [reflexivity|].
  split; [done|]. split; [done|]. split; [done|].
  split; [|split; [|split; [|split; [|split; [|split; [|split; [|split]]]]]]];
    [..|intros src k Hlen Hk; exact (convert_getpixel src k p Hlen Hk)].
  - intros i Hi. rewrite Z.shiftl_spec by lia.
    replace (i + 3 - 3) with i by lia.
    rewrite Z.land_spec, testbit_0x1F, andb_true_r by done.
    rewrite Z.shiftr_spec by lia. done.
  - intros i Hi. rewrite Z.shiftl_spec by lia.
    replace (i + 2 - 2) with i by lia.
    rewrite Z.land_spec, testbit_0x3F, andb_true_r by done.
    rewrite Z.shiftr_spec by lia. done.
  - intros i Hi. rewrite Z.shiftl_spec by lia.
    replace (i + 3 - 3) with i by lia.
    by rewrite Z.land_spec, testbit_0x1F, andb_true_r by done.
  - intros i Hi. split; rewrite Z.shiftl_spec by lia;
      apply Z.testbit_neg_r; lia.
  - intros i Hi. rewrite Z.shiftl_spec by lia. apply Z.testbit_neg_r; lia.
  - by pose proof (field_range (Z.shiftr p 11) 5 3 ltac:(lia) ltac:(lia)) as [Hr _].
  - by pose proof (field_range (Z.shiftr p 5) 6 2 ltac:(lia) ltac:(lia)) as [Hg _].
  - by pose proof (field_range p 5 3 ltac:(lia) ltac:(lia)) as [Hb _].
Qed.

(** C2 on the pixel [0xFFFF] (white): all fields full, low bits zero. *)
Lemma C2_pixel_converter_witness :
  ∃ r g b,
    rgb565_to_rgb888 0xFFFF = (r, g, b) ∧
    r = Z.shiftl (Z.land (Z.shiftr 0xFFFF 11) 0x1F) 3 ∧
    g = Z.shiftl (Z.land (Z.shiftr 0xFFFF 5) 0x3F) 2 ∧
    b = Z.shiftl (Z.land 0xFFFF 0x1F) 3 ∧
    (∀ i, 0 ≤ i < 5 → Z.testbit r (i + 3) = Z.testbit 0xFFFF (i + 11)) ∧
    (∀ i, 0 ≤ i < 6 → Z.testbit g (i + 2) = Z.testbit 0xFFFF (i + 5)) ∧
    (∀ i, 0 ≤ i < 5 → Z.testbit b (i + 3) = Z.testbit 0xFFFF i) ∧
    (∀ i, 0 ≤ i < 3 → Z.testbit r i = false ∧ Z.testbit b i = false) ∧
    (∀ i, 0 ≤ i < 2 → Z.testbit g i = false) ∧
    0 ≤ r < 2 ^ 8 ∧ 0 ≤ g < 2 ^ 8 ∧ 0 ≤ b < 2 ^ 8 ∧
    (∀ (src : list Z) (k : nat),
       length src = (FB_W * FB_H)%nat → src !! k = Some 0xFFFF →
       ∃ img, convert src = Ok img ∧
              getpixel img ((k mod FB_W)%nat, (k / FB_W)%nat) = Some (r, g, b)).
Proof. apply (C2_pixel_converter 0xFFFF). lia. Defined.

Example rgb565_white : rgb565_to_rgb888 0xFFFF = (248, 252, 248).
Proof. reflexivity. Qed.

Example rgb565_red : rgb565_to_rgb888 0xF800 = (248, 0, 0).
Proof. reflexivity. Qed.

Example rgb565_mixed : rgb565_to_rgb888 0x1234 = (16, 68, 160).
Proof. reflexivity. Qed.

(** ** [load_rom] *)

(** C3, as stated, fails: on a file system where no path is readable the
    null core accepts the path ["missing.nds"]: [load_rom] returns [True]
    and [rom_path] changes from [None] to the path. *)
Lemma C3_load_rom_counterexample :
  ¬ load_rom_rejects (L := Z) (fun _ => false)
      (AsEmulatorCore EmulatorCore.__init__) "missing.nds".
Proof.
  intros Hclaim. destruct (Hclaim eq_refl) as (c' & Hret & _).
  unfold Core.load_rom, EmulatorCore.load_rom in Hret. discriminate Hret.
Qed.

(** C3, amended: no variant looks at the file behind the path.  A core
    with no bound library (the null core, or a [NoGbaCore] in stub mode)
    returns [True] and sets [rom_path] to the path.  A [NoGbaCore] with a
    bound library hands the UTF-8 bytes of the path to [nogba_load_rom]:
    it returns [False] and leaves [rom_path] as it was when
    [nogba_load_rom] returns nonzero, and returns [True] and sets
    [rom_path] to the path when it returns zero.  (For a path that has no
    UTF-8 bytes there is no call of the library: [path.encode] raises.) *)
Theorem C3_load_rom_amended {L : Type} `{NativeLib L} (c : core L)
    (path : string) :
  match bound_library c with
  | None =>
      ∃ c', Core.load_rom c path = Ok (true, c') ∧
            rom_path (Core.attrs c') = Some path
  | Some lib =>
      match encode_utf8 path with
      | Ok bytes =>
          ∃ c',
            if decide ((nogba_load_rom bytes lib).1 ≠ 0)
            then Core.load_rom c path = Ok (false, c') ∧
                 rom_path (Core.attrs c') = rom_path (Core.attrs c)
            else Core.load_rom c path = Ok (true, c') ∧
                 rom_path (Core.attrs c') = Some path
      | Raise e => Core.load_rom c path = Raise e
      end
  end.
Proof.
  destruct c as [e|[b [lib|]]]; cbn -[encode_utf8];
    [by eexists| |by eexists].
  destruct (encode_utf8 path) as [bytes|err]; cbn [mbind result_bind]; [|done].
  destruct (nogba_load_rom bytes lib) as [rc lib'].
  cbn. destruct (decide (rc ≠ 0)); by eexists.
Qed.

Example load_rom_native_refused :
  let n := AsNoGbaCore (mkNoGbaCore EmulatorCore.__init__ (Some 0)) in
  Core.load_rom n "" = Ok (false, n).
Proof. reflexivity. Qed.

Example load_rom_native_accepted :
  let n := AsNoGbaCore (mkNoGbaCore EmulatorCore.__init__ (Some 0)) in
  Core.load_rom n "game.nds"
  = Ok (true,
        AsNoGbaCore (mkNoGbaCore
          (EmulatorCore.set_rom_path (Some "game.nds") EmulatorCore.__init__)
          (Some 0))).
Proof. reflexivity. Qed.

(** [os.fsdecode(b"/roms/caf\xe9.nds")], the name of a file whose name is
    not UTF-8, holds the surrogate U+DCE9: a bound core raises on it and
    the null core accepts it. *)
Example load_rom_native_surrogate :
  let path := "/roms/caf" +:+ String "237" (String "179" (String "169" ""))
              +:+ ".nds" in
  Core.load_rom (AsNoGbaCore (mkNoGbaCore EmulatorCore.__init__ (Some 0))) path
  = Raise (UnicodeEncodeError
      "'utf-8' codec can't encode character '\udce9' in position 9: surrogates not allowed") ∧
  ∃ c', Core.load_rom (L := Z) (AsEmulatorCore EmulatorCore.__init__) path
        = Ok (true, c').
Proof. split; [reflexivity|by eexists]. Qed.

(** ** Texts that UTF-8 encodes *)

Example encode_utf8_examples :
  encode_utf8 "game.nds" = Ok (list_byte_of_string "game.nds") ∧
  encode_utf8 "—" = Ok (list_byte_of_string "—") ∧
  code_points "/opt/café" = [47; 111; 112; 116; 47; 99; 97; 102; 233] ∧
  encode_utf8 (String "237" (String "179" (String "169" "x"))
               +:+ String "237" (String "160" (String "128" "")))
  = Raise (UnicodeEncodeError
      "'utf-8' codec can't encode character '\udce9' in position 0: surrogates not allowed") ∧
  encode_utf8 ("ab" +:+ String "237" (String "179" (String "169" ""))
               +:+ String "237" (String "160" (String "128" "")))
  = Raise (UnicodeEncodeError
      "'utf-8' codec can't encode characters in position 2-3: surrogates not allowed").
Proof. repeat split; reflexivity. Qed.

Lemma span_all (p : Z → bool) (text : list Z) :
  Forall (fun cp => p cp = true) text → span p text = length text.
Proof.
  induction 1 as [|cp text Hcp _ IH]; [done|].
  cbn [span length]. by rewrite Hcp, IH.
Qed.

Lemma code_points_isascii (s : string) :
  isascii s = true → Forall (fun cp => 0 ≤ cp < 128) (code_points s).
Proof.
  induction s as [|a s IH]; [constructor|].
  cbn [isascii code_points]. intros [Ha Hs]%andb_true_iff.
  apply Z.ltb_lt in Ha.
  destruct (Z.ltb_spec (ord a) 0xC0) as [_|Hge]; [|lia].
  constructor; [|by apply IH]. unfold ord in *. lia.
Qed.

(** A text without surrogates is encoded, to the bytes it is held as. *)
Lemma encode_utf8_no_surrogate (s : string) :
  Forall (fun cp => is_surrogate cp = false) (code_points s) →
  encode_utf8 s = Ok (list_byte_of_string s).
Proof.
  intros Hall. unfold encode_utf8, strict.
  rewrite (span_all (fun cp => negb (is_surrogate cp))).
  2:{ eapply Forall_impl; [exact Hall|]. by intros cp ->. }
  by rewrite drop_all.
Qed.

Lemma encode_utf8_isascii (s : string) :
  isascii s = true → encode_utf8 s = Ok (list_byte_of_string s).
Proof.
  intros Hs. apply encode_utf8_no_surrogate.
  eapply Forall_impl; [by apply code_points_isascii|].
  intros cp Hcp. cbn beta in Hcp. unfold is_surrogate.
  apply andb_false_iff. left. apply Z.leb_gt. lia.
Qed.

(** X28: [load_rom] with a path in ASCII never raises, on a core of either
    class, bound or not: [path.encode] returns the characters of the path
    as bytes; a core without library returns [True], and a core with a
    bound library returns [True] exactly when [nogba_load_rom] returns 0
    for these bytes. *)
Theorem load_rom_ascii_path_returns {L : Type} `{NativeLib L} (c : core L)
    (path : string) :
  isascii path = true →
  encode_utf8 path = Ok (list_byte_of_string path) ∧
  ∃ r c',
    Core.load_rom c path = Ok (r, c') ∧
    match bound_library c with
    | None => r = true
    | Some lib =>
        r = negb (bool_decide
                    ((nogba_load_rom (list_byte_of_string path) lib).1 ≠ 0))
    end.
Proof.
  intros Hpath. pose proof (encode_utf8_isascii path Hpath) as Henc.
  split; [exact Henc|].
  destruct c as [e|[b [lib|]]]; unfold Core.load_rom, NoGbaCore.load_rom;
    cbn [_lib base bound_library]; [by eexists _, _| |by eexists _, _].
  rewrite Henc. cbn [mbind result_bind].
  destruct (nogba_load_rom (list_byte_of_string path) lib) as [rc lib'].
  cbn [fst]. destruct (decide (rc ≠ 0)) as [Hrc|Hrc].
  - eexists _, _. split; [reflexivity|]. by rewrite bool_decide_eq_true_2.
  - eexists _, _. split; [reflexivity|]. by rewrite bool_decide_eq_false_2.
Qed.

(** X28 on a core bound to the toy library, which refuses the empty path
    only. *)
Lemma load_rom_ascii_path_returns_witness :
  encode_utf8 "/roms/game.nds" = Ok (list_byte_of_string "/roms/game.nds") ∧
  ∃ r c',
    Core.load_rom (AsNoGbaCore (mkNoGbaCore EmulatorCore.__init__ (Some 0)))
      "/roms/game.nds" = Ok (r, c') ∧
    r = negb (bool_decide
                ((nogba_load_rom (list_byte_of_string "/roms/game.nds") 0).1
                 ≠ 0)).
Proof.
  apply (load_rom_ascii_path_returns
           (AsNoGbaCore (mkNoGbaCore EmulatorCore.__init__ (Some 0)))
           "/roms/game.nds").
  reflexivity.
Defined.

(** ** Determinism of the synthetic framebuffers *)

(** C4: two runs of [_fake_framebuffers] on cores with the same [_frame]
    (and screens of the fixed size) both return normally with equal top
    and equal bottom images, whatever else the two cores hold; the same
    holds for the images left by [run_frame] under any two random sources
    in any two states. *)
Theorem C4_fake_framebuffers_deterministic (s1 s2 : EmulatorCore) :
  screens_ok s1 → screens_ok s2 → _frame s1 = _frame s2 →
  (∃ s1' s2',
     EmulatorCore._fake_framebuffers s1 = Ok s1' ∧
     EmulatorCore._fake_framebuffers s2 = Ok s2' ∧
     fb_top s1' = fb_top s2' ∧ fb_bot s1' = fb_bot s2') ∧
  (∀ (G1 G2 : Type) (R1 : RandomSource G1) (R2 : RandomSource G2)
     (g1 : G1) (g2 : G2),
     ∃ s1' g1' s2' g2',
       EmulatorCore.run_frame s1 g1 = Ok (s1', g1') ∧
       EmulatorCore.run_frame s2 g2 = Ok (s2', g2') ∧
       fb_top s1' = fb_top s2' ∧ fb_bot s1' = fb_bot s2').
Proof.
  intros Hok1 Hok2 Hf. split.
  - eexists _, _. rewrite !fake_framebuffers_eq by done.
    split; [done|]. split; [done|].
    unfold EmulatorCore.set_framebuffers; cbn [fb_top fb_bot].
    by rewrite Hf.
  - intros G1 G2 R1 R2 g1 g2. unfold EmulatorCore.run_frame.
    pose proof (fake_registers_spec
                  (EmulatorCore.set_frame (_frame s1 + 1) s1) g1)
      as (_ & Hf1 & _ & _ & Ht1 & Hb1).
    pose proof (fake_registers_spec
                  (EmulatorCore.set_frame (_frame s2 + 1) s2) g2)
      as (_ & Hf2 & _ & _ & Ht2 & Hb2).
    destruct (EmulatorCore._fake_registers _ g1) as [e1 h1].
    destruct (EmulatorCore._fake_registers _ g2) as [e2 h2].
    cbn [fst] in *.
    rewrite !fake_framebuffers_eq.
    2:{ unfold screens_ok. rewrite Ht2, Hb2. exact Hok2. }
    2:{ unfold screens_ok. rewrite Ht1, Hb1. exact Hok1. }
    eexists _, _, _, _. split; [done|]. split; [done|].
    unfold EmulatorCore.set_framebuffers; cbn [fb_top fb_bot].
    rewrite Hf1, Hf2. unfold EmulatorCore.set_frame; cbn [_frame].
    by rewrite Hf.
Qed.

(** C4 on a fresh core and on one with other registers and a loaded
    path, both at frame counter 0. *)
Lemma C4_fake_framebuffers_deterministic_witness :
  let s1 := EmulatorCore.__init__ in
  let s2 := EmulatorCore.set_rom_path (Some "game.nds")
              (EmulatorCore.set_registers (replicate 16 7) (replicate 16 9)
                 0x10 0x13 EmulatorCore.__init__) in
  (∃ s1' s2',
     EmulatorCore._fake_framebuffers s1 = Ok s1' ∧
     EmulatorCore._fake_framebuffers s2 = Ok s2' ∧
     fb_top s1' = fb_top s2' ∧ fb_bot s1' = fb_bot s2') ∧
  (∀ (G1 G2 : Type) (R1 : RandomSource G1) (R2 : RandomSource G2)
     (g1 : G1) (g2 : G2),
     ∃ s1' g1' s2' g2',
       EmulatorCore.run_frame s1 g1 = Ok (s1', g1') ∧
       EmulatorCore.run_frame s2 g2 = Ok (s2', g2') ∧
       fb_top s1' = fb_top s2' ∧ fb_bot s1' = fb_bot s2').
Proof.
  intros s1 s2. apply (C4_fake_framebuffers_deterministic s1 s2).
  - split; apply Image_new_screen_ok.
  - split; apply Image_new_screen_ok.
  - reflexivity.
Defined.

(** ** The backend loader *)

Section Loader.
Context {L : Type} `{NativeLib L}.

Lemma try_candidates_all_missing (env : Env L) (paths : list string) :
  (∀ path, path ∈ paths → CDLL env path = Raise OSError) →
  NoGbaCore.try_candidates env paths = Ok None.
Proof.
  induction paths as [|p ps IH]; intros Hall; [done|].
  cbn [NoGbaCore.try_candidates]. rewrite (Hall p) by apply list_elem_of_here.
  apply IH. intros q Hq. apply Hall. by apply list_elem_of_further.
Qed.

End Loader.

(** C5: when [ctypes.CDLL] raises [OSError] for every candidate path,
    [_load_library] leaves its loop and prints its warning.  If the
    standard output takes the warning, [None] is returned.  If it raises,
    as a standard output does whose encoding has no bytes for the dash in
    the warning, the exception leaves [_load_library]: nothing is printed
    and nothing is returned. *)
Theorem C5_load_library_all_missing {L : Type} `{NativeLib L} (env : Env L) :
  (∀ path, path ∈ NoGbaCore.candidates env → CDLL env path = Raise OSError) →
  NoGbaCore._load_library env
  = match sys_stdout_write env NoGbaCore.warning with
    | Ok _ => ([NoGbaCore.warning], Ok None)
    | Raise e => ([], Raise e)
    end.
Proof.
  intros Hall. unfold NoGbaCore._load_library, print.
  rewrite try_candidates_all_missing by done.
  by destruct (sys_stdout_write env NoGbaCore.warning) as [[]|e].
Qed.

(** C5 where no path loads and the standard output is in ASCII:
    [_load_library] raises [UnicodeEncodeError]. *)
Lemma C5_load_library_all_missing_witness :
  NoGbaCore._load_library env_ascii_stdout
  = ([], Raise (UnicodeEncodeError
       "'ascii' codec can't encode character '\u2014' in position 39: ordinal not in range(128)")).
Proof.
  rewrite (C5_load_library_all_missing env_ascii_stdout).
  - reflexivity.
  - intros path _. reflexivity.
Defined.

Example load_library_not_found_utf8 :
  NoGbaCore._load_library env_no_library = ([NoGbaCore.warning], Ok None).
Proof. reflexivity. Qed.

Example load_library_found :
  NoGbaCore._load_library (env_with_library 5) = ([], Ok (Some 5)).
Proof. reflexivity. Qed.

Example stdout_warning :
  code_points "—" = [0x2014] ∧
  utf8_stdout NoGbaCore.warning = Ok () ∧
  ascii_stdout "[INFO] Falling back to dummy core." = Ok ().
Proof. repeat split; reflexivity. Qed.

Example candidates_posix :
  NoGbaCore.candidates env_no_library
  = ["libnogba.so"; "/opt/emuds/nogba.dll"; "/opt/emuds/libnogba.so"]%string.
Proof. reflexivity. Qed.

(** ** The banding pattern *)

Lemma screen_pixel_eq (top : bool) (frame : Z) (x y : nat) :
  (x < FB_W)%nat → (y < FB_H)%nat →
  screen_pixel top frame (x, y)
  = Some (if top
          then EmulatorCore.band y (EmulatorCore.c1 frame) (42, 54, 84)
          else EmulatorCore.band y (EmulatorCore.c2 frame) (34, 34, 34)).
Proof.
  intros Hx Hy. unfold screen_pixel. rewrite fake_framebuffers_eq.
  2:{ split; apply Image_new_screen_ok. }
  unfold pixel_drawn, EmulatorCore.set_framebuffers; cbn [fb_top fb_bot].
  unfold EmulatorCore.set_frame; cbn [_frame].
  destruct top; unfold top_picture, bot_picture;
    by rewrite rows_image_getpixel.
Qed.

(** C6, as stated, fails: row 8 of the top screen lies in the second band,
    whose colour is (42, 54, 84) at every frame counter. *)
Lemma C6_banding_counterexample : ¬ band_animated true 8.
Proof.
  intros (f1 & f2 & Hne). apply Hne.
  rewrite !screen_pixel_eq by (unfold FB_W, FB_H; lia). reflexivity.
Qed.

(** C6, amended: [_fake_framebuffers] draws bands of 8 rows alternating
    between two different colours; on the bands with [(y // 8) % 2 == 0]
    the colour is [c1] (top) or [c2] (bottom), which depend on the frame
    counter; on the other bands it is the fixed colour (42, 54, 84) (top)
    or (34, 34, 34) (bottom).  So the colour of a row depends on the
    frame counter exactly on the bands of the first kind. *)
Theorem C6_banding_amended (self : EmulatorCore) :
  screens_ok self →
  ∃ self',
    EmulatorCore._fake_framebuffers self = Ok self' ∧
    (∀ x y, (x < FB_W)%nat → (y < FB_H)%nat →
       getpixel (fb_top self') (x, y)
       = Some (if ((y / 8) mod 2 =? 0)%nat
               then EmulatorCore.c1 (_frame self) else (42, 54, 84)) ∧
       getpixel (fb_bot self') (x, y)
       = Some (if ((y / 8) mod 2 =? 0)%nat
               then EmulatorCore.c2 (_frame self) else (34, 34, 34))) ∧
    EmulatorCore.c1 (_frame self) ≠ (42, 54, 84) ∧
    EmulatorCore.c2 (_frame self) ≠ (34, 34, 34) ∧
    EmulatorCore.c1 0 ≠ EmulatorCore.c1 1 ∧
    EmulatorCore.c2 0 ≠ EmulatorCore.c2 1 ∧
    (∀ top y, (y < FB_H)%nat →
       band_animated top y ↔ ((y / 8) mod 2 = 0)%nat).
Proof.
  intros Hok. rewrite fake_framebuffers_eq by done. eexists. split; [done|].
  split; [|split; [|split; [|split; [|split]]]].
  - intros x y Hx Hy.
    unfold EmulatorCore.set_framebuffers; cbn [fb_top fb_bot].
    unfold top_picture, bot_picture. by rewrite !rows_image_getpixel.
  - unfold EmulatorCore.c1. intros Heq. by simplify_eq.
  - unfold EmulatorCore.c2. intros Heq. by simplify_eq.
  - unfold EmulatorCore.c1. intros Heq. by simplify_eq.
  - unfold EmulatorCore.c2. intros Heq. by simplify_eq.
  - intros top y Hy. assert (0 < FB_W)%nat as Hx by (unfold FB_W; lia).
    unfold band_animated. split.
    + intros (f1 & f2 & Hne). rewrite !screen_pixel_eq in Hne by done.
      unfold EmulatorCore.band in Hne.
      destruct (Nat.eqb_spec ((y / 8) mod 2) 0) as [Heq|_]; [done|].
      by destruct top.
    + intros Heq. exists 0, 1. rewrite !screen_pixel_eq by done.
      unfold EmulatorCore.band. rewrite Heq. cbn [Nat.eqb].
      destruct top; intros Hc; by simplify_eq.
Qed.

(** C6 (amended) on a fresh core. *)
Lemma C6_banding_amended_witness :
  screens_ok EmulatorCore.__init__ ∧
  ∃ self',
    EmulatorCore._fake_framebuffers EmulatorCore.__init__ = Ok self' ∧
    (∀ x y, (x < FB_W)%nat → (y < FB_H)%nat →
       getpixel (fb_top self') (x, y)
       = Some (if ((y / 8) mod 2 =? 0)%nat
               then EmulatorCore.c1 0 else (42, 54, 84)) ∧
       getpixel (fb_bot self') (x, y)
       = Some (if ((y / 8) mod 2 =? 0)%nat
               then EmulatorCore.c2 0 else (34, 34, 34))) ∧
    EmulatorCore.c1 0 ≠ (42, 54, 84) ∧
    EmulatorCore.c2 0 ≠ (34, 34, 34) ∧
    EmulatorCore.c1 0 ≠ EmulatorCore.c1 1 ∧
    EmulatorCore.c2 0 ≠ EmulatorCore.c2 1 ∧
    (∀ top y, (y < FB_H)%nat →
       band_animated top y ↔ ((y / 8) mod 2 = 0)%nat).
Proof.
  assert (screens_ok EmulatorCore.__init__) as Hok
    by (split; apply Image_new_screen_ok).
  split; [exact Hok|]. exact (C6_banding_amended EmulatorCore.__init__ Hok).
Defined.

(** On screens of another size the loops leave the image: [putpixel]
    raises [IndexError] at the first pixel outside. *)
Example fake_framebuffers_small_screen :
  EmulatorCore._fake_framebuffers
    (EmulatorCore.set_framebuffers (Image_new 2 2) (Image_new 2 2)
       EmulatorCore.__init__)
  = Raise IndexError.
Proof. vm_compute. reflexivity. Qed.

Example c1_frames : EmulatorCore.c1 0 = (60, 50, 255) ∧
  EmulatorCore.c1 5 = (110, 50, 255) ∧ EmulatorCore.c1 6 = (60, 50, 255).
Proof. by repeat split. Qed.

Example c2_frames : EmulatorCore.c2 0 = (255, 60, 80) ∧
  EmulatorCore.c2 7 = (255, 109, 80) ∧ EmulatorCore.c2 8 = (255, 60, 80).
Proof. by repeat split. Qed.

(** ** [reset] *)

(** C7: on a core of either class whose [rom_path] is set, [reset] sets
    [_frame] to 0, clears [running] and leaves [rom_path] set to the same
    path; registers and images are left as they were. *)
Theorem C7_reset_keeps_rom_path {L : Type} `{NativeLib L} (c : core L)
    (path : string) :
  rom_path (Core.attrs c) = Some path →
  _frame (Core.attrs (Core.reset c)) = 0 ∧
  running (Core.attrs (Core.reset c)) = false ∧
  rom_path (Core.attrs (Core.reset c)) = Some path ∧
  Core.get_registers (Core.reset c) = Core.get_registers c ∧
  Core.get_framebuffers (Core.reset c) = Core.get_framebuffers c.
Proof.
  intros Hpath. by destruct c as [e|[b [lib|]]].
Qed.

(** C7 after a successful [load_rom] on a core bound to the toy library,
    three frames later. *)
Lemma C7_reset_keeps_rom_path_witness :
  let c0 := AsNoGbaCore (mkNoGbaCore
              (EmulatorCore.set_frame 3 EmulatorCore.__init__) (Some 3)) in
  ∃ c,
    Core.load_rom c0 "game.nds" = Ok (true, c) ∧
    rom_path (Core.attrs c) = Some "game.nds" ∧
    _frame (Core.attrs c) = 3 ∧
    _frame (Core.attrs (Core.reset c)) = 0 ∧
    running (Core.attrs (Core.reset c)) = false ∧
    rom_path (Core.attrs (Core.reset c)) = Some "game.nds" ∧
    Core.get_registers (Core.reset c) = Core.get_registers c ∧
    Core.get_framebuffers (Core.reset c) = Core.get_framebuffers c.
Proof.
  intros c0. eexists. split; [reflexivity|].
  split; [reflexivity|]. split; [reflexivity|].
  apply (C7_reset_keeps_rom_path _ "game.nds"). reflexivity.
Defined.

(** ** Construction of [NoGbaCore] *)

(** C8: when a library is bound (a candidate loaded and
    [_init_functions] found its entry points) and its [nogba_init]
    returns nonzero, [NoGbaCore.__init__] raises [RuntimeError]; the
    attributes of the object are then exactly those set by
    [EmulatorCore.__init__], and its handle is the library as
    [nogba_init] left it: no other entry point was called. *)
Theorem C8_init_failure {L : Type} `{NativeLib L} (env : Env L) (lib : L) :
  (NoGbaCore._load_library env).2 = Ok (Some lib) →
  NoGbaCore._init_functions env lib = Ok () →
  (nogba_init lib).1 ≠ 0 →
  NoGbaCore.outcome (NoGbaCore.__init__ env)
  = Raise (RuntimeError "no$gba: initialization failed") ∧
  base (NoGbaCore.self_of (NoGbaCore.__init__ env)) = EmulatorCore.__init__ ∧
  _lib (NoGbaCore.self_of (NoGbaCore.__init__ env)) = Some (nogba_init lib).2.
Proof.
  intros Hload Hlookup Hinit. unfold NoGbaCore.__init__.
  destruct (NoGbaCore._load_library env) as [out r]. cbn [snd] in Hload.
  subst r. rewrite Hlookup.
  destruct (nogba_init lib) as [rc lib']. cbn [fst snd] in *.
  by destruct (decide (rc ≠ 0)).
Qed.

(** C8 with the toy library in a state in which its [nogba_init] fails. *)
Lemma C8_init_failure_witness :
  NoGbaCore.outcome (NoGbaCore.__init__ (env_with_library (-1)))
  = Raise (RuntimeError "no$gba: initialization failed") ∧
  base (NoGbaCore.self_of (NoGbaCore.__init__ (env_with_library (-1))))
  = EmulatorCore.__init__ ∧
  _lib (NoGbaCore.self_of (NoGbaCore.__init__ (env_with_library (-1))))
  = Some (nogba_init (-1)).2.
Proof.
  apply (C8_init_failure (env_with_library (-1)) (-1)).
  - reflexivity.
  - reflexivity.
  - vm_compute. discriminate.
Defined.

Example init_success :
  NoGbaCore.outcome (NoGbaCore.__init__ (env_with_library 0)) = Ok () ∧
  NoGbaCore.printed (NoGbaCore.__init__ (env_with_library 0)) = [].
Proof. split; reflexivity. Qed.

Example init_stub_mode :
  NoGbaCore.__init__ env_no_library
  = NoGbaCore.mkConstructed [NoGbaCore.warning]
      (mkNoGbaCore EmulatorCore.__init__ None) (Ok ()).
Proof. reflexivity. Qed.

(** A library that lacks an entry point: the lookup of its name in
    [_init_functions] raises, and [nogba_init] is not called. *)
Example init_missing_entry_point :
  NoGbaCore.__init__ env_incomplete_library
  = NoGbaCore.mkConstructed []
      (mkNoGbaCore EmulatorCore.__init__ (Some 0))
      (Raise (AttributeError
         "/opt/emuds/libnogba.so: undefined symbol: nogba_get_arm7_regs")).
Proof. reflexivity. Qed.

(** [print] raises in [_load_library]: the constructor raises and
    [_lib] was not assigned. *)
Example init_warning_not_printed :
  NoGbaCore.outcome (NoGbaCore.__init__ env_ascii_stdout)
  = Raise (UnicodeEncodeError
      "'ascii' codec can't encode character '\u2014' in position 39: ordinal not in range(128)").
Proof. reflexivity. Qed.

(** ** The register arrays keep their length *)

Section Registers.
Context {L : Type} `{NativeLib L} {G : Type} `{RandomSource G}.

Lemma do_call_reachable (k : call) (c c' : core L) (g g' : G) (r : retval) :
  Core.reachable (G := G) c → Core.do_call k c g = Ok (r, c', g') →
  Core.reachable (G := G) c'.
Proof.
  intros Hreach Hcall. destruct k as [path| | | |]; unfold Core.do_call in Hcall.
  - destruct (Core.load_rom c path) as [[b c1]|e] eqn:Hl; [|done].
    cbn [mbind result_bind] in Hcall. simplify_eq.
    by eapply Core.reach_load_rom.
  - simplify_eq. by apply Core.reach_reset.
  - destruct (Core.run_frame c g) as [[c1 g1]|e] eqn:Hrun; [|done].
    cbn in Hcall. simplify_eq. by eapply Core.reach_run_frame.
  - by simplify_eq.
  - by simplify_eq.
Qed.

End Registers.

(** C9: on every core a program can hold (constructed as an
    [EmulatorCore] or as a [NoGbaCore], then used through any calls of the
    API), [arm9] and [arm7] have 16 entries each, so has what
    [get_registers] returns, and so has the core left by any further call
    that returns. *)
Theorem C9_registers_length {L : Type} `{NativeLib L} {G : Type}
    `{RandomSource G} (c : core L) :
  Core.reachable (G := G) c →
  length (arm9 (Core.attrs c)) = 16%nat ∧
  length (arm7 (Core.attrs c)) = 16%nat ∧
  length (Core.get_registers c).1.1.1 = 16%nat ∧
  length (Core.get_registers c).1.1.2 = 16%nat ∧
  (∀ (k : call) (g g' : G) (r : retval) (c' : core L),
     Core.do_call k c g = Ok (r, c', g') →
     length (arm9 (Core.attrs c')) = 16%nat ∧
     length (arm7 (Core.attrs c')) = 16%nat).
Proof.
  intros Hreach. destruct (reachable_inv c Hreach) as [_ [H9 H7]].
  split; [done|]. split; [done|].
  split; [by destruct c|]. split; [by destruct c|].
  intros k g g' r c' Hcall.
  apply (reachable_inv (G := G)). by eapply do_call_reachable.
Qed.

(** C9 on a [NoGbaCore] bound to the toy library, after [load_rom] and
    [reset]. *)
Lemma C9_registers_length_witness :
  let n := AsNoGbaCore (NoGbaCore.self_of
                          (NoGbaCore.__init__ (env_with_library 0))) in
  ∃ c0,
    Core.load_rom n "game.nds" = Ok (true, c0) ∧
    let c := Core.reset c0 in
    length (arm9 (Core.attrs c)) = 16%nat ∧
    length (arm7 (Core.attrs c)) = 16%nat ∧
    length (Core.get_registers c).1.1.1 = 16%nat ∧
    length (Core.get_registers c).1.1.2 = 16%nat ∧
    (∀ (k : call) (g g' : Z) (r : retval) (c' : core Z),
       Core.do_call k c g = Ok (r, c', g') →
       length (arm9 (Core.attrs c')) = 16%nat ∧
       length (arm7 (Core.attrs c')) = 16%nat).
Proof.
  intros n. eexists. split; [reflexivity|].
  intros c. apply (C9_registers_length (G := Z) c).
  apply Core.reach_reset.
  apply (Core.reach_load_rom (G := Z) n "game.nds" true); [|reflexivity].
  apply Core.reach_NoGbaCore. reflexivity.
Defined.

(** The registers pulled from the toy library: 16 of the 17 words, and the
    words that [nogba_get_arm7_regs] left untouched are those of the first
    call. *)
Example pull_registers_toy :
  Core.get_registers
    (AsNoGbaCore (mkNoGbaCore
       (NoGbaCore._pull_registers 100 EmulatorCore.__init__).1 (Some 100)))
  = ([100; 101; 102; 103; 104; 105; 106; 107;
      108; 109; 110; 111; 112; 113; 114; 115],
     [100; 101; 102; 103; 104; 105; 106; 107; 7; 7; 7; 7; 7; 7; 7; 7],
     116, 7).
Proof. reflexivity. Qed.

(** ** [NoGbaCore] in stub mode *)

Section StubMode.
Context {L : Type} `{NativeLib L} {G : Type} `{RandomSource G}.

(** One call on a [NoGbaCore] without library does what the same call does
    on the [EmulatorCore] with the same attributes. *)
Lemma do_call_stub (k : call) (e : EmulatorCore) (g : G) :
  Core.do_call k (AsNoGbaCore (mkNoGbaCore e None)) g
  = result_map (fun '(r, c, g') => (r, as_stub c, g'))
      (Core.do_call k (AsEmulatorCore e) g).
Proof.
  destruct k as [path| | | |]; try reflexivity.
  unfold Core.do_call, Core.run_frame, NoGbaCore.run_frame. cbn [_lib base].
  by destruct (EmulatorCore.run_frame e g) as [[e' g']|err].
Qed.

(** A call on an [EmulatorCore] leaves an [EmulatorCore]. *)
Lemma do_call_class (k : call) (e : EmulatorCore) (g g' : G) r (c : core L) :
  Core.do_call k (AsEmulatorCore e) g = Ok (r, c, g') →
  c = AsEmulatorCore (Core.attrs c).
Proof.
  destruct k as [path| | | |]; unfold Core.do_call; intros Hcall.
  - unfold Core.load_rom, EmulatorCore.load_rom in Hcall.
    cbn [mbind result_bind] in Hcall. by simplify_eq.
  - unfold Core.reset in Hcall. by simplify_eq.
  - unfold Core.run_frame in Hcall.
    destruct (EmulatorCore.run_frame e g) as [[e' g1]|err]; [|done].
    cbn in Hcall. by simplify_eq.
  - by simplify_eq.
  - by simplify_eq.
Qed.

Lemma do_calls_stub (ks : list call) (e : EmulatorCore) (g : G) :
  Core.do_calls ks (AsNoGbaCore (mkNoGbaCore e None)) g
  = result_map (fun '(rs, c, g') => (rs, as_stub c, g'))
      (Core.do_calls ks (AsEmulatorCore e) g).
Proof.
  revert e g. induction ks as [|k ks IH]; intros e g; [done|].
  cbn [Core.do_calls]. rewrite do_call_stub.
  destruct (Core.do_call k (AsEmulatorCore e) g) as [[[r c] g1]|err] eqn:Hk;
    [|done].
  apply do_call_class in Hk. cbn [result_map mbind result_bind].
  unfold as_stub at 1. rewrite IH, Hk. cbn [Core.attrs].
  by destruct (Core.do_calls ks (AsEmulatorCore (Core.attrs c)) g1)
    as [[[rs c2] g2]|err].
Qed.

End StubMode.

(** C10: a [NoGbaCore] whose handle is [None] answers every sequence of
    API calls as the [EmulatorCore] with the same attributes does, from
    the same state of the random source: the same values are returned (or
    the same exception is raised), the attributes and the random source
    end in the same state, and the handle is still [None]. *)
Theorem C10_stub_mode_equivalence {L : Type} `{NativeLib L} {G : Type}
    `{RandomSource G} (n : NoGbaCore L) (ks : list call) (g : G) :
  _lib n = None →
  Core.do_calls ks (AsNoGbaCore n) g
  = result_map (fun '(rs, c, g') => (rs, as_stub c, g'))
      (Core.do_calls ks (AsEmulatorCore (base n)) g).
Proof.
  destruct n as [e lib]. cbn [_lib base]. intros ->. apply do_calls_stub.
Qed.

(** C10 on the core constructed where no library can be loaded. *)
Lemma C10_stub_mode_equivalence_witness :
  let n := NoGbaCore.self_of (NoGbaCore.__init__ env_no_library) in
  let ks := [LoadRom "game.nds"; Reset; RunFrame; GetRegisters;
             RunFrame; GetFramebuffers] in
  _lib n = None ∧
  Core.do_calls ks (AsNoGbaCore n) 2024
  = result_map (fun '(rs, c, g') => (rs, as_stub c, g'))
      (Core.do_calls ks (AsEmulatorCore (base n)) 2024).
Proof.
  intros n ks. split; [reflexivity|].
  apply (C10_stub_mode_equivalence (G := Z) n ks 2024). reflexivity.
Defined.

(** * Further properties of the cores *)

(** ** What [run_frame] leaves, in closed form *)

Lemma run_frame_synthetic_eq {G} `{RandomSource G} (e : EmulatorCore) (g : G) :
  screens_ok e →
  EmulatorCore.run_frame e g
  = Ok (EmulatorCore.set_framebuffers
          (top_picture (_frame e + 1)) (bot_picture (_frame e + 1))
          (EmulatorCore._fake_registers
             (EmulatorCore.set_frame (_frame e + 1) e) g).1,
        (EmulatorCore._fake_registers
           (EmulatorCore.set_frame (_frame e + 1) e) g).2).
Proof.
  intros Hok. unfold EmulatorCore.run_frame.
  pose proof (fake_registers_spec (EmulatorCore.set_frame (_frame e + 1) e) g)
    as (_ & Hf & _ & _ & Ht & Hb).
  destruct (EmulatorCore._fake_registers _ g) as [e1 g1]. cbn [fst snd] in *.
  rewrite fake_framebuffers_eq.
  2:{ unfold screens_ok. rewrite Ht, Hb. exact Hok. }
  by rewrite Hf.
Qed.

Section NativeFrame.
Context {L : Type} `{NativeLib L}.

Lemma pull_framebuffers_eq (lib : L) (self : EmulatorCore) :
  let top := nogba_get_framebuffer_top carray_new lib in
  let bot := nogba_get_framebuffer_bot carray_new top.2 in
  NoGbaCore._pull_framebuffers lib self
  = Ok (EmulatorCore.set_framebuffers
          (mkImage FB_W FB_H
             (rgb565_to_rgb888 <$> carray_list c_uint16 (FB_W * FB_H) top.1))
          (mkImage FB_W FB_H
             (rgb565_to_rgb888 <$> carray_list c_uint16 (FB_W * FB_H) bot.1))
          self, bot.2).
Proof.
  unfold NoGbaCore._pull_framebuffers.
  destruct (nogba_get_framebuffer_top carray_new lib) as [bt l1].
  cbn [fst snd].
  destruct (nogba_get_framebuffer_bot carray_new l1) as [bb l2].
  cbn [fst snd]. by rewrite !convert_eq by apply carray_list_length.
Qed.

Lemma run_frame_native_eq {G} `{RandomSource G} (b : EmulatorCore) (lib : L)
    (g : G) :
  let regs := NoGbaCore._pull_registers (nogba_run_frame lib) b in
  let top := nogba_get_framebuffer_top carray_new regs.2 in
  let bot := nogba_get_framebuffer_bot carray_new top.2 in
  NoGbaCore.run_frame (mkNoGbaCore b (Some lib)) g
  = Ok (mkNoGbaCore
          (EmulatorCore.set_frame (_frame b + 1)
             (EmulatorCore.set_framebuffers
                (mkImage FB_W FB_H
                   (rgb565_to_rgb888
                      <$> carray_list c_uint16 (FB_W * FB_H) top.1))
                (mkImage FB_W FB_H
                   (rgb565_to_rgb888
                      <$> carray_list c_uint16 (FB_W * FB_H) bot.1))
                regs.1))
          (Some bot.2), g).
Proof.
  unfold NoGbaCore.run_frame. cbn [_lib base].
  pose proof (pull_registers_spec (nogba_run_frame lib) b) as (_ & Hf & _).
  destruct (NoGbaCore._pull_registers (nogba_run_frame lib) b) as [b1 l1].
  cbn [fst snd] in *. rewrite pull_framebuffers_eq.
  cbn [mbind result_bind]. unfold EmulatorCore.set_framebuffers at 1.
  cbn [_frame]. by rewrite Hf.
Qed.

End NativeFrame.

(** ** A principle for invariants of the attributes *)

Lemma Ok_pair_inj {A B} (a a' : A) (b b' : B) :
  Ok (a, b) = Ok (a', b') → a = a' ∧ b = b'.
Proof. by intros [= -> ->]. Qed.

Section AttrInvariants.
Context {L : Type} `{NativeLib L} {G : Type} `{RandomSource G}.

Lemma load_rom_attrs (c : core L) (path : string) r c' :
  Core.load_rom c path = Ok (r, c') →
  Core.attrs c' = Core.attrs c ∨
  Core.attrs c' = EmulatorCore.set_rom_path (Some path) (Core.attrs c).
Proof.
  intros Hload. pose proof (load_rom_cases c path) as Hc.
  rewrite Hload in Hc. destruct Hc as [-> _].
  destruct r; [by right|by left].
Qed.

(** The attributes after a [run_frame] that returned: those left by the
    synthetic frame when no library is bound, those pulled from the
    library otherwise. *)
Lemma run_frame_attrs (c c' : core L) (g g' : G) :
  screens_ok (Core.attrs c) → Core.run_frame c g = Ok (c', g') →
  match bound_library c with
  | None =>
      Core.attrs c'
      = EmulatorCore.set_framebuffers
          (top_picture (_frame (Core.attrs c) + 1))
          (bot_picture (_frame (Core.attrs c) + 1))
          (EmulatorCore._fake_registers
             (EmulatorCore.set_frame (_frame (Core.attrs c) + 1)
                (Core.attrs c)) g).1
  | Some lib =>
      ∃ top bot : buffer,
        Core.attrs c'
        = EmulatorCore.set_frame (_frame (Core.attrs c) + 1)
            (EmulatorCore.set_framebuffers
               (mkImage FB_W FB_H
                  (rgb565_to_rgb888 <$> carray_list c_uint16 (FB_W * FB_H) top))
               (mkImage FB_W FB_H
                  (rgb565_to_rgb888 <$> carray_list c_uint16 (FB_W * FB_H) bot))
               (NoGbaCore._pull_registers (nogba_run_frame lib)
                  (Core.attrs c)).1)
  end.
Proof.
  intros Hok Hrun. destruct c as [e|[b [lib|]]];
    cbn [Core.attrs base bound_library _lib] in *;
    unfold Core.run_frame in Hrun.
  - rewrite run_frame_synthetic_eq in Hrun by done.
    cbn [mbind result_bind] in Hrun. by apply Ok_pair_inj in Hrun as [<- <-].
  - rewrite run_frame_native_eq in Hrun. cbn [mbind result_bind] in Hrun.
    apply Ok_pair_inj in Hrun as [<- <-]. by eexists _, _.
  - unfold NoGbaCore.run_frame in Hrun. cbn [_lib base] in Hrun.
    rewrite run_frame_synthetic_eq in Hrun by done.
    cbn [mbind result_bind] in Hrun. by apply Ok_pair_inj in Hrun as [<- <-].
Qed.

(** A property of the attributes that holds after [EmulatorCore.__init__]
    and is kept by setting [rom_path], by [reset] and by every
    [run_frame] that returns holds on every core a program can hold. *)
Lemma reachable_attrs_ind (P : EmulatorCore → Prop) :
  P EmulatorCore.__init__ →
  (∀ e path, P e → P (EmulatorCore.set_rom_path (Some path) e)) →
  (∀ e, P e → P (EmulatorCore.reset e)) →
  (∀ (c c' : core L) (g g' : G),
     Core.reachable (G := G) c → P (Core.attrs c) →
     Core.run_frame c g = Ok (c', g') → P (Core.attrs c')) →
  ∀ c : core L, Core.reachable (G := G) c → P (Core.attrs c).
Proof.
  intros Hinit Hpath Hreset Hrun.
  induction 1 as [|env Hout|c path r c' _ IH Hload|c _ IH|c g c' g' Hc IH Hr].
  - done.
  - cbn [Core.attrs]. by rewrite init_base.
  - destruct (load_rom_attrs c path r c' Hload) as [-> | ->];
      [done|by apply Hpath].
  - rewrite reset_attrs. by apply Hreset.
  - by eapply Hrun.
Qed.

End AttrInvariants.

(** ** The framebuffers keep their size and hold byte-sized channels *)












(** ** Register values *)

Lemma lcg_contract : RandomContract Z.
Proof.
  split.
  - intros lo hi g Hle. cbn [randint lcg fst].
    pose proof (Z.mod_pos_bound g (hi - lo + 1) ltac:(lia)). lia.
  - intros xs g Hne. cbn [choice lcg fst].
    apply list_elem_of_In, nth_In.
    assert (0 < Z.of_nat (length xs)) by (destruct xs; [done|cbn; lia]).
    pose proof (Z.mod_pos_bound g (Z.of_nat (length xs)) ltac:(lia)). lia.
Qed.

Lemma randint_list_range {G} `{RandomContract G} n lo hi (g : G) :
  lo ≤ hi → Forall (fun v => lo ≤ v ≤ hi) (randint_list n lo hi g).1.
Proof.
  intros Hle. revert g. induction n as [|n IH]; intros g; [by constructor|].
  cbn [randint_list]. pose proof (randint_range lo hi g Hle) as Hv.
  destruct (randint lo hi g) as [v g1]. specialize (IH g1).
  destruct (randint_list n lo hi g1) as [vs g2]. cbn [fst] in *.
  by constructor.
Qed.

Lemma fake_registers_values {G} `{RandomContract G} self (g : G) :
  let self' := (EmulatorCore._fake_registers self g).1 in
  regs_u32 self' ∧ cpsr9 self' ∈ fake_modes ∧ cpsr7 self' ∈ fake_modes.
Proof.
  unfold EmulatorCore._fake_registers.
  pose proof (randint_list_range 16 0 0xFFFFFFFF g ltac:(lia)) as H9.
  destruct (randint_list 16 0 0xFFFFFFFF g) as [r9 g1].
  pose proof (randint_list_range 16 0 0xFFFFFFFF g1 ltac:(lia)) as H7.
  destruct (randint_list 16 0 0xFFFFFFFF g1) as [r7 g2].
  pose proof (choice_elem [0x10; 0x1F; 0x13] g2 ltac:(done)) as Hc9.
  destruct (choice _ g2) as [c9 g3].
  pose proof (choice_elem [0x10; 0x1F; 0x13] g3 ltac:(done)) as Hc7.
  destruct (choice _ g3) as [c7 g4].
  cbn [fst] in *. unfold regs_u32, EmulatorCore.set_registers, fake_modes.
  cbn [arm9 arm7 cpsr9 cpsr7].
  assert (∀ c, c ∈ [0x10; 0x1F; 0x13] → u32 c) as Hmode.
  { intros c Hc. unfold u32. rewrite !elem_of_cons, elem_of_nil in Hc.
    change (2 ^ 32) with 4294967296.
    destruct Hc as [->|[->|[->|[]]]]; lia. }
  split; [|done].
  split; [|split; [|split]]; [| |by apply Hmode..].
  - eapply Forall_impl; [exact H9|]. intros v Hv. unfold u32.
    cbn beta in Hv. change (2 ^ 32) with 4294967296. lia.
  - eapply Forall_impl; [exact H7|]. intros v Hv. unfold u32.
    cbn beta in Hv. change (2 ^ 32) with 4294967296. lia.
Qed.

Lemma c_uint32_u32 (v : Z) : u32 (c_uint32 v).
Proof. unfold u32, c_uint32. apply Z.mod_pos_bound. lia. Qed.

Lemma carray_list_u32 n arr : Forall u32 (carray_list c_uint32 n arr).
Proof.
  unfold carray_list. apply Forall_fmap, Forall_forall.
  intros i _. apply c_uint32_u32.
Qed.

Lemma pull_registers_values {L} `{NativeLib L} (lib : L) self :
  regs_u32 (NoGbaCore._pull_registers lib self).1.
Proof.
  unfold NoGbaCore._pull_registers.
  destruct (nogba_get_arm9_regs carray_new lib) as [a9 l1].
  destruct (nogba_get_arm7_regs a9 l1) as [a7 l2].
  unfold regs_u32, EmulatorCore.set_registers. cbn [fst arm9 arm7 cpsr9 cpsr7].
  split; [|split; [|split]]; try apply c_uint32_u32;
    apply Forall_take, carray_list_u32.
Qed.

(** With a random source that keeps the contract of [random], every
    register and both status words of every core a program can hold are
    unsigned 32-bit values, so each prints as 8 hexadecimal digits. *)
Lemma reachable_regs_u32 {L : Type} `{NativeLib L} {G : Type}
    `{RandomContract G} (c : core L) :
  Core.reachable (G := G) c →
  Forall u32 (Core.get_registers c).1.1.1 ∧
  Forall u32 (Core.get_registers c).1.1.2 ∧
  u32 (Core.get_registers c).1.2 ∧
  u32 (Core.get_registers c).2.
Proof.
  intros Hreach. assert (regs_u32 (Core.attrs c)) as Hregs; [|by destruct c].
  revert c Hreach. apply (reachable_attrs_ind regs_u32).
  - unfold regs_u32, u32. cbn [EmulatorCore.__init__ arm9 arm7 cpsr9 cpsr7].
    change (2 ^ 32) with 4294967296.
    split; [|split]; [apply Forall_replicate; lia..|lia].
  - intros e path He. exact He.
  - intros e He. exact He.
  - intros c c' g g' Hc _ Hrun.
    destruct (reachable_inv c Hc) as [Hok _].
    pose proof (run_frame_attrs c c' g g' Hok Hrun) as Hattrs.
    destruct (bound_library c) as [lib|].
    + destruct Hattrs as (top & bot & ->).
      exact (pull_registers_values (nogba_run_frame lib) (Core.attrs c)).
    + rewrite Hattrs.
      exact (proj1 (fake_registers_values
               (EmulatorCore.set_frame (_frame (Core.attrs c) + 1)
                  (Core.attrs c)) g)).
Qed.

(** X3: With a random source that keeps the contract of [random], every
    register and both status words of every core a program can hold are
    unsigned 32-bit values. *)
Theorem registers_are_u32 {L : Type} `{NativeLib L} {G : Type}
    `{RandomContract G} (c : core L) :
  Core.reachable (G := G) c →
  Forall u32 (Core.get_registers c).1.1.1 ∧
  Forall u32 (Core.get_registers c).1.1.2 ∧
  u32 (Core.get_registers c).1.2 ∧
  u32 (Core.get_registers c).2.
Proof. exact (reachable_regs_u32 c). Qed.

(** The registers that [_fake_registers] draws under the generator
    [lcg] in state 2024. *)
Lemma fake_registers_lcg (self : EmulatorCore) :
  let self' := (EmulatorCore._fake_registers self 2024).1 in
  take 2 (arm9 self') = [2024; 131874305] ∧
  cpsr9 self' = 0x10 ∧ cpsr7 self' = 0x13.
Proof.
  unfold EmulatorCore._fake_registers.
  destruct (randint_list 16 0 0xFFFFFFFF 2024) as [r9 g1] eqn:H9.
  vm_compute in H9. injection H9 as <- <-.
  destruct (randint_list 16 0 0xFFFFFFFF _) as [r7 g2] eqn:H7.
  vm_compute in H7. injection H7 as <- <-.
  destruct (choice [0x10; 0x1F; 0x13] _) as [c9 g3] eqn:Hc9.
  vm_compute in Hc9. injection Hc9 as <- <-.
  destruct (choice [0x10; 0x1F; 0x13] _) as [c7 g4] eqn:Hc7.
  vm_compute in Hc7. injection Hc7 as <- <-.
  unfold EmulatorCore.set_registers. cbn [fst arm9 cpsr9 cpsr7 take].
  split; [reflexivity|]. split; reflexivity.
Qed.

(** The first frame of a core without library under the generator [lcg]
    in state 2024: registers and status words are drawn from it. *)
Lemma first_frame_lcg (c0 : core Z) :
  Core.reachable (G := Z) c0 → bound_library c0 = None →
  ∃ c g',
    Core.run_frame c0 2024 = Ok (c, g') ∧
    Core.reachable (G := Z) c ∧ bound_library c = None ∧
    take 2 (arm9 (Core.attrs c)) = [2024; 131874305] ∧
    cpsr9 (Core.attrs c) = 0x10 ∧ cpsr7 (Core.attrs c) = 0x13.
Proof.
  intros Hreach Hlib.
  destruct (reachable_inv c0 Hreach) as [Hok _].
  destruct (run_frame_spec c0 2024 Hok) as (c & g' & Hrun & _).
  exists c, g'. split; [exact Hrun|].
  split; [by eapply Core.reach_run_frame|].
  split.
  { clear Hok Hreach.
    destruct c0 as [e|[b [lib|]]]; [|discriminate Hlib|];
      unfold Core.run_frame in Hrun.
    - destruct (EmulatorCore.run_frame e 2024) as [[e1 g1]|err];
        [|discriminate Hrun].
      cbn [mbind result_bind] in Hrun.
      apply Ok_pair_inj in Hrun as [<- _]. reflexivity.
    - unfold NoGbaCore.run_frame in Hrun. cbn [_lib base] in Hrun.
      destruct (EmulatorCore.run_frame b 2024) as [[e1 g1]|err];
        [|discriminate Hrun].
      cbn [mbind result_bind] in Hrun.
      apply Ok_pair_inj in Hrun as [<- _]. reflexivity. }
  pose proof (run_frame_attrs c0 c 2024 g' Hok Hrun) as Hattrs.
  rewrite Hlib in Hattrs. rewrite Hattrs. unfold EmulatorCore.set_framebuffers.
  cbn [arm9 cpsr9 cpsr7]. apply fake_registers_lcg.
Qed.

Lemma registers_are_u32_witness :
  ∃ c g',
    Core.run_frame (L := Z) (AsEmulatorCore EmulatorCore.__init__) 2024
    = Ok (c, g') ∧
    take 2 (arm9 (Core.attrs c)) = [2024; 131874305] ∧
    Forall u32 (Core.get_registers c).1.1.1 ∧
    Forall u32 (Core.get_registers c).1.1.2 ∧
    u32 (Core.get_registers c).1.2 ∧
    u32 (Core.get_registers c).2.
Proof.
  destruct (first_frame_lcg (AsEmulatorCore EmulatorCore.__init__))
    as (c & g' & Hrun & Hreach & _ & Hregs & _);
    [apply Core.reach_EmulatorCore|reflexivity|].
  exists c, g'. split; [exact Hrun|]. split; [exact Hregs|].
  exact (registers_are_u32 (G := Z) (H1 := lcg_contract) c Hreach).
Defined.

(** X4: With such a random source, the two status words of a core that has
    no library bound (the null core, or a [NoGbaCore] in stub mode) are
    always among the three processor modes 0x10, 0x1F and 0x13. *)
Theorem stub_status_is_a_mode {L : Type} `{NativeLib L} {G : Type}
    `{RandomContract G} (c : core L) :
  Core.reachable (G := G) c → bound_library c = None →
  cpsr9 (Core.attrs c) ∈ [0x10; 0x1F; 0x13] ∧
  cpsr7 (Core.attrs c) ∈ [0x10; 0x1F; 0x13].
Proof.
  induction 1 as [|env Hout|c path r c' _ IH Hload|c _ IH
                  |c g c' g' Hc IH Hrun];
    intros Hlib.
  - split; apply elem_of_cons; right; apply list_elem_of_here.
  - cbn [Core.attrs]. rewrite init_base.
    split; apply elem_of_cons; right; apply list_elem_of_here.
  - pose proof (load_rom_cases c path) as Hcases. rewrite Hload in Hcases.
    destruct Hcases as (Hattrs & Hbound & _).
    assert (bound_library c = None) as Hc.
    { destruct (bound_library c) as [lib|]; [|done].
      destruct (proj2 Hbound ltac:(by eexists)) as [lib' Hlib'].
      congruence. }
    specialize (IH Hc). rewrite Hattrs. by destruct r.
  - assert (bound_library c = None) as Hc
      by (by destruct c as [e|[b [lib|]]]).
    specialize (IH Hc). by destruct c as [e|[b [lib|]]].
  - destruct (reachable_inv c Hc) as [Hok _].
    pose proof (run_frame_attrs c c' g g' Hok Hrun) as Hattrs.
    destruct (bound_library c) as [lib|] eqn:Hb.
    + exfalso. destruct c as [e|[b [l|]]]; try done.
      unfold Core.run_frame in Hrun. rewrite run_frame_native_eq in Hrun.
      cbn [mbind result_bind] in Hrun.
      apply Ok_pair_inj in Hrun as [<- _]. done.
    + rewrite Hattrs.
      exact (proj2 (fake_registers_values
               (EmulatorCore.set_frame (_frame (Core.attrs c) + 1)
                  (Core.attrs c)) g)).
Qed.

Lemma stub_status_is_a_mode_witness :
  ∃ c g',
    Core.run_frame
      (AsNoGbaCore (NoGbaCore.self_of (NoGbaCore.__init__ env_no_library)))
      2024 = Ok (c, g') ∧
    cpsr9 (Core.attrs c) = 0x10 ∧ cpsr7 (Core.attrs c) = 0x13 ∧
    cpsr9 (Core.attrs c) ∈ [0x10; 0x1F; 0x13] ∧
    cpsr7 (Core.attrs c) ∈ [0x10; 0x1F; 0x13].
Proof.
  destruct (first_frame_lcg
              (AsNoGbaCore (NoGbaCore.self_of
                              (NoGbaCore.__init__ env_no_library))))
    as (c & g' & Hrun & Hreach & Hlib & _ & Hc9 & Hc7);
    [apply Core.reach_NoGbaCore; reflexivity|reflexivity|].
  exists c, g'. split; [exact Hrun|]. split; [exact Hc9|]. split; [exact Hc7|].
  exact (stub_status_is_a_mode (G := Z) (H1 := lcg_contract) c Hreach Hlib).
Defined.

(** ** Sequences of calls *)

Section Sequences.
Context {L : Type} `{NativeLib L} {G : Type} `{RandomSource G}.

(** A core stays bound, or unbound, through [run_frame]. *)
Lemma run_frame_bound (c c' : core L) (g g' : G) :
  Core.run_frame c g = Ok (c', g') →
  (is_Some (bound_library c') ↔ is_Some (bound_library c)).
Proof.
  intros Hrun. destruct c as [e|[b [lib|]]]; unfold Core.run_frame in Hrun.
  - destruct (EmulatorCore.run_frame e g) as [[e' g1]|err];
      [|discriminate Hrun].
    cbn [mbind result_bind] in Hrun. apply Ok_pair_inj in Hrun as [<- _].
    reflexivity.
  - rewrite run_frame_native_eq in Hrun. cbn [mbind result_bind] in Hrun.
    apply Ok_pair_inj in Hrun as [<- _]. cbn [bound_library _lib].
    split; intros _; by eexists.
  - unfold NoGbaCore.run_frame in Hrun. cbn [_lib base] in Hrun.
    destruct (EmulatorCore.run_frame b g) as [[e' g1]|err];
      [|discriminate Hrun].
    cbn [mbind result_bind] in Hrun. apply Ok_pair_inj in Hrun as [<- _].
    reflexivity.
Qed.

Lemma reset_bound (c : core L) :
  is_Some (bound_library (Core.reset c)) ↔ is_Some (bound_library c).
Proof.
  destruct c as [e|[b [lib|]]]; [done| |done].
  cbn. split; intros _; by eexists.
Qed.

(** One call on a core with screens of the fixed size: when it returns it
    has moved the frame counter as [frames_after] says and the core is
    bound as before; it raises only in [load_rom], on a bound core, when
    [path.encode] raises. *)
Lemma do_call_spec (k : call) (c : core L) (g : G) :
  screens_ok (Core.attrs c) →
  match Core.do_call k c g with
  | Ok (r, c', g') =>
      _frame (Core.attrs c') = frames_after [k] (_frame (Core.attrs c)) ∧
      (is_Some (bound_library c') ↔ is_Some (bound_library c))
  | Raise e =>
      ∃ path, k = LoadRom path ∧ is_Some (bound_library c) ∧
              encode_utf8 path = Raise e
  end.
Proof.
  intros Hok. destruct k as [path| | | |]; unfold Core.do_call.
  - pose proof (load_rom_cases c path) as Hcases.
    destruct (Core.load_rom c path) as [[r c1]|e]; cbn [mbind result_bind].
    + destruct Hcases as (-> & Hb & _). split; [by destruct r|exact Hb].
    + by exists path.
  - split; [by rewrite reset_attrs|apply reset_bound].
  - destruct (run_frame_spec c g Hok) as (c1 & g1 & Hrun & Hf & _).
    rewrite Hrun. cbn [mbind result_bind]. split; [exact Hf|].
    by eapply run_frame_bound.
  - done.
  - done.
Qed.

(** A call whose path, if it has one, has UTF-8 bytes returns; so does
    every call on a core without library. *)
Lemma do_call_returns (k : call) (c : core L) (g : G) :
  screens_ok (Core.attrs c) →
  bound_library c = None ∨ paths_encodable [k] →
  ∃ r c' g', Core.do_call k c g = Ok (r, c', g').
Proof.
  intros Hok Hk. pose proof (do_call_spec k c g Hok) as Hspec.
  destruct (Core.do_call k c g) as [[[r c'] g']|e]; [by eexists _, _, _|].
  destruct Hspec as (path & -> & [lib Hlib] & Henc).
  destruct Hk as [Hnone|Hpaths]; [congruence|].
  apply Forall_cons_1 in Hpaths as [[bytes Hbytes] _]. congruence.
Qed.

Lemma frames_after_cons k ks frame :
  frames_after (k :: ks) frame = frames_after ks (frames_after [k] frame).
Proof. done. Qed.

Lemma do_calls_spec (ks : list call) (c : core L) (g : G) :
  Core.reachable (G := G) c →
  bound_library c = None ∨ paths_encodable ks →
  ∃ rs c' g',
    Core.do_calls ks c g = Ok (rs, c', g') ∧
    length rs = length ks ∧
    _frame (Core.attrs c') = frames_after ks (_frame (Core.attrs c)) ∧
    Core.reachable (G := G) c'.
Proof.
  revert c g. induction ks as [|k ks IH]; intros c g Hreach Hks.
  - by exists [], c, g.
  - destruct (reachable_inv c Hreach) as [Hok _].
    destruct (do_call_returns k c g Hok) as (r & c1 & g1 & Hcall).
    { destruct Hks as [Hnone|Hpaths]; [by left|right].
      apply Forall_cons_1 in Hpaths as [Hk _]. by apply Forall_singleton. }
    pose proof (do_call_spec k c g Hok) as Hspec. rewrite Hcall in Hspec.
    destruct Hspec as [Hf Hb].
    pose proof (do_call_reachable k c c1 g g1 r Hreach Hcall) as Hreach1.
    destruct (IH c1 g1 Hreach1) as (rs & c2 & g2 & Hcalls & Hlen & Hf2 & Hr2).
    { destruct Hks as [Hnone|Hpaths].
      - left. destruct (bound_library c1) as [lib|]; [|done].
        destruct (proj1 Hb ltac:(by eexists)) as [lib' Hlib']. congruence.
      - right. by apply Forall_cons_1 in Hpaths as [_ Hrest]. }
    exists (r :: rs), c2, g2. split.
    + cbn [Core.do_calls]. rewrite Hcall. cbn [mbind result_bind].
      by rewrite Hcalls.
    + split; [cbn [length]; by rewrite Hlen|]. split; [|done].
      by rewrite frames_after_cons, <- Hf.
Qed.

End Sequences.

(** X5: On every core a program can hold, a sequence of API calls returns
    normally, one value per call, and leaves the frame counter equal to
    the number of [run_frame] calls since the last [reset] in the sequence
    (added to the counter before, when the sequence has no [reset]),
    provided that no library is bound or that every path given to
    [load_rom] has UTF-8 bytes.  The one exception that a call can raise
    is that of [path.encode] in [load_rom] on a core with a bound
    library. *)
Theorem calls_return_and_count_frames {L : Type} `{NativeLib L} {G : Type}
    `{RandomSource G} (c : core L) (ks : list call) (g : G) :
  Core.reachable (G := G) c →
  (bound_library c = None ∨ paths_encodable ks →
   ∃ rs c' g',
     Core.do_calls ks c g = Ok (rs, c', g') ∧
     length rs = length ks ∧
     _frame (Core.attrs c') = frames_after ks (_frame (Core.attrs c)) ∧
     Core.reachable (G := G) c') ∧
  (∀ k e, Core.do_call k c g = Raise e →
     ∃ path, k = LoadRom path ∧ is_Some (bound_library c) ∧
             encode_utf8 path = Raise e).
Proof.
  intros Hreach. split; [by apply do_calls_spec|].
  intros k e Hraise. destruct (reachable_inv c Hreach) as [Hok _].
  pose proof (do_call_spec k c g Hok) as Hspec. by rewrite Hraise in Hspec.
Qed.

(** X5 on a core bound to the toy library, with a path in ASCII. *)
Lemma calls_return_and_count_frames_witness :
  let c := AsNoGbaCore (NoGbaCore.self_of
                          (NoGbaCore.__init__ (env_with_library 0))) in
  let ks := [RunFrame; LoadRom "game.nds"; RunFrame; Reset; RunFrame;
             GetRegisters; RunFrame] in
  is_Some (bound_library c) ∧
  (∃ rs c' g',
     Core.do_calls ks c 7 = Ok (rs, c', g') ∧
     length rs = 7%nat ∧
     _frame (Core.attrs c') = 2 ∧
     Core.reachable (G := Z) c') ∧
  (∀ k e, Core.do_call k c 7 = Raise e →
     ∃ path, k = LoadRom path ∧ is_Some (bound_library c) ∧
             encode_utf8 path = Raise e).
Proof.
  intros c ks. split; [by eexists|].
  assert (Core.reachable (G := Z) c) as Hreach
    by (apply Core.reach_NoGbaCore; reflexivity).
  destruct (calls_return_and_count_frames (G := Z) c ks 7 Hreach)
    as [Hreturn Hraise].
  split; [|exact Hraise]. apply Hreturn. right.
  repeat constructor. by eexists.
Defined.

Example do_call_surrogate :
  Core.do_call
    (LoadRom ("/roms/caf" +:+ String "237" (String "179" (String "169" ""))
              +:+ ".nds"))
    (AsNoGbaCore (mkNoGbaCore EmulatorCore.__init__ (Some 0))) 7
  = Raise (UnicodeEncodeError
      "'utf-8' codec can't encode character '\udce9' in position 9: surrogates not allowed").
Proof. reflexivity. Qed.



(** ** More on the pixel converter *)

(** X7: Different 16-bit pixels are converted to different colours: the
    expansion to 24 bits loses nothing of the packed pixel. *)
Theorem rgb565_to_rgb888_injective (p q : Z) :
  0 ≤ p < 2 ^ 16 → 0 ≤ q < 2 ^ 16 →
  rgb565_to_rgb888 p = rgb565_to_rgb888 q → p = q.
Proof.
  intros Hp Hq. unfold rgb565_to_rgb888.
  change 0x1F with (Z.ones 5). change 0x3F with (Z.ones 6).
  rewrite !Z.land_ones, !Z.shiftl_mul_pow2, !Z.shiftr_div_pow2 by lia.
  change (2 ^ 16) with 65536 in *. change (2 ^ 11) with 2048.
  change (2 ^ 5) with 32. change (2 ^ 6) with 64. change (2 ^ 3) with 8.
  change (2 ^ 2) with 4.
  intros [= Hr Hg Hb]. Z.div_mod_to_equations. lia.
Qed.

Lemma rgb565_to_rgb888_injective_witness :
  rgb565_to_rgb888 0xF800 = rgb565_to_rgb888 (0x1F * 2048) ∧
  0xF800 = 0x1F * 2048.
Proof.
  split; [reflexivity|].
  apply (rgb565_to_rgb888_injective 0xF800 (0x1F * 2048)); [lia|lia|].
  reflexivity.
Defined.

(** The converter reads only the low 16 bits of its argument. *)
Lemma rgb565_low_bits (p : Z) :
  rgb565_to_rgb888 (c_uint16 p) = rgb565_to_rgb888 p.
Proof.
  unfold rgb565_to_rgb888, c_uint16.
  assert (∀ v n s k, 0 ≤ n → 0 ≤ s → s + n ≤ k →
            Z.land (Z.shiftr (v mod 2 ^ k) s) (Z.ones n)
            = Z.land (Z.shiftr v s) (Z.ones n)) as Hfield.
  { intros v n s k Hn Hs Hk. apply Z.bits_inj'. intros i Hi.
    rewrite !Z.land_spec, !Z.shiftr_spec by done.
    destruct (decide (i < n)) as [Hlt|Hge].
    - by rewrite Z.mod_pow2_bits_low by lia.
    - by rewrite Z.ones_spec_high, !andb_false_r by lia. }
  change 0x1F with (Z.ones 5). change 0x3F with (Z.ones 6).
  rewrite (Hfield p 5 11 16), (Hfield p 6 5 16) by lia.
  f_equal. f_equal.
  pose proof (Hfield p 5 0 16 ltac:(lia) ltac:(lia) ltac:(lia)) as H0.
  by rewrite !Z.shiftr_0_r in H0; rewrite H0.
Qed.

(** ** What [load_rom] and [run_frame] leave untouched *)

Lemma get_registers_attrs {L : Type} `{NativeLib L} (c : core L) :
  Core.get_registers c = EmulatorCore.get_registers (Core.attrs c).
Proof. by destruct c. Qed.

Lemma get_framebuffers_attrs {L : Type} `{NativeLib L} (c : core L) :
  Core.get_framebuffers c = EmulatorCore.get_framebuffers (Core.attrs c).
Proof. by destruct c. Qed.

(** When [load_rom] returns it has not touched the frame counter, the
    running flag, the registers or the images; when it returns [False] no
    attribute at all has changed, and when it returns [True] the path is
    the one given.  It raises only on a bound core, when [path.encode]
    raises. *)
Lemma load_rom_frame {L : Type} `{NativeLib L} (c : core L)
    (path : string) :
  match Core.load_rom c path with
  | Ok (r, c') =>
      _frame (Core.attrs c') = _frame (Core.attrs c) ∧
      running (Core.attrs c') = running (Core.attrs c) ∧
      Core.get_registers c' = Core.get_registers c ∧
      Core.get_framebuffers c' = Core.get_framebuffers c ∧
      (r = false → Core.attrs c' = Core.attrs c) ∧
      (r = true → rom_path (Core.attrs c') = Some path) ∧
      (is_Some (bound_library c') ↔ is_Some (bound_library c))
  | Raise e => is_Some (bound_library c) ∧ encode_utf8 path = Raise e
  end.
Proof.
  pose proof (load_rom_cases c path) as Hcases.
  destruct (Core.load_rom c path) as [[r c']|e]; [|exact Hcases].
  destruct Hcases as (Hattrs & Hbound & _).
  rewrite !get_registers_attrs, !get_framebuffers_attrs, Hattrs.
  do 6 (split; [by destruct r|]). exact Hbound.
Qed.

(** X8: When [load_rom] returns it has not touched the frame counter, the
    running flag, the registers or the images; when it returns [False] no
    attribute at all has changed, and when it returns [True] the path is
    the one given.  It raises only on a core with a bound library, when
    [path.encode] raises, and then before anything is assigned. *)
Theorem load_rom_touches_only_rom_path {L : Type} `{NativeLib L} (c : core L)
    (path : string) :
  match Core.load_rom c path with
  | Ok (r, c') =>
      _frame (Core.attrs c') = _frame (Core.attrs c) ∧
      running (Core.attrs c') = running (Core.attrs c) ∧
      Core.get_registers c' = Core.get_registers c ∧
      Core.get_framebuffers c' = Core.get_framebuffers c ∧
      (r = false → Core.attrs c' = Core.attrs c) ∧
      (r = true → rom_path (Core.attrs c') = Some path) ∧
      (is_Some (bound_library c') ↔ is_Some (bound_library c))
  | Raise e => is_Some (bound_library c) ∧ encode_utf8 path = Raise e
  end.
Proof. exact (load_rom_frame c path). Qed.

(** X9: On a core a program can hold, any number of [run_frame] calls returns
    normally and leaves [rom_path] and the running flag as they were; a
    bound library stays bound and an unbound core stays unbound. *)
Theorem run_frames_keep_rom_path {L : Type} `{NativeLib L} {G : Type}
    `{RandomSource G} (c : core L) (n : nat) (g : G) :
  Core.reachable (G := G) c →
  ∃ c' g', Core.run_frames n c g = Ok (c', g') ∧
    rom_path (Core.attrs c') = rom_path (Core.attrs c) ∧
    running (Core.attrs c') = running (Core.attrs c) ∧
    (is_Some (bound_library c') ↔ is_Some (bound_library c)).
Proof.
  intros Hreach. destruct (reachable_inv c Hreach) as [Hok _]. clear Hreach.
  revert c g Hok. induction n as [|n IH]; intros c g Hok.
  - by exists c, g.
  - destruct (run_frame_spec c g Hok)
      as (c1 & g1 & Hrun & _ & Hp & Hr & Hok1 & _).
    destruct (IH c1 g1 Hok1) as (c2 & g2 & Hruns & Hp2 & Hr2 & Hb2).
    exists c2, g2. split.
    { cbn [Core.run_frames]. by rewrite Hrun. }
    split; [congruence|]. split; [congruence|]. rewrite Hb2.
    destruct c as [e|[b [lib|]]]; unfold Core.run_frame in Hrun.
    + destruct (EmulatorCore.run_frame e g) as [[e' g']|err]; [|done].
      cbn [mbind result_bind] in Hrun.
      apply Ok_pair_inj in Hrun as [<- _]. done.
    + rewrite run_frame_native_eq in Hrun. cbn [mbind result_bind] in Hrun.
      apply Ok_pair_inj in Hrun as [<- _]. cbn [bound_library _lib].
      split; intros _; by eexists.
    + unfold NoGbaCore.run_frame in Hrun. cbn [_lib base] in Hrun.
      destruct (EmulatorCore.run_frame b g) as [[e' g']|err]; [|done].
      cbn [mbind result_bind] in Hrun.
      apply Ok_pair_inj in Hrun as [<- _]. done.
Qed.

Lemma run_frames_keep_rom_path_witness :
  let c := AsEmulatorCore (L := Z)
             (EmulatorCore.set_rom_path (Some "game.nds")
                EmulatorCore.__init__) in
  Core.load_rom (AsEmulatorCore EmulatorCore.__init__) "game.nds"
  = Ok (true, c) ∧
  ∃ c' g', Core.run_frames 4 c 11 = Ok (c', g') ∧
    rom_path (Core.attrs c') = Some "game.nds" ∧
    running (Core.attrs c') = false ∧
    (is_Some (bound_library c') ↔ is_Some (bound_library c)).
Proof.
  intros c. split; [reflexivity|].
  apply (run_frames_keep_rom_path (G := Z) c 4 11).
  apply (Core.reach_load_rom (G := Z) (AsEmulatorCore EmulatorCore.__init__)
           "game.nds" true); [|reflexivity].
  apply Core.reach_EmulatorCore.
Defined.

(** ** The register buffer of [_pull_registers] *)

(** X10: [_pull_registers] hands the same array to both calls without
    clearing it: when [nogba_get_arm7_regs] writes nothing, the ARM7
    registers and status word it stores are those of the ARM9. *)
Theorem pull_registers_reuses_buffer {L : Type} `{NativeLib L} (lib : L)
    (self : EmulatorCore) :
  (∀ arr l, (nogba_get_arm7_regs arr l).1 = arr) →
  arm7 (NoGbaCore._pull_registers lib self).1
  = arm9 (NoGbaCore._pull_registers lib self).1 ∧
  cpsr7 (NoGbaCore._pull_registers lib self).1
  = cpsr9 (NoGbaCore._pull_registers lib self).1.
Proof.
  intros Hlazy. unfold NoGbaCore._pull_registers.
  destruct (nogba_get_arm9_regs carray_new lib) as [a9 l1].
  specialize (Hlazy a9 l1).
  destruct (nogba_get_arm7_regs a9 l1) as [a7 l2]. cbn [fst] in *. by subst a7.
Qed.

Lemma pull_registers_reuses_buffer_witness :
  arm7 (NoGbaCore._pull_registers (H := lazy_arm7_lib) 5
          EmulatorCore.__init__).1
  = arm9 (NoGbaCore._pull_registers (H := lazy_arm7_lib) 5
            EmulatorCore.__init__).1 ∧
  cpsr7 (NoGbaCore._pull_registers (H := lazy_arm7_lib) 5
           EmulatorCore.__init__).1
  = cpsr9 (NoGbaCore._pull_registers (H := lazy_arm7_lib) 5
             EmulatorCore.__init__).1.
Proof.
  apply (pull_registers_reuses_buffer (H := lazy_arm7_lib) 5).
  intros arr l. reflexivity.
Defined.

Example pull_registers_lazy_arm7 :
  arm7 (NoGbaCore._pull_registers (H := lazy_arm7_lib) 5
          EmulatorCore.__init__).1
  = [5; 6; 7; 8; 9; 10; 11; 12; 13; 14; 15; 16; 17; 18; 19; 20].
Proof. reflexivity. Qed.

(** ** The main block *)

Section MainBlock.
Context {L : Type} `{NativeLib L} {G : Type} `{RandomSource G}.

Lemma init_outcome (env : Env L) :
  match (NoGbaCore._load_library env).2 with
  | Ok (Some lib) =>
      match NoGbaCore._init_functions env lib with
      | Ok _ =>
          if decide ((nogba_init lib).1 ≠ 0)
          then NoGbaCore.outcome (NoGbaCore.__init__ env)
               = Raise (RuntimeError "no$gba: initialization failed")
          else NoGbaCore.outcome (NoGbaCore.__init__ env) = Ok () ∧
               NoGbaCore.self_of (NoGbaCore.__init__ env)
               = mkNoGbaCore EmulatorCore.__init__ (Some (nogba_init lib).2)
      | Raise e => NoGbaCore.outcome (NoGbaCore.__init__ env) = Raise e
      end
  | Ok None =>
      NoGbaCore.outcome (NoGbaCore.__init__ env) = Ok () ∧
      NoGbaCore.self_of (NoGbaCore.__init__ env)
      = mkNoGbaCore EmulatorCore.__init__ None
  | Raise e => NoGbaCore.outcome (NoGbaCore.__init__ env) = Raise e
  end.
Proof.
  unfold NoGbaCore.__init__.
  destruct (NoGbaCore._load_library env) as [out [[lib|]|e]];
    cbn [snd]; [|done..].
  destruct (NoGbaCore._init_functions env lib) as [[]|e]; [|done].
  destruct (nogba_init lib) as [rc lib']. cbn [fst snd].
  by destruct (decide (rc ≠ 0)).
Qed.

(** What [_load_library] returns, from what the loop and [print] do. *)
Lemma load_library_cases (env : Env L) :
  (NoGbaCore._load_library env).2
  = match NoGbaCore.try_candidates env (NoGbaCore.candidates env) with
    | Ok None => _ ← sys_stdout_write env NoGbaCore.warning; Ok None
    | r => r
    end.
Proof.
  unfold NoGbaCore._load_library, print.
  destruct (NoGbaCore.try_candidates _ _) as [[lib|]|e]; [done| |done].
  by destruct (sys_stdout_write env NoGbaCore.warning) as [[]|e].
Qed.

(** What the [except] branch leaves does not depend on what was printed
    before: the null core, or the exception of the first of its two
    [print] that raises. *)
Lemma except_branch_cases (env : Env L) (e : exn) (out : list string) :
  (except_branch env e out).2 = fallback env e ∧
  fallback env e
  = (_ ← sys_stdout_write env (except_lines e).1;
     _ ← sys_stdout_write env (except_lines e).2;
     Ok (AsEmulatorCore EmulatorCore.__init__)).
Proof.
  unfold fallback, except_branch, print.
  destruct (sys_stdout_write env (except_lines e).1) as [[]|e1]; [|done].
  by destruct (sys_stdout_write env (except_lines e).2) as [[]|e2].
Qed.

(** The body of the [try] statement returns the [NoGbaCore] that the
    constructor returned, or raises. *)
Lemma main_try_cases (env : Env L) :
  (main_try env).2
  = (_ ← NoGbaCore.outcome (NoGbaCore.__init__ env);
     match _lib (NoGbaCore.self_of (NoGbaCore.__init__ env)) with
     | Some _ =>
         _ ← sys_stdout_write env "[INFO] no$gba core successfully loaded.";
         Ok (AsNoGbaCore (NoGbaCore.self_of (NoGbaCore.__init__ env)))
     | None => Ok (AsNoGbaCore (NoGbaCore.self_of (NoGbaCore.__init__ env)))
     end).
Proof.
  unfold main_try, print.
  destruct (NoGbaCore.outcome (NoGbaCore.__init__ env)) as [[]|e]; [|done].
  cbn [mbind result_bind].
  destruct (_lib (NoGbaCore.self_of (NoGbaCore.__init__ env))); [|done].
  by destruct (sys_stdout_write env _) as [[]|e].
Qed.

Lemma main_core_try (env : Env L) :
  (main_core env).2
  = match (main_try env).2 with
    | Ok c => Ok c
    | Raise e => fallback env e
    end.
Proof.
  unfold main_core. destruct (main_try env) as [out [c|e]]; [done|].
  cbn [snd]. apply except_branch_cases.
Qed.

(** The only core that the [except] branch leaves is a fresh
    [EmulatorCore]. *)
Lemma fallback_core (env : Env L) (e : exn) (c : core L) :
  fallback env e = Ok c → c = AsEmulatorCore EmulatorCore.__init__.
Proof.
  destruct (except_branch_cases env e []) as [_ ->].
  destruct (sys_stdout_write env (except_lines e).1) as [[]|e1];
    cbn [mbind result_bind]; [|done].
  destruct (sys_stdout_write env (except_lines e).2) as [[]|e2];
    cbn [mbind result_bind]; [|done].
  by intros [= <-].
Qed.

(** The core that the main block chooses is one a program can hold,
    with the attributes that [EmulatorCore.__init__] sets. *)
Lemma main_core_fresh (env : Env L) (c : core L) :
  (main_core env).2 = Ok c →
  Core.reachable (G := G) c ∧ Core.attrs c = EmulatorCore.__init__.
Proof.
  rewrite main_core_try, main_try_cases.
  assert (∀ e, fallback env e = Ok c →
            Core.reachable (G := G) c ∧ Core.attrs c = EmulatorCore.__init__)
    as Hfall.
  { intros e ->%fallback_core. split; [apply Core.reach_EmulatorCore|done]. }
  destruct (NoGbaCore.outcome (NoGbaCore.__init__ env)) as [[]|e] eqn:Hout;
    cbn [mbind result_bind]; [|apply Hfall].
  assert (Core.reachable (G := G)
            (AsNoGbaCore (NoGbaCore.self_of (NoGbaCore.__init__ env))) ∧
          Core.attrs
            (AsNoGbaCore (NoGbaCore.self_of (NoGbaCore.__init__ env)))
          = EmulatorCore.__init__) as Hmade.
  { split; [by apply Core.reach_NoGbaCore|apply init_base]. }
  destruct (_lib (NoGbaCore.self_of (NoGbaCore.__init__ env))).
  - destruct (sys_stdout_write env _) as [[]|e]; cbn [mbind result_bind];
      [|apply Hfall].
    intros [= <-]. exact Hmade.
  - intros [= <-]. exact Hmade.
Qed.

(** The main block, from what the loader, the lookups, [nogba_init] and
    the standard output do. *)
Lemma main_core_cases (env : Env L) :
  (main_core env).2
  = match NoGbaCore.try_candidates env (NoGbaCore.candidates env) with
    | Ok (Some lib) =>
        match NoGbaCore._init_functions env lib with
        | Ok _ =>
            if decide ((nogba_init lib).1 ≠ 0)
            then fallback env (RuntimeError "no$gba: initialization failed")
            else
              match sys_stdout_write env
                      "[INFO] no$gba core successfully loaded." with
              | Ok _ =>
                  Ok (AsNoGbaCore (mkNoGbaCore EmulatorCore.__init__
                                     (Some (nogba_init lib).2)))
              | Raise e => fallback env e
              end
        | Raise e => fallback env e
        end
    | Ok None =>
        match sys_stdout_write env NoGbaCore.warning with
        | Ok _ => Ok (AsNoGbaCore (mkNoGbaCore EmulatorCore.__init__ None))
        | Raise e => fallback env e
        end
    | Raise e => fallback env e
    end.
Proof.
  rewrite main_core_try, main_try_cases.
  pose proof (init_outcome env) as Hinit.
  rewrite load_library_cases in Hinit.
  destruct (NoGbaCore.try_candidates _ _) as [[lib|]|e].
  - destruct (NoGbaCore._init_functions env lib) as [[]|e].
    + destruct (decide _).
      * by rewrite Hinit.
      * destruct Hinit as [-> ->]. cbn [mbind result_bind _lib].
        by destruct (sys_stdout_write env _) as [[]|e].
    + by rewrite Hinit.
  - destruct (sys_stdout_write env NoGbaCore.warning) as [[]|e];
      cbn [mbind result_bind] in Hinit.
    + by destruct Hinit as [-> ->].
    + by rewrite Hinit.
  - by rewrite Hinit.
Qed.

End MainBlock.

(** X11: The core that the main block chooses, from what its surroundings
    do.  It is the [NoGbaCore] bound to the library when a candidate
    loaded, [_init_functions] found the eight entry points, [nogba_init]
    returned 0 and the line "[INFO] no$gba core successfully loaded." was
    printed; it is the [NoGbaCore] in stub mode when no candidate loaded
    and the warning was printed.  In every other case (the loader raised
    something else than [OSError], an entry point is missing,
    [nogba_init] failed, or one of these two [print] raised) the [except]
    branch is entered: it leaves a fresh [EmulatorCore], unless one of
    its own two [print] raises, and then that exception leaves the main
    block.  A core that is chosen is one a program can hold. *)
Theorem main_core_chosen {L : Type} `{NativeLib L} {G : Type}
    `{RandomSource G} (env : Env L) :
  (main_core env).2
  = match NoGbaCore.try_candidates env (NoGbaCore.candidates env) with
    | Ok (Some lib) =>
        match NoGbaCore._init_functions env lib with
        | Ok _ =>
            if decide ((nogba_init lib).1 ≠ 0)
            then fallback env (RuntimeError "no$gba: initialization failed")
            else
              match sys_stdout_write env
                      "[INFO] no$gba core successfully loaded." with
              | Ok _ =>
                  Ok (AsNoGbaCore (mkNoGbaCore EmulatorCore.__init__
                                     (Some (nogba_init lib).2)))
              | Raise e => fallback env e
              end
        | Raise e => fallback env e
        end
    | Ok None =>
        match sys_stdout_write env NoGbaCore.warning with
        | Ok _ => Ok (AsNoGbaCore (mkNoGbaCore EmulatorCore.__init__ None))
        | Raise e => fallback env e
        end
    | Raise e => fallback env e
    end ∧
  (∀ e, fallback env e
        = (_ ← sys_stdout_write env (except_lines e).1;
           _ ← sys_stdout_write env (except_lines e).2;
           Ok (AsEmulatorCore EmulatorCore.__init__))) ∧
  (∀ c, (main_core env).2 = Ok c → Core.reachable (G := G) c).
Proof.
  split; [apply main_core_cases|]. split.
  - intros e. apply (except_branch_cases env e []).
  - intros c Hc. by apply (main_core_fresh (G := G) env c).
Qed.

Example main_core_init_fails :
  main_core (env_with_library (-1))
  = (["[ERROR] Failed to initialize no$gba core: no$gba: initialization failed";
      "[INFO] Falling back to dummy core."]%string,
     Ok (AsEmulatorCore EmulatorCore.__init__)).
Proof. reflexivity. Qed.

Example main_core_bound :
  main_core (env_with_library 0)
  = (["[INFO] no$gba core successfully loaded."]%string,
     Ok (AsNoGbaCore (mkNoGbaCore EmulatorCore.__init__ (Some 0)))).
Proof. reflexivity. Qed.

Example main_core_missing :
  main_core env_no_library
  = ([NoGbaCore.warning],
     Ok (AsNoGbaCore (mkNoGbaCore EmulatorCore.__init__ None))).
Proof. reflexivity. Qed.

(** No library and a standard output in ASCII: the warning raises in
    [_load_library], the [except] branch reports it in ASCII and the null
    core is chosen, not the [NoGbaCore] in stub mode. *)
Example main_core_ascii_stdout :
  main_core env_ascii_stdout
  = (["[ERROR] Failed to initialize no$gba core: 'ascii' codec can't encode character '\u2014' in position 39: ordinal not in range(128)";
      "[INFO] Falling back to dummy core."]%string,
     Ok (AsEmulatorCore EmulatorCore.__init__)).
Proof. reflexivity. Qed.

(** A library that lacks an entry point: the null core is chosen. *)
Example main_core_incomplete_library :
  main_core env_incomplete_library
  = (["[ERROR] Failed to initialize no$gba core: /opt/emuds/libnogba.so: undefined symbol: nogba_get_arm7_regs";
      "[INFO] Falling back to dummy core."]%string,
     Ok (AsEmulatorCore EmulatorCore.__init__)).
Proof. reflexivity. Qed.

(** The library is installed under a directory whose name is not in
    ASCII and lacks an entry point, and the standard output is in ASCII:
    the report of the [except] branch holds the path and its [print]
    raises; no core is chosen. *)
Example main_core_raises :
  main_core env_cafe
  = ([],
     Raise (UnicodeEncodeError
       "'ascii' codec can't encode character '\xe9' in position 50: ordinal not in range(128)")).
Proof. reflexivity. Qed.

(** ** [convert] on buffers of another length *)

(** A loop over [enumerate(src)] raises when its body raises at element
    [n], the invariant having been kept up to there. *)
Lemma for_each_zip_raise {A St} (P : nat → St → Prop)
    (body : nat * A → St → result St) (src : list A) (n a : nat) (s : St)
    (x : A) (e : exn) :
  P a s →
  (∀ i y s, (a ≤ i < a + n)%nat → src !! (i - a)%nat = Some y → P i s →
            ∃ s', body (i, y) s = Ok s' ∧ P (S i) s') →
  src !! n = Some x →
  (∀ s, P (a + n)%nat s → body ((a + n)%nat, x) s = Raise e) →
  for_each (zip (seq a (length src)) src) body s = Raise e.
Proof.
  revert src a s. induction n as [|n IH]; intros src a s Ha Hstep Hx Hfail.
  - destruct src as [|y src]; [done|]. cbn in Hx. simplify_eq.
    cbn [length seq zip zip_with for_each].
    rewrite Nat.add_0_r in Hfail. by rewrite Hfail.
  - destruct src as [|y src]; [done|]. cbn in Hx.
    destruct (Hstep a y s) as (s1 & Hb & H1); [lia| |done|].
    { by rewrite Nat.sub_diag. }
    cbn [length seq zip zip_with for_each]. rewrite (bind_Ok _ _ _ Hb).
    apply (IH src (S a) s1); [done| |done|].
    + intros i z t Hi Hz. apply Hstep; [lia|].
      by replace (i - a)%nat with (S (i - S a)) by lia.
    + intros t Ht. replace (S a + n)%nat with (a + S n)%nat in * by lia.
      by apply Hfail.
Qed.

Lemma convert_step (f : nat → pixel) (i : nat) (c : pixel) (img : Image) :
  (i < FB_W * FB_H)%nat → c = f i → filled FB_W FB_H f i img →
  ∃ img', putpixel img ((i mod FB_W)%nat, (i / FB_W)%nat) c = Ok img' ∧
          filled FB_W FB_H f (S i) img'.
Proof.
  intros Hlt Hc Hinv.
  assert (0 < FB_W)%nat as Hw by (unfold FB_W; lia).
  pose proof (Nat.div_mod_eq i FB_W) as Hdm.
  pose proof (Nat.mod_upper_bound i FB_W ltac:(lia)) as Hm.
  assert (i / FB_W < FB_H)%nat as Hd.
  { apply Nat.Div0.div_lt_upper_bound. lia. }
  assert (i = (i / FB_W * FB_W + i mod FB_W)%nat) as Hi by lia.
  rewrite Hi in Hinv.
  destruct (putpixel_filled FB_W FB_H f (i mod FB_W) (i / FB_W) c img)
    as (img' & Hp & Hinv'); [done|done|by rewrite <- Hi|done|].
  exists img'. split; [done|]. by rewrite <- Hi in Hinv'.
Qed.

(** X12: A buffer longer than the image makes [convert] raise [IndexError]:
    element number [FB_W * FB_H] would go to row [FB_H]. *)
Theorem convert_too_long (src : list Z) :
  (FB_W * FB_H < length src)%nat → convert src = Raise IndexError.
Proof.
  intros Hlen. unfold convert, enumerate.
  destruct (lookup_lt_is_Some_2 src (FB_W * FB_H)%nat Hlen) as [x Hx].
  set (f := fun j => rgb565_to_rgb888 (nth j src 0)).
  apply (for_each_zip_raise (filled FB_W FB_H f) _ src (FB_W * FB_H) 0 _ x).
  - destruct Image_new_screen_ok as (? & ? & ?). by apply filled_start.
  - intros i y img Hi Hy Hinv. rewrite Nat.sub_0_r in Hy.
    apply convert_step; [lia| |done].
    unfold f. f_equal. symmetry. by apply nth_lookup_Some.
  - done.
  - intros img (Hw & Hh & _). rewrite Nat.add_0_l.
    unfold putpixel. rewrite Hw, Hh.
    assert (0 < FB_W)%nat as Hpos by (unfold FB_W; lia).
    rewrite (Nat.mul_comm FB_W FB_H), Nat.div_mul by lia.
    destruct (decide _) as [[_ Hn]|_]; [lia|done].
Qed.

Lemma convert_too_long_witness :
  convert (replicate (S (FB_W * FB_H)) 0) = Raise IndexError.
Proof.
  apply (convert_too_long (replicate (S (FB_W * FB_H)) 0)).
  rewrite length_replicate. lia.
Defined.

Lemma putpixel_index (img : Image) (i : nat) (c : pixel) :
  im_width img = FB_W → im_height img = FB_H → (i < FB_W * FB_H)%nat →
  putpixel img ((i mod FB_W)%nat, (i / FB_W)%nat) c
  = Ok (mkImage FB_W FB_H (<[i := c]> (im_data img))).
Proof.
  intros Hw Hh Hlt.
  assert (0 < FB_W)%nat as Hpos by (unfold FB_W; lia).
  pose proof (Nat.div_mod_eq i FB_W) as Hdm.
  pose proof (Nat.mod_upper_bound i FB_W ltac:(lia)) as Hm.
  assert (i / FB_W < FB_H)%nat as Hd.
  { apply Nat.Div0.div_lt_upper_bound. lia. }
  unfold putpixel. rewrite Hw, Hh.
  destruct (decide _) as [_|Hn]; [|lia].
  by replace (i / FB_W * FB_W + i mod FB_W)%nat with i by lia.
Qed.

(** X13: A buffer shorter than the image is converted into the first pixels
    (in row-major order); the pixels after them stay black.  In
    particular the empty buffer gives the black image. *)
Theorem convert_short (src : list Z) :
  (length src ≤ FB_W * FB_H)%nat →
  convert src
  = Ok (mkImage FB_W FB_H
          ((rgb565_to_rgb888 <$> src)
           ++ replicate (FB_W * FB_H - length src) black)).
Proof.
  intros Hlen. unfold convert, enumerate.
  set (P := fun (i : nat) (img : Image) =>
    im_width img = FB_W ∧ im_height img = FB_H ∧
    length (im_data img) = (FB_W * FB_H)%nat ∧
    ∀ j, im_data img !! j
         = if decide (j < i)%nat then rgb565_to_rgb888 <$> src !! j
           else replicate (FB_W * FB_H) black !! j).
  destruct (for_each_zip_inv P
    (fun '(i, pix) img =>
       putpixel img ((i mod FB_W)%nat, (i / FB_W)%nat) (rgb565_to_rgb888 pix))
    src 0 (Image_new FB_W FB_H)) as (img & Himg & (Hw & Hh & Hl & Hdata)).
  - split; [done|]. split; [done|]. split.
    + unfold Image_new; cbn [im_data]. by rewrite length_replicate.
    + intros j. by destruct (decide _); [lia|].
  - intros i x img Hi Hx (Hw & Hh & Hl & Hdata). rewrite Nat.sub_0_r in Hx.
    assert (i < FB_W * FB_H)%nat as Hlt.
    { apply lookup_lt_Some in Hx. lia. }
    rewrite putpixel_index by done. eexists. split; [done|].
    split; [done|]. split; [done|]. cbn [im_data]. split.
    + by rewrite length_insert.
    + intros j. destruct (decide (j = i)) as [->|Hne].
      * rewrite list_lookup_insert_eq by lia.
        destruct (decide _); [|lia]. by rewrite Hx.
      * rewrite list_lookup_insert_ne by done. rewrite Hdata.
        destruct (decide (j < i)%nat), (decide (j < S i)%nat); try done; lia.
  - rewrite Himg. f_equal. destruct img as [w h d].
    cbn [im_width im_height im_data] in Hw, Hh, Hl, Hdata.
    subst w h. f_equal. apply list_eq. intros j. rewrite Hdata.
    rewrite Nat.add_0_l.
    destruct (decide (j < length src)%nat) as [Hj|Hj].
    + by rewrite lookup_app_l, list_lookup_fmap by (by rewrite length_fmap).
    + rewrite lookup_app_r by (rewrite length_fmap; lia).
      rewrite length_fmap.
      destruct (decide (j < FB_W * FB_H)%nat) as [Hlt|Hge].
      * by rewrite !lookup_replicate_2 by lia.
      * rewrite !(lookup_ge_None_2 (replicate _ _)); [done|..];
          rewrite length_replicate; lia.
Qed.

Lemma convert_short_witness :
  convert [0xF800; 0x07E0; 0x001F]
  = Ok (mkImage FB_W FB_H
          ((rgb565_to_rgb888 <$> [0xF800; 0x07E0; 0x001F])
           ++ replicate (FB_W * FB_H - 3) black)).
Proof.
  apply (convert_short [0xF800; 0x07E0; 0x001F]).
  unfold FB_W, FB_H. cbn [length]. lia.
Defined.

(** * Properties of the front end *)

(** ** Formatting *)

Example format_08X :
  format_int 16 8 0xDEADBEEF = "DEADBEEF" ∧
  format_int 16 8 0x1F = "0000001F" ∧
  format_int 16 8 0 = "00000000" ∧
  format_int 16 8 (-1) = "-0000001" ∧
  format_int 16 8 (2 ^ 32) = "100000000".
Proof. repeat split; reflexivity. Qed.

Example format_02 :
  format_int 10 2 0 = "00" ∧ format_int 10 2 7 = "07" ∧
  format_int 10 2 15 = "15" ∧ format_int 16 2 255 = "FF" ∧
  format_int 16 2 10 = "0A" ∧ format_int 10 2 123 = "123".
Proof. repeat split; reflexivity. Qed.

Example registers_text_fresh :
  EmuDSNoGBA.registers_text
    (Core.get_registers (L := Z) (AsEmulatorCore EmulatorCore.__init__))
  = Ok ("ARM9 (67 MHz)" +:+ nl
        +:+ "R00=00000000   R01=00000000" +:+ nl
        +:+ "R02=00000000   R03=00000000" +:+ nl
        +:+ "R04=00000000   R05=00000000" +:+ nl
        +:+ "R06=00000000   R07=00000000" +:+ nl
        +:+ "R08=00000000   R09=00000000" +:+ nl
        +:+ "R10=00000000   R11=00000000" +:+ nl
        +:+ "R12=00000000   R13=00000000" +:+ nl
        +:+ "R14=00000000   R15=00000000" +:+ nl
        +:+ "CPSR=0000001F" +:+ nl +:+ nl
        +:+ "ARM7 (33 MHz)" +:+ nl
        +:+ "R00=00000000   R01=00000000" +:+ nl
        +:+ "R02=00000000   R03=00000000" +:+ nl
        +:+ "R04=00000000   R05=00000000" +:+ nl
        +:+ "R06=00000000   R07=00000000" +:+ nl
        +:+ "R08=00000000   R09=00000000" +:+ nl
        +:+ "R10=00000000   R11=00000000" +:+ nl
        +:+ "R12=00000000   R13=00000000" +:+ nl
        +:+ "R14=00000000   R15=00000000" +:+ nl
        +:+ "CPSR=0000001F" +:+ nl).
Proof. vm_compute. reflexivity. Qed.

Example registers_text_short_list :
  EmuDSNoGBA.registers_text ([1; 2; 3], replicate 16 0, 0, 0)
  = Raise IndexError.
Proof. vm_compute. reflexivity. Qed.

(** ** Drawing the registers *)

Lemma list16 (l : list Z) :
  length l = 16%nat →
  ∃ a0 a1 a2 a3 a4 a5 a6 a7 a8 a9 a10 a11 a12 a13 a14 a15,
    l = [a0; a1; a2; a3; a4; a5; a6; a7; a8; a9; a10; a11; a12; a13; a14; a15].
Proof.
  intros Hlen.
  do 16 (destruct l as [|? l]; [discriminate Hlen|]).
  destruct l; [|discriminate Hlen]. by eexists _, _, _, _, _, _, _, _,
    _, _, _, _, _, _, _, _.
Qed.

(** With 16 registers per processor the text is built without an
    [IndexError]. *)
Lemma registers_text_total (r9 r7 : list Z) (c9 c7 : Z) :
  length r9 = 16%nat → length r7 = 16%nat →
  ∃ text, EmuDSNoGBA.registers_text (r9, r7, c9, c7) = Ok text.
Proof.
  intros H9 H7.
  destruct (list16 r9 H9) as (a0 & a1 & a2 & a3 & a4 & a5 & a6 & a7 & a8 & a9
    & a10 & a11 & a12 & a13 & a14 & a15 & ->).
  destruct (list16 r7 H7) as (b0 & b1 & b2 & b3 & b4 & b5 & b6 & b7 & b8 & b9
    & b10 & b11 & b12 & b13 & b14 & b15 & ->).
  eexists. reflexivity.
Qed.

Ltac gui_unfold :=
  unfold EmuDSNoGBA.stop, EmuDSNoGBA.memory_viewer, EmuDSNoGBA.vram_viewer,
    EmuDSNoGBA.sound_log in *;
  unfold EmuDSNoGBA.status, EmuDSNoGBA.set_core, EmuDSNoGBA.set_rom_name,
    EmuDSNoGBA.set_running, EmuDSNoGBA.set_reg_text, EmuDSNoGBA.set_mem_view,
    EmuDSNoGBA.set_mem_editable, EmuDSNoGBA.set_screens,
    EmuDSNoGBA.set_rom_label, EmuDSNoGBA.set_after_pending in *;
  cbn [EmuDSNoGBA.core EmuDSNoGBA.rom_name EmuDSNoGBA.running
       EmuDSNoGBA.reg_text EmuDSNoGBA.mem_view EmuDSNoGBA.mem_editable
       EmuDSNoGBA.screen_top EmuDSNoGBA.screen_bot EmuDSNoGBA.rom_label
       EmuDSNoGBA.statusbar EmuDSNoGBA.after_pending] in *.

Section FrontEndSteps.
Context {L : Type} `{NativeLib L} {G : Type} `{RandomSource G} `{Toolkit}.

Lemma regs_of_reachable (c : core L) :
  Core.reachable (G := G) c →
  ∃ text, EmuDSNoGBA.registers_text (Core.get_registers c) = Ok text.
Proof.
  intros Hc. destruct (reachable_inv c Hc) as [_ [H9 H7]].
  destruct c as [e|n]; apply registers_text_total; done.
Qed.

Lemma reset_eq (self : EmuDSNoGBA.gui L) (g : G) :
  Core.reachable (G := G) (EmuDSNoGBA.core self) →
  ∃ text,
    EmuDSNoGBA.registers_text
      (Core.get_registers (Core.reset (EmuDSNoGBA.core self))) = Ok text ∧
    EmuDSNoGBA.reset self g
    = Ok (EmuDSNoGBA.status "System reset."
            (refreshed (Core.reset (EmuDSNoGBA.core self)) text g
               (EmuDSNoGBA.set_running false self)),
          (randint_list 256 0 255 g).2).
Proof.
  intros Hc.
  destruct (regs_of_reachable (Core.reset (EmuDSNoGBA.core self)))
    as [text Htext]; [by apply Core.reach_reset|].
  exists text. split; [done|].
  unfold EmuDSNoGBA.reset, EmuDSNoGBA._draw_registers. gui_unfold.
  rewrite Htext. cbn [mbind result_bind].
  unfold EmuDSNoGBA._draw_memory_dump, EmuDSNoGBA._draw_screens.
  destruct (randint_list 256 0 255 g) as [bytes g1] eqn:Hbytes. gui_unfold.
  destruct (Core.get_framebuffers (Core.reset (EmuDSNoGBA.core self)))
    as [top bot] eqn:Hfb.
  unfold refreshed. gui_unfold. by rewrite Hbytes, Hfb.
Qed.

Lemma animate_eq (self : EmuDSNoGBA.gui L) (g : G) :
  Core.reachable (G := G) (EmuDSNoGBA.core self) →
  EmuDSNoGBA.running self = true →
  ∃ c g1 text,
    Core.run_frame (EmuDSNoGBA.core self) g = Ok (c, g1) ∧
    EmuDSNoGBA.registers_text (Core.get_registers c) = Ok text ∧
    EmuDSNoGBA._animate self g
    = Ok (EmuDSNoGBA.set_after_pending (S (EmuDSNoGBA.after_pending self))
            (refreshed c text g1 self),
          (randint_list 256 0 255 g1).2).
Proof.
  intros Hc Hrun.
  destruct (reachable_inv _ Hc) as [Hok _].
  destruct (run_frame_spec (EmuDSNoGBA.core self) g Hok)
    as (c & g1 & Hframe & _).
  destruct (regs_of_reachable c) as [text Htext].
  { by eapply Core.reach_run_frame. }
  exists c, g1, text. split; [done|]. split; [done|].
  unfold EmuDSNoGBA._animate. rewrite Hrun. cbn [negb].
  rewrite Hframe. cbn [mbind result_bind].
  unfold EmuDSNoGBA._draw_registers. gui_unfold.
  rewrite Htext. cbn [mbind result_bind].
  unfold EmuDSNoGBA._draw_memory_dump, EmuDSNoGBA._draw_screens.
  destruct (randint_list 256 0 255 g1) as [bytes g2] eqn:Hbytes. gui_unfold.
  destruct (Core.get_framebuffers c) as [top bot] eqn:Hfb.
  unfold refreshed. gui_unfold. by rewrite Hbytes, Hfb.
Qed.

End FrontEndSteps.

(** ** The invariant of the front end *)

Section FrontEndInvariant.
Context {L : Type} `{NativeLib L} {G : Type} `{RandomSource G} `{Toolkit}.

Lemma gui_ok_status (msg : string) (self : EmuDSNoGBA.gui L) :
  gui_ok (G := G) self → gui_ok (G := G) (EmuDSNoGBA.status msg self).
Proof. intros Hok. exact Hok. Qed.

Lemma gui_ok_reset (self : EmuDSNoGBA.gui L) (g : G) :
  Core.reachable (G := G) (EmuDSNoGBA.core self) →
  ∃ self' g', EmuDSNoGBA.reset self g = Ok (self', g') ∧
    gui_ok (G := G) self' ∧
    EmuDSNoGBA.core self' = Core.reset (EmuDSNoGBA.core self) ∧
    EmuDSNoGBA.running self' = false ∧
    EmuDSNoGBA.rom_name self' = EmuDSNoGBA.rom_name self ∧
    EmuDSNoGBA.rom_label self' = EmuDSNoGBA.rom_label self ∧
    EmuDSNoGBA.statusbar self' = "System reset." ∧
    EmuDSNoGBA.after_pending self' = EmuDSNoGBA.after_pending self ∧
    EmuDSNoGBA.mem_editable self' = false.
Proof.
  intros Hc. destruct (reset_eq self g Hc) as (text & Htext & ->).
  eexists _, _. split; [done|]. unfold refreshed, gui_ok. gui_unfold.
  split; [|done].
  split; [by apply Core.reach_reset|]. split.
  { intros _. split; [done|]. rewrite reset_attrs. done. }
  split; [done|]. done.
Qed.

Lemma gui_ok_animate (self : EmuDSNoGBA.gui L) (g : G) :
  Core.reachable (G := G) (EmuDSNoGBA.core self) →
  EmuDSNoGBA.rom_name self ≠ "NO GAME" →
  EmuDSNoGBA.running self = true →
  ∃ self' g', EmuDSNoGBA._animate self g = Ok (self', g') ∧
    gui_ok (G := G) self' ∧
    _frame (Core.attrs (EmuDSNoGBA.core self'))
    = _frame (Core.attrs (EmuDSNoGBA.core self)) + 1 ∧
    EmuDSNoGBA.running self' = true ∧
    EmuDSNoGBA.rom_name self' = EmuDSNoGBA.rom_name self ∧
    EmuDSNoGBA.rom_label self' = EmuDSNoGBA.rom_label self ∧
    EmuDSNoGBA.statusbar self' = EmuDSNoGBA.statusbar self ∧
    EmuDSNoGBA.after_pending self' = S (EmuDSNoGBA.after_pending self) ∧
    (is_Some (bound_library (EmuDSNoGBA.core self'))
     ↔ is_Some (bound_library (EmuDSNoGBA.core self))) ∧
    EmuDSNoGBA.mem_editable self' = false.
Proof.
  intros Hc Hname Hrun.
  destruct (animate_eq self g Hc Hrun) as (c & g1 & text & Hframe & Htext & ->).
  destruct (reachable_inv _ Hc) as [Hok _].
  destruct (run_frame_spec (EmuDSNoGBA.core self) g Hok)
    as (c1 & g2 & Hframe1 & Hf & _).
  rewrite Hframe in Hframe1. apply Ok_pair_inj in Hframe1 as [<- _].
  eexists _, _. split; [done|]. unfold refreshed, gui_ok. gui_unfold.
  split.
  { split; [by eapply Core.reach_run_frame|]. split; [done|].
    split; [intros _; lia|]. done. }
  do 6 (split; [done|]). split; [by eapply run_frame_bound|done].
Qed.

(** A command on a state that satisfies the invariant returns and leaves
    a state that satisfies it, the core being bound or not as before; the
    one exception is [Load Game] with a name that has no UTF-8 bytes on a
    core with a bound library: [path.encode] raises. *)
Lemma gui_ok_handle (k : command) (self : EmuDSNoGBA.gui L) (g : G) :
  gui_ok (G := G) self →
  match EmuDSNoGBA.handle k self g with
  | Ok (self', g') =>
      gui_ok (G := G) self' ∧
      (is_Some (bound_library (EmuDSNoGBA.core self'))
       ↔ is_Some (bound_library (EmuDSNoGBA.core self)))
  | Raise e =>
      ∃ fname, k = LoadGame fname ∧ fname ≠ "" ∧
        is_Some (bound_library (EmuDSNoGBA.core self)) ∧
        encode_utf8 fname = Raise e
  end.
Proof.
  intros Hok. pose proof Hok as (Hc & Hname & Hpend & Hregs & Htop & Hbot).
  destruct k as [fname| | | | | | | |text]; unfold EmuDSNoGBA.handle.
  - unfold EmuDSNoGBA.load_rom. destruct (decide (fname ≠ "")) as [Hf|Hf].
    2:{ split; [by apply gui_ok_status|done]. }
    pose proof (load_rom_frame (EmuDSNoGBA.core self) fname) as Hload.
    destruct (Core.load_rom (EmuDSNoGBA.core self) fname) as [[ok c]|e]
      eqn:Hl; cbn [mbind result_bind].
    2:{ exists fname. by destruct Hload. }
    destruct Hload as (Hfr & _ & Hr & Hfb & _ & _ & Hb).
    pose proof (Core.reach_load_rom (G := G) _ fname ok c Hc Hl) as Hc'.
    destruct ok; cbn [negb].
    + destruct (gui_ok_reset
        (EmuDSNoGBA.status
           ("Loaded " +:+ os_path_basename fname)
           (EmuDSNoGBA.set_rom_label ("ROM: " +:+ os_path_basename fname)
              (EmuDSNoGBA.set_rom_name (os_path_basename fname)
                 (EmuDSNoGBA.set_core c self)))) g)
        as (self' & g' & Hreset & Hok' & Hcore & _); [done|].
      change (EmuDSNoGBA.reset _ g) with
        (EmuDSNoGBA.reset
           (EmuDSNoGBA.status
              ("Loaded " +:+ os_path_basename fname)
              (EmuDSNoGBA.set_rom_label ("ROM: " +:+ os_path_basename fname)
                 (EmuDSNoGBA.set_rom_name (os_path_basename fname)
                    (EmuDSNoGBA.set_core c self)))) g).
      rewrite Hreset. split; [done|]. rewrite Hcore. gui_unfold.
      by rewrite reset_bound.
    + split; [|exact Hb]. unfold gui_ok. gui_unfold.
      split; [done|]. split; [by rewrite Hfr|]. split; [done|].
      by rewrite Hr, Hfb.
  - unfold EmuDSNoGBA.run.
    destruct (String.eqb (EmuDSNoGBA.rom_name self) "NO GAME") eqn:Hng.
    { split; [by apply gui_ok_status|done]. }
    destruct (EmuDSNoGBA.running self) eqn:Hrun.
    { done. }
    apply String.eqb_neq in Hng.
    destruct (gui_ok_animate
      (EmuDSNoGBA.status "Emulation running..."
         (EmuDSNoGBA.set_running true self)) g)
      as (self' & g' & Hanim & Hok' & _ & _ & _ & _ & _ & _ & Hb & _);
      [done..|].
    rewrite Hanim. by split.
  - split; [|done]. unfold gui_ok. gui_unfold.
    split; [done|]. split; [|done]. intros Hng. split; [done|].
    by apply Hname.
  - destruct (gui_ok_reset self g Hc) as (self' & g' & Hreset & Hok' & Hcore & _).
    rewrite Hreset. split; [done|]. rewrite Hcore. apply reset_bound.
  - split; [by apply gui_ok_status|done].
  - split; [by apply gui_ok_status|done].
  - split; [by apply gui_ok_status|done].
  - unfold EmuDSNoGBA.after_callback.
    destruct (EmuDSNoGBA.after_pending self) as [|n] eqn:Hn.
    { done. }
    destruct (EmuDSNoGBA.running self) eqn:Hrun.
    + destruct (gui_ok_animate (EmuDSNoGBA.set_after_pending n self) g)
        as (self' & g' & Hanim & Hok' & _ & _ & _ & _ & _ & _ & Hb & _);
        [done| |done|].
      { gui_unfold. intros Hng. destruct (Hname Hng) as [Hfalse _].
        congruence. }
      rewrite Hanim. by split.
    + unfold EmuDSNoGBA._animate. gui_unfold. rewrite Hrun. cbn [negb].
      split; [|done]. unfold gui_ok. gui_unfold.
      split; [done|]. split; [done|]. split; [|done].
      intros Htrue. congruence.
  - split; [|by unfold EmuDSNoGBA.edit_mem_view; destruct
                  (EmuDSNoGBA.mem_editable self)].
    unfold EmuDSNoGBA.edit_mem_view.
    destruct (EmuDSNoGBA.mem_editable self); exact Hok.
Qed.

(** Once the main block has chosen its core, it builds the front end
    without raising, and the state it leaves satisfies the invariant. *)
Lemma gui_ok_main (env : Env L) (c : core L) :
  (main_core env).2 = Ok c →
  ∃ self, (EmuDSNoGBA.main env).2 = Ok self ∧ gui_ok (G := G) self ∧
    EmuDSNoGBA.core self = c ∧
    EmuDSNoGBA.rom_name self = "NO GAME" ∧
    EmuDSNoGBA.running self = false ∧
    EmuDSNoGBA.mem_view self = "" ∧
    EmuDSNoGBA.mem_editable self = true ∧
    EmuDSNoGBA.rom_label self = "ROM: NO GAME" ∧
    EmuDSNoGBA.statusbar self = "Ready." ∧
    EmuDSNoGBA.after_pending self = 0%nat.
Proof.
  intros Hcore.
  destruct (main_core_fresh (G := G) env c Hcore) as [Hc Hfresh].
  destruct (reachable_inv _ Hc) as [_ Hregs].
  unfold EmuDSNoGBA.main. destruct (main_core env) as [out r].
  cbn [snd] in Hcore. subst r.
  destruct (regs_of_reachable c Hc) as [text Htext].
  unfold EmuDSNoGBA.__init__, EmuDSNoGBA._draw_registers. cbn [snd].
  gui_unfold. cbn [mbind result_bind]. rewrite Htext. cbn [mbind result_bind].
  unfold EmuDSNoGBA._draw_screens. gui_unfold.
  destruct (Core.get_framebuffers c) as [top bot] eqn:Hfb. gui_unfold.
  eexists. split; [done|]. unfold gui_ok. gui_unfold. rewrite Hfb.
  split; [|done]. split; [done|]. split; [|done].
  intros _. split; [done|]. by rewrite Hfresh.
Qed.

(** The main block raises what its [try] statement raises. *)
Lemma main_raises (env : Env L) (e : exn) :
  (main_core env).2 = Raise e → (EmuDSNoGBA.main env).2 = Raise e.
Proof.
  unfold EmuDSNoGBA.main. destruct (main_core env) as [out r].
  cbn [snd]. by intros ->.
Qed.

End FrontEndInvariant.

Section FrontEndReachable.
Context {L : Type} `{NativeLib L} {G : Type} `{RandomSource G} `{Toolkit}.

Lemma main_chosen (env : Env L) (self : EmuDSNoGBA.gui L) :
  (EmuDSNoGBA.main env).2 = Ok self →
  ∃ c, (main_core env).2 = Ok c.
Proof.
  intros Hmain. destruct ((main_core env).2) as [c|e] eqn:Hcore.
  - by exists c.
  - apply main_raises in Hcore. congruence.
Qed.

Lemma reachable_gui_ok (self : EmuDSNoGBA.gui L) :
  EmuDSNoGBA.reachable (G := G) self → gui_ok (G := G) self.
Proof.
  induction 1 as [env self Hmain|k self g self' g' _ IH Hk].
  - destruct (main_chosen env self Hmain) as [c Hc].
    destruct (gui_ok_main env c Hc) as (self0 & Hmain0 & Hok & _).
    rewrite Hmain in Hmain0. by injection Hmain0 as ->.
  - pose proof (gui_ok_handle k self g IH) as Hh. rewrite Hk in Hh.
    apply Hh.
Qed.

(** A command whose file name, if it has one, has UTF-8 bytes returns;
    so does every command when no library is bound. *)
Lemma handle_returns (k : command) (self : EmuDSNoGBA.gui L) (g : G) :
  gui_ok (G := G) self →
  bound_library (EmuDSNoGBA.core self) = None ∨ names_encodable [k] →
  ∃ self' g', EmuDSNoGBA.handle k self g = Ok (self', g').
Proof.
  intros Hok Hk. pose proof (gui_ok_handle k self g Hok) as Hh.
  destruct (EmuDSNoGBA.handle k self g) as [[self' g']|e]; [by eexists _, _|].
  destruct Hh as (fname & -> & _ & [lib Hlib] & Henc).
  destruct Hk as [Hnone|Hnames]; [congruence|].
  apply Forall_cons_1 in Hnames as [[bytes Hbytes] _]. congruence.
Qed.

Lemma handle_all_reachable (ks : list command) (self : EmuDSNoGBA.gui L)
    (g : G) :
  EmuDSNoGBA.reachable (G := G) self →
  bound_library (EmuDSNoGBA.core self) = None ∨ names_encodable ks →
  ∃ self' g', EmuDSNoGBA.handle_all ks self g = Ok (self', g') ∧
              EmuDSNoGBA.reachable (G := G) self'.
Proof.
  revert self g. induction ks as [|k ks IH]; intros self g Hreach Hks.
  - by exists self, g.
  - pose proof (reachable_gui_ok self Hreach) as Hok.
    destruct (handle_returns k self g Hok) as (s1 & g1 & Hk).
    { destruct Hks as [Hnone|Hnames]; [by left|right].
      apply Forall_cons_1 in Hnames as [Hk _]. by apply Forall_singleton. }
    pose proof (gui_ok_handle k self g Hok) as Hh. rewrite Hk in Hh.
    destruct Hh as [_ Hb].
    destruct (IH s1 g1) as (s2 & g2 & Hks2 & Hreach2).
    { by eapply EmuDSNoGBA.reach_handle. }
    { destruct Hks as [Hnone|Hnames].
      - left. destruct (bound_library (EmuDSNoGBA.core s1)) as [lib|]; [|done].
        destruct (proj1 Hb ltac:(by eexists)) as [lib' Hlib']. congruence.
      - right. by apply Forall_cons_1 in Hnames as [_ Hrest]. }
    exists s2, g2. split; [|done].
    cbn [EmuDSNoGBA.handle_all]. by rewrite Hk.
Qed.

(** The state that the main block leaves, once it has chosen its
    core. *)
Lemma main_reachable (env : Env L) (c : core L) :
  (main_core env).2 = Ok c →
  ∃ self,
    (EmuDSNoGBA.main env).2 = Ok self ∧
    EmuDSNoGBA.reachable (G := G) self ∧
    EmuDSNoGBA.core self = c ∧
    EmuDSNoGBA.rom_name self = "NO GAME".
Proof.
  intros Hc.
  destruct (gui_ok_main (G := G) env c Hc)
    as (self & Hmain & Hok & Hcore & Hname & _).
  exists self. split; [done|]. split; [|done].
  by eapply EmuDSNoGBA.reach_main.
Qed.

End FrontEndReachable.

(** ** The front end never fails *)

(** X14: Whatever the library does (missing, lacking an entry point,
    failing to initialise, loader raising), the main block builds the
    front end without an exception when the standard output takes the two
    lines of the [except] branch, should the [try] statement raise: no
    game is loaded, the emulation is stopped at frame 0, no callback is
    scheduled, the memory view is empty and editable, and the status bar
    says "Ready.".  When the [except] branch raises instead, its
    exception leaves the main block and no front end is built. *)
Theorem main_always_starts {L : Type} `{NativeLib L} `{Toolkit} (env : Env L) :
  ((∀ e, (main_try env).2 = Raise e →
         stdout_takes env (except_lines e).1 ∧
         stdout_takes env (except_lines e).2) →
   ∃ self,
     (EmuDSNoGBA.main env).2 = Ok self ∧
     (main_core env).2 = Ok (EmuDSNoGBA.core self) ∧
     _frame (Core.attrs (EmuDSNoGBA.core self)) = 0 ∧
     EmuDSNoGBA.rom_name self = "NO GAME" ∧
     EmuDSNoGBA.running self = false ∧
     EmuDSNoGBA.mem_view self = "" ∧
     EmuDSNoGBA.mem_editable self = true ∧
     EmuDSNoGBA.rom_label self = "ROM: NO GAME" ∧
     EmuDSNoGBA.statusbar self = "Ready." ∧
     EmuDSNoGBA.after_pending self = 0%nat) ∧
  (∀ e e', (main_try env).2 = Raise e → fallback env e = Raise e' →
           (EmuDSNoGBA.main env).2 = Raise e').
Proof.
  split.
  - intros Hout.
    assert (∃ c, (main_core env).2 = Ok c) as [c Hc].
    { rewrite main_core_try.
      destruct ((main_try env).2) as [c|e] eqn:Htry; [by exists c|].
      destruct (Hout e eq_refl) as [H1 H2]. unfold stdout_takes in H1, H2.
      destruct (except_branch_cases env e []) as [_ ->].
      rewrite H1, H2. by eexists. }
    destruct (gui_ok_main (G := Z) env c Hc)
      as (self & Hmain & _ & Hcore & Hrest).
    destruct (main_core_fresh (G := Z) env c Hc) as [_ Hfresh].
    exists self. split; [done|]. subst c. split; [done|].
    split; [by rewrite Hfresh|done].
  - intros e e' Htry Hfall. apply main_raises.
    by rewrite main_core_try, Htry.
Qed.

(** X14 where [nogba_init] fails and the standard output is in UTF-8. *)
Lemma main_always_starts_witness :
  (main_try (env_with_library (-1))).2
  = Raise (RuntimeError "no$gba: initialization failed") ∧
  ∃ self,
    (EmuDSNoGBA.main (env_with_library (-1))).2 = Ok self ∧
    (main_core (env_with_library (-1))).2 = Ok (EmuDSNoGBA.core self) ∧
    _frame (Core.attrs (EmuDSNoGBA.core self)) = 0 ∧
    EmuDSNoGBA.rom_name self = "NO GAME" ∧
    EmuDSNoGBA.running self = false ∧
    EmuDSNoGBA.mem_view self = "" ∧
    EmuDSNoGBA.mem_editable self = true ∧
    EmuDSNoGBA.rom_label self = "ROM: NO GAME" ∧
    EmuDSNoGBA.statusbar self = "Ready." ∧
    EmuDSNoGBA.after_pending self = 0%nat.
Proof.
  split; [reflexivity|].
  apply (main_always_starts (env_with_library (-1))).
  intros e [= <-]. split; reflexivity.
Defined.

(** Where the report of the [except] branch cannot be printed, the main
    block raises. *)
Example main_raises_cafe :
  (EmuDSNoGBA.main (L := Z) env_cafe).2
  = Raise (UnicodeEncodeError
      "'ascii' codec can't encode character '\xe9' in position 50: ordinal not in range(128)").
Proof. reflexivity. Qed.

(** X15: From every state of the front end that a run of the program goes
    through, every sequence of commands, timer callbacks and edits is
    handled without an exception, provided that no library is bound or
    that every file name the dialog returns has UTF-8 bytes.  The one
    exception that a command can raise is that of [path.encode], for
    [Load Game] on a core with a bound library. *)
Theorem commands_raise_only_for_file_names {L : Type} `{NativeLib L}
    {G : Type} `{RandomSource G} `{Toolkit} (self : EmuDSNoGBA.gui L)
    (ks : list command) (g : G) :
  EmuDSNoGBA.reachable (G := G) self →
  (bound_library (EmuDSNoGBA.core self) = None ∨ names_encodable ks →
   ∃ self' g', EmuDSNoGBA.handle_all ks self g = Ok (self', g') ∧
               EmuDSNoGBA.reachable (G := G) self') ∧
  (∀ k e, EmuDSNoGBA.handle k self g = Raise e →
     ∃ fname, k = LoadGame fname ∧ fname ≠ "" ∧
       is_Some (bound_library (EmuDSNoGBA.core self)) ∧
       encode_utf8 fname = Raise e).
Proof.
  intros Hreach. split; [by apply handle_all_reachable|].
  intros k e Hraise.
  pose proof (gui_ok_handle k self g (reachable_gui_ok self Hreach)) as Hh.
  by rewrite Hraise in Hh.
Qed.

(** X15 on the front end that the main block builds on a core bound to
    the toy library. *)
Lemma commands_raise_only_for_file_names_witness :
  let ks := [Run; LoadGame "/roms/game.nds"; Run; AfterCallback;
             EditMemView "abc"; Stop; ResetCmd] in
  ∃ self,
    (EmuDSNoGBA.main (env_with_library 0)).2 = Ok self ∧
    is_Some (bound_library (EmuDSNoGBA.core self)) ∧
    (∃ self' g',
       EmuDSNoGBA.handle_all ks self 3 = Ok (self', g') ∧
       EmuDSNoGBA.reachable (G := Z) self') ∧
    (∀ k e, EmuDSNoGBA.handle k self 3 = Raise e →
       ∃ fname, k = LoadGame fname ∧ fname ≠ "" ∧
         is_Some (bound_library (EmuDSNoGBA.core self)) ∧
         encode_utf8 fname = Raise e).
Proof.
  intros ks.
  destruct (main_reachable (G := Z) (env_with_library 0)
              (AsNoGbaCore (mkNoGbaCore EmulatorCore.__init__ (Some 0))))
    as (self & Hmain & Hreach & Hcore & _); [reflexivity|].
  exists self. split; [exact Hmain|].
  split; [rewrite Hcore; by eexists|].
  destruct (commands_raise_only_for_file_names self ks 3 Hreach)
    as [Hreturn Hraise].
  split; [|exact Hraise]. apply Hreturn. right.
  repeat constructor. by eexists.
Defined.

(** ** What the commands do *)

Section FrontEndEffects.
Context {L : Type} `{NativeLib L} {G : Type} `{RandomSource G} `{Toolkit}.

Lemma load_game_accepted (self : EmuDSNoGBA.gui L) (fname : string) (g : G)
    (c : core L) :
  gui_ok (G := G) self → fname ≠ "" →
  Core.load_rom (EmuDSNoGBA.core self) fname = Ok (true, c) →
  ∃ self' g',
    EmuDSNoGBA.handle (LoadGame fname) self g = Ok (self', g') ∧
    EmuDSNoGBA.core self' = Core.reset c ∧
    EmuDSNoGBA.rom_name self' = os_path_basename fname ∧
    EmuDSNoGBA.rom_label self' = "ROM: " +:+ os_path_basename fname ∧
    EmuDSNoGBA.statusbar self' = "System reset." ∧
    EmuDSNoGBA.running self' = false ∧
    EmuDSNoGBA.after_pending self' = EmuDSNoGBA.after_pending self ∧
    EmuDSNoGBA.mem_editable self' = false.
Proof.
  intros (Hc & _) Hf Hload.
  unfold EmuDSNoGBA.handle, EmuDSNoGBA.load_rom.
  destruct (decide (fname ≠ "")) as [_|Hn]; [|done].
  pose proof (Core.reach_load_rom (G := G) _ fname true c Hc Hload) as Hc'.
  rewrite Hload. cbn [mbind result_bind negb].
  destruct (gui_ok_reset
    (EmuDSNoGBA.status ("Loaded " +:+ os_path_basename fname)
       (EmuDSNoGBA.set_rom_label ("ROM: " +:+ os_path_basename fname)
          (EmuDSNoGBA.set_rom_name (os_path_basename fname)
             (EmuDSNoGBA.set_core c self)))) g)
    as (self' & g' & Hreset & _ & Hcore & Hrun & Hname & Hlabel & Hstat
        & Hpend & Hmem);
    [done|].
  exists self', g'. split; [exact Hreset|]. by gui_unfold.
Qed.

Lemma load_game_refused (self : EmuDSNoGBA.gui L) (fname : string) (g : G)
    (c : core L) :
  fname ≠ "" →
  Core.load_rom (EmuDSNoGBA.core self) fname = Ok (false, c) →
  EmuDSNoGBA.handle (LoadGame fname) self g
  = Ok (EmuDSNoGBA.status "Failed to load ROM in backend core."
          (EmuDSNoGBA.set_core c self), g).
Proof.
  intros Hf Hload. unfold EmuDSNoGBA.handle, EmuDSNoGBA.load_rom.
  destruct (decide (fname ≠ "")) as [_|Hn]; [|done].
  by rewrite Hload.
Qed.

Lemma run_started (self : EmuDSNoGBA.gui L) (g : G) :
  gui_ok (G := G) self → EmuDSNoGBA.rom_name self ≠ "NO GAME" →
  EmuDSNoGBA.running self = false →
  ∃ self' g',
    EmuDSNoGBA.handle Run self g = Ok (self', g') ∧
    _frame (Core.attrs (EmuDSNoGBA.core self'))
    = _frame (Core.attrs (EmuDSNoGBA.core self)) + 1 ∧
    EmuDSNoGBA.running self' = true ∧
    EmuDSNoGBA.rom_name self' = EmuDSNoGBA.rom_name self ∧
    EmuDSNoGBA.statusbar self' = "Emulation running..." ∧
    EmuDSNoGBA.after_pending self' = S (EmuDSNoGBA.after_pending self) ∧
    EmuDSNoGBA.mem_editable self' = false.
Proof.
  intros (Hc & _) Hname Hrun. unfold EmuDSNoGBA.handle, EmuDSNoGBA.run.
  apply String.eqb_neq in Hname. rewrite Hname, Hrun.
  apply String.eqb_neq in Hname.
  destruct (gui_ok_animate
    (EmuDSNoGBA.status "Emulation running..."
       (EmuDSNoGBA.set_running true self)) g)
    as (self' & g' & Hanim & _ & Hf & Hr & Hn & _ & Hs & Hp & _ & Hmem);
    [done..|].
  exists self', g'. split; [exact Hanim|]. by gui_unfold.
Qed.

Lemma callback_running (self : EmuDSNoGBA.gui L) (g : G) :
  gui_ok (G := G) self → EmuDSNoGBA.running self = true →
  ∃ self' g',
    EmuDSNoGBA.handle AfterCallback self g = Ok (self', g') ∧
    gui_ok (G := G) self' ∧
    _frame (Core.attrs (EmuDSNoGBA.core self'))
    = _frame (Core.attrs (EmuDSNoGBA.core self)) + 1 ∧
    EmuDSNoGBA.running self' = true ∧
    EmuDSNoGBA.rom_name self' = EmuDSNoGBA.rom_name self ∧
    EmuDSNoGBA.after_pending self' = EmuDSNoGBA.after_pending self.
Proof.
  intros (Hc & Hname & Hpend & _) Hrun. specialize (Hpend Hrun).
  unfold EmuDSNoGBA.handle, EmuDSNoGBA.after_callback.
  destruct (EmuDSNoGBA.after_pending self) as [|n] eqn:Hn; [lia|].
  destruct (gui_ok_animate (EmuDSNoGBA.set_after_pending n self) g)
    as (self' & g' & Hanim & Hok & Hf & Hr & Hnm & _ & _ & Hp & _);
    [done| |done|].
  { gui_unfold. intros Hng. destruct (Hname Hng) as [Hfalse _]. congruence. }
  exists self', g'. split; [exact Hanim|]. by gui_unfold.
Qed.

Lemma callback_stopped (self : EmuDSNoGBA.gui L) (g : G) :
  EmuDSNoGBA.running self = false →
  EmuDSNoGBA.handle AfterCallback self g
  = Ok (EmuDSNoGBA.set_after_pending (EmuDSNoGBA.after_pending self - 1) self,
        g).
Proof.
  intros Hrun. unfold EmuDSNoGBA.handle, EmuDSNoGBA.after_callback.
  destruct self as [c nm r rt mv me st sb rl sbar [|n]]; cbn in Hrun; subst r;
    [done|].
  unfold EmuDSNoGBA._animate. gui_unfold. cbn [negb].
  by replace (S n - 1)%nat with n by lia.
Qed.

End FrontEndEffects.

(** States of the front end with the toy instances, for the examples
    below: the one that the main block leaves where no library is found,
    one with a game loaded, and one with the emulation running. *)
Lemma demo_started :
  ∃ self : EmuDSNoGBA.gui Z,
    (EmuDSNoGBA.main env_no_library).2 = Ok self ∧
    EmuDSNoGBA.reachable (G := Z) self ∧
    EmuDSNoGBA.core self
    = AsNoGbaCore (mkNoGbaCore EmulatorCore.__init__ None) ∧
    EmuDSNoGBA.rom_name self = "NO GAME".
Proof.
  apply (main_reachable (G := Z) env_no_library). reflexivity.
Qed.

Lemma demo_loaded :
  ∃ self : EmuDSNoGBA.gui Z,
    EmuDSNoGBA.reachable (G := Z) self ∧
    EmuDSNoGBA.rom_name self = "game.nds" ∧
    EmuDSNoGBA.running self = false.
Proof.
  destruct demo_started as (self & Hmain & Hreach & Hcore & _).
  destruct (load_game_accepted self "/roms/game.nds" 1
              (AsNoGbaCore (mkNoGbaCore
                 (EmulatorCore.set_rom_path (Some "/roms/game.nds")
                    EmulatorCore.__init__) None))
              (reachable_gui_ok self Hreach))
    as (self' & g' & Hload & _ & Hname & _ & _ & Hrun & _); [done| |].
  { by rewrite Hcore. }
  exists self'. split; [|done].
  eapply EmuDSNoGBA.reach_handle; [|exact Hload]. done.
Qed.

Lemma demo_running :
  ∃ self : EmuDSNoGBA.gui Z,
    EmuDSNoGBA.reachable (G := Z) self ∧ EmuDSNoGBA.running self = true ∧
    EmuDSNoGBA.mem_editable self = false.
Proof.
  destruct demo_loaded as (self & Hreach & Hname & Hrun).
  destruct (run_started self 2 (reachable_gui_ok self Hreach))
    as (self' & g' & Hstart & _ & Hrun' & _ & _ & _ & Hmem);
    [by rewrite Hname|done|].
  exists self'. split; [|done]. by eapply EmuDSNoGBA.reach_handle.
Qed.

(** X16: While the front end shows no game (its [rom_name] is "NO GAME"), the
    emulation is stopped, the frame counter of the core is 0, and [Run]
    only writes "No ROM loaded." in the status bar: this holds in every
    state a run of the program goes through. *)
Theorem no_game_means_stopped {L : Type} `{NativeLib L} {G : Type}
    `{RandomSource G} `{Toolkit} (self : EmuDSNoGBA.gui L) (g : G) :
  EmuDSNoGBA.reachable (G := G) self →
  EmuDSNoGBA.rom_name self = "NO GAME" →
  EmuDSNoGBA.running self = false ∧
  _frame (Core.attrs (EmuDSNoGBA.core self)) = 0 ∧
  EmuDSNoGBA.handle Run self g
  = Ok (EmuDSNoGBA.status "No ROM loaded." self, g).
Proof.
  intros Hreach Hname.
  destruct (reachable_gui_ok self Hreach) as (_ & Hng & _).
  destruct (Hng Hname) as [Hrun Hframe]. split; [done|]. split; [done|].
  unfold EmuDSNoGBA.handle, EmuDSNoGBA.run. by rewrite Hname.
Qed.

Lemma no_game_means_stopped_witness :
  ∃ self, (EmuDSNoGBA.main env_no_library).2 = Ok self ∧
    EmuDSNoGBA.rom_name self = "NO GAME" ∧
    EmuDSNoGBA.running self = false ∧
    _frame (Core.attrs (EmuDSNoGBA.core self)) = 0 ∧
    EmuDSNoGBA.handle Run self 5
    = Ok (EmuDSNoGBA.status "No ROM loaded." self, 5).
Proof.
  destruct demo_started as (self & Hmain & Hreach & _ & Hname).
  exists self. split; [exact Hmain|]. split; [exact Hname|].
  exact (no_game_means_stopped (G := Z) self 5 Hreach Hname).
Defined.

(** X17: While the emulation runs, a game is loaded and at least one callback
    is scheduled, so the animation goes on. *)
Theorem running_has_callback {L : Type} `{NativeLib L} {G : Type}
    `{RandomSource G} `{Toolkit} (self : EmuDSNoGBA.gui L) :
  EmuDSNoGBA.reachable (G := G) self →
  EmuDSNoGBA.running self = true →
  (1 ≤ EmuDSNoGBA.after_pending self)%nat ∧
  EmuDSNoGBA.rom_name self ≠ "NO GAME".
Proof.
  intros Hreach Hrun.
  destruct (reachable_gui_ok self Hreach) as (_ & Hng & Hpend & _).
  split; [by apply Hpend|]. intros Hname.
  destruct (Hng Hname) as [Hfalse _]. congruence.
Qed.

Lemma running_has_callback_witness :
  ∃ self : EmuDSNoGBA.gui Z,
    EmuDSNoGBA.reachable (G := Z) self ∧
    EmuDSNoGBA.running self = true ∧
    (1 ≤ EmuDSNoGBA.after_pending self)%nat ∧
    EmuDSNoGBA.rom_name self ≠ "NO GAME".
Proof.
  destruct demo_running as (self & Hreach & Hrun & Hmem).
  exists self. split; [exact Hreach|]. split; [exact Hrun|].
  exact (running_has_callback (G := Z) self Hreach Hrun).
Defined.

(** X18: In every state a run of the program goes through, the register text
    shown is the one built from the registers of the core, and the two
    images shown are the framebuffers of the core resized to 256 x 192:
    the display is never stale. *)
Theorem display_in_sync {L : Type} `{NativeLib L} {G : Type}
    `{RandomSource G} `{Toolkit} (self : EmuDSNoGBA.gui L) :
  EmuDSNoGBA.reachable (G := G) self →
  EmuDSNoGBA.registers_text (Core.get_registers (EmuDSNoGBA.core self))
  = Ok (EmuDSNoGBA.reg_text self) ∧
  EmuDSNoGBA.screen_top self
  = Some (Image_resize (Core.get_framebuffers (EmuDSNoGBA.core self)).1
            (256%nat, 192%nat)) ∧
  EmuDSNoGBA.screen_bot self
  = Some (Image_resize (Core.get_framebuffers (EmuDSNoGBA.core self)).2
            (256%nat, 192%nat)).
Proof.
  intros Hreach. by destruct (reachable_gui_ok self Hreach) as (_ & _ & _ & ?).
Qed.

Lemma display_in_sync_witness :
  ∃ self : EmuDSNoGBA.gui Z,
    EmuDSNoGBA.reachable (G := Z) self ∧
    EmuDSNoGBA.running self = true ∧
    EmuDSNoGBA.registers_text (Core.get_registers (EmuDSNoGBA.core self))
    = Ok (EmuDSNoGBA.reg_text self) ∧
    EmuDSNoGBA.screen_top self
    = Some (Image_resize (Core.get_framebuffers (EmuDSNoGBA.core self)).1
              (256%nat, 192%nat)) ∧
    EmuDSNoGBA.screen_bot self
    = Some (Image_resize (Core.get_framebuffers (EmuDSNoGBA.core self)).2
              (256%nat, 192%nat)).
Proof.
  destruct demo_running as (self & Hreach & Hrun & Hmem).
  exists self. split; [exact Hreach|]. split; [exact Hrun|].
  exact (display_in_sync (G := Z) self Hreach).
Defined.

(** X19: When the dialog returns a path and the core accepts it, the front
    end takes the base name of the path as name of the game, shows it in
    the label, resets the core (frame 0, path kept) and stops; the status
    bar ends on "System reset.": the message "Loaded ..." is overwritten
    by the reset before it can be seen. *)
Theorem load_game_success {L : Type} `{NativeLib L} {G : Type}
    `{RandomSource G} `{Toolkit} (self : EmuDSNoGBA.gui L) (fname : string)
    (g : G) (c : core L) :
  EmuDSNoGBA.reachable (G := G) self → fname ≠ "" →
  Core.load_rom (EmuDSNoGBA.core self) fname = Ok (true, c) →
  ∃ self' g',
    EmuDSNoGBA.handle (LoadGame fname) self g = Ok (self', g') ∧
    EmuDSNoGBA.rom_name self' = os_path_basename fname ∧
    EmuDSNoGBA.rom_label self' = "ROM: " +:+ os_path_basename fname ∧
    EmuDSNoGBA.statusbar self' = "System reset." ∧
    EmuDSNoGBA.running self' = false ∧
    _frame (Core.attrs (EmuDSNoGBA.core self')) = 0 ∧
    rom_path (Core.attrs (EmuDSNoGBA.core self')) = Some fname.
Proof.
  intros Hreach Hf Hload.
  destruct (load_game_accepted self fname g c (reachable_gui_ok self Hreach)
              Hf Hload)
    as (self' & g' & Hh & Hcore & Hname & Hlabel & Hstat & Hrun & _).
  exists self', g'. split; [done|]. split; [done|]. split; [done|].
  split; [done|]. split; [done|]. rewrite Hcore, reset_attrs.
  split; [done|].
  pose proof (load_rom_frame (EmuDSNoGBA.core self) fname) as Hframe.
  rewrite Hload in Hframe. destruct Hframe as (_ & _ & _ & _ & _ & Hpath & _).
  unfold EmulatorCore.reset, EmulatorCore.set_running, EmulatorCore.set_frame.
  cbn [rom_path]. by apply Hpath.
Qed.

Lemma load_game_success_witness :
  ∃ self, (EmuDSNoGBA.main env_no_library).2 = Ok self ∧
    ∃ self' g',
      EmuDSNoGBA.handle (LoadGame "/roms/game.nds") self 9 = Ok (self', g') ∧
      EmuDSNoGBA.rom_name self' = os_path_basename "/roms/game.nds" ∧
      EmuDSNoGBA.rom_label self' = "ROM: " +:+ os_path_basename "/roms/game.nds" ∧
      EmuDSNoGBA.statusbar self' = "System reset." ∧
      EmuDSNoGBA.running self' = false ∧
      _frame (Core.attrs (EmuDSNoGBA.core self')) = 0 ∧
      rom_path (Core.attrs (EmuDSNoGBA.core self')) = Some "/roms/game.nds".
Proof.
  destruct demo_started as (self & Hmain & Hreach & Hcore & _).
  exists self. split; [exact Hmain|].
  apply (load_game_success (G := Z) self "/roms/game.nds" 9
           (AsNoGbaCore (mkNoGbaCore
              (EmulatorCore.set_rom_path (Some "/roms/game.nds")
                 EmulatorCore.__init__) None)) Hreach).
  - discriminate.
  - rewrite Hcore. reflexivity.
Defined.

Example basename_toy :
  os_path_basename "/roms/game.nds" = "game.nds" ∧
  os_path_basename "game.nds" = "game.nds" ∧
  os_path_basename "/roms/NO GAME" = "NO GAME".
Proof. repeat split; reflexivity. Qed.

(** X20: When the dialog returns a path and the core refuses it, only the
    status bar changes in the front end ("Failed to load ROM in backend
    core."); the attributes of the core are as before: name and label of
    the game, frame counter, registers, images and running flag stay. *)
Theorem load_game_failure {L : Type} `{NativeLib L} {G : Type}
    `{RandomSource G} `{Toolkit} (self : EmuDSNoGBA.gui L) (fname : string)
    (g : G) (c' : core L) :
  fname ≠ "" →
  Core.load_rom (EmuDSNoGBA.core self) fname = Ok (false, c') →
  EmuDSNoGBA.handle (LoadGame fname) self g
  = Ok (EmuDSNoGBA.status "Failed to load ROM in backend core."
          (EmuDSNoGBA.set_core c' self), g) ∧
  Core.attrs c' = Core.attrs (EmuDSNoGBA.core self).
Proof.
  intros Hf Hload. split; [by apply load_game_refused|].
  pose proof (load_rom_frame (EmuDSNoGBA.core self) fname) as Hframe.
  rewrite Hload in Hframe. destruct Hframe as (_ & _ & _ & _ & Hsame & _).
  by apply Hsame.
Qed.

Lemma load_game_failure_witness :
  let self := EmuDSNoGBA.mkGui
    (AsNoGbaCore (mkNoGbaCore EmulatorCore.__init__ (Some 0)))
    "old.nds" false "" "" true None None "ROM: old.nds" "Ready." 0 in
  let c' := AsNoGbaCore (mkNoGbaCore EmulatorCore.__init__ (Some 1)) in
  EmuDSNoGBA.handle (H := refusing_lib) (LoadGame "/roms/bad.nds") self 4
  = Ok (EmuDSNoGBA.status "Failed to load ROM in backend core."
          (EmuDSNoGBA.set_core c' self), 4) ∧
  Core.attrs c' = Core.attrs (EmuDSNoGBA.core self).
Proof.
  intros self c'.
  apply (load_game_failure (H := refusing_lib) (G := Z) self "/roms/bad.nds"
           4 c').
  - discriminate.
  - reflexivity.
Defined.

(** Cancelling the dialog changes nothing but the status bar. *)
Lemma load_game_cancelled {L : Type} `{NativeLib L} {G : Type}
    `{RandomSource G} `{Toolkit} (self : EmuDSNoGBA.gui L) (g : G) :
  EmuDSNoGBA.handle (LoadGame "") self g
  = Ok (EmuDSNoGBA.status "ROM load cancelled." self, g).
Proof. reflexivity. Qed.

(** ** The animation *)

Section Animation.
Context {L : Type} `{NativeLib L} {G : Type} `{RandomSource G} `{Toolkit}.

Lemma callbacks_running (n : nat) (self : EmuDSNoGBA.gui L) (g : G) :
  gui_ok (G := G) self → EmuDSNoGBA.running self = true →
  ∃ self' g',
    EmuDSNoGBA.handle_all (replicate n AfterCallback) self g = Ok (self', g') ∧
    _frame (Core.attrs (EmuDSNoGBA.core self'))
    = _frame (Core.attrs (EmuDSNoGBA.core self)) + Z.of_nat n ∧
    EmuDSNoGBA.running self' = true ∧
    EmuDSNoGBA.rom_name self' = EmuDSNoGBA.rom_name self ∧
    EmuDSNoGBA.after_pending self' = EmuDSNoGBA.after_pending self.
Proof.
  revert self g. induction n as [|n IH]; intros self g Hok Hrun.
  - exists self, g. split; [done|]. split; [lia|done].
  - destruct (callback_running self g Hok Hrun)
      as (s1 & g1 & Hcb & Hok1 & Hf1 & Hr1 & Hn1 & Hp1).
    destruct (IH s1 g1 Hok1 Hr1) as (s2 & g2 & Hcbs & Hf2 & Hr2 & Hn2 & Hp2).
    exists s2, g2. split.
    { cbn [replicate EmuDSNoGBA.handle_all]. by rewrite Hcb. }
    split; [lia|]. split; [done|]. split; congruence.
Qed.

Lemma callbacks_stopped (n : nat) (self : EmuDSNoGBA.gui L) (g : G) :
  EmuDSNoGBA.running self = false →
  EmuDSNoGBA.handle_all (replicate n AfterCallback) self g
  = Ok (EmuDSNoGBA.set_after_pending (EmuDSNoGBA.after_pending self - n) self,
        g).
Proof.
  revert self. induction n as [|n IH]; intros self Hrun.
  - cbn [replicate EmuDSNoGBA.handle_all]. rewrite Nat.sub_0_r.
    by destruct self.
  - cbn [replicate EmuDSNoGBA.handle_all]. rewrite callback_stopped by done.
    cbn [mbind result_bind]. rewrite IH by done. gui_unfold.
    by replace (EmuDSNoGBA.after_pending self - 1 - n)%nat
      with (EmuDSNoGBA.after_pending self - S n)%nat by lia.
Qed.

End Animation.

(** X21: While the emulation runs, [n] timer callbacks advance the core by
    exactly [n] frames; the emulation is still running afterwards and as
    many callbacks are scheduled as before. *)
Theorem callbacks_advance_frames {L : Type} `{NativeLib L} {G : Type}
    `{RandomSource G} `{Toolkit} (self : EmuDSNoGBA.gui L) (n : nat) (g : G) :
  EmuDSNoGBA.reachable (G := G) self →
  EmuDSNoGBA.running self = true →
  ∃ self' g',
    EmuDSNoGBA.handle_all (replicate n AfterCallback) self g = Ok (self', g') ∧
    _frame (Core.attrs (EmuDSNoGBA.core self'))
    = _frame (Core.attrs (EmuDSNoGBA.core self)) + Z.of_nat n ∧
    EmuDSNoGBA.running self' = true ∧
    EmuDSNoGBA.after_pending self' = EmuDSNoGBA.after_pending self.
Proof.
  intros Hreach Hrun.
  destruct (callbacks_running n self g (reachable_gui_ok self Hreach) Hrun)
    as (self' & g' & Hall & Hf & Hr & _ & Hp).
  by exists self', g'.
Qed.

Lemma callbacks_advance_frames_witness :
  ∃ self : EmuDSNoGBA.gui Z,
    EmuDSNoGBA.reachable (G := Z) self ∧
    EmuDSNoGBA.running self = true ∧
    ∃ self' g',
      EmuDSNoGBA.handle_all (replicate 60 AfterCallback) self 8
      = Ok (self', g') ∧
      _frame (Core.attrs (EmuDSNoGBA.core self'))
      = _frame (Core.attrs (EmuDSNoGBA.core self)) + Z.of_nat 60 ∧
      EmuDSNoGBA.running self' = true ∧
      EmuDSNoGBA.after_pending self' = EmuDSNoGBA.after_pending self.
Proof.
  destruct demo_running as (self & Hreach & Hrun & Hmem).
  exists self. split; [exact Hreach|]. split; [exact Hrun|].
  exact (callbacks_advance_frames (G := Z) self 60 8 Hreach Hrun).
Defined.

(** X22: While the emulation is stopped, timer callbacks only use up the
    scheduled callbacks: the core, the display and the random source stay
    as they are, however many callbacks fire. *)
Theorem callbacks_do_nothing_when_stopped {L : Type} `{NativeLib L} {G : Type}
    `{RandomSource G} `{Toolkit} (self : EmuDSNoGBA.gui L) (n : nat) (g : G) :
  EmuDSNoGBA.running self = false →
  EmuDSNoGBA.handle_all (replicate n AfterCallback) self g
  = Ok (EmuDSNoGBA.set_after_pending (EmuDSNoGBA.after_pending self - n) self,
        g).
Proof. apply callbacks_stopped. Qed.

Lemma callbacks_do_nothing_when_stopped_witness :
  let self := EmuDSNoGBA.mkGui (L := Z)
    (AsEmulatorCore EmulatorCore.__init__)
    "game.nds" false "" "" true None None "ROM: game.nds"
    "Emulation stopped." 1 in
  EmuDSNoGBA.handle_all (replicate 3 AfterCallback) self 6
  = Ok (EmuDSNoGBA.set_after_pending (1 - 3) self, 6).
Proof.
  intros self.
  apply (callbacks_do_nothing_when_stopped (G := Z) self 3 6). reflexivity.
Defined.

(** X23: [Run] while the emulation is running changes nothing at all. *)
Theorem run_while_running {L : Type} `{NativeLib L} {G : Type}
    `{RandomSource G} `{Toolkit} (self : EmuDSNoGBA.gui L) (g : G) :
  EmuDSNoGBA.reachable (G := G) self →
  EmuDSNoGBA.running self = true →
  EmuDSNoGBA.handle Run self g = Ok (self, g).
Proof.
  intros Hreach Hrun.
  destruct (reachable_gui_ok self Hreach) as (_ & Hng & _).
  unfold EmuDSNoGBA.handle, EmuDSNoGBA.run.
  destruct (String.eqb_spec (EmuDSNoGBA.rom_name self) "NO GAME") as [Hn|_].
  - destruct (Hng Hn) as [Hfalse _]. congruence.
  - by rewrite Hrun.
Qed.

Lemma run_while_running_witness :
  ∃ self : EmuDSNoGBA.gui Z,
    EmuDSNoGBA.reachable (G := Z) self ∧
    EmuDSNoGBA.running self = true ∧
    EmuDSNoGBA.handle Run self 12 = Ok (self, 12).
Proof.
  destruct demo_running as (self & Hreach & Hrun & Hmem).
  exists self. split; [exact Hreach|]. split; [exact Hrun|].
  exact (run_while_running (G := Z) self 12 Hreach Hrun).
Defined.

(** X24: [Stop] followed by [Run] before the scheduled callback has fired
    leaves one more callback scheduled than before (and one more frame):
    the callback scheduled before [Stop] is not cancelled, so the
    animation then advances once per callback of each chain. *)
Theorem stop_then_run_adds_a_callback {L : Type} `{NativeLib L} {G : Type}
    `{RandomSource G} `{Toolkit} (self : EmuDSNoGBA.gui L) (g : G) :
  EmuDSNoGBA.reachable (G := G) self →
  EmuDSNoGBA.running self = true →
  ∃ self' g',
    EmuDSNoGBA.handle_all [Stop; Run] self g = Ok (self', g') ∧
    EmuDSNoGBA.running self' = true ∧
    EmuDSNoGBA.after_pending self' = S (EmuDSNoGBA.after_pending self) ∧
    (2 ≤ EmuDSNoGBA.after_pending self')%nat ∧
    _frame (Core.attrs (EmuDSNoGBA.core self'))
    = _frame (Core.attrs (EmuDSNoGBA.core self)) + 1.
Proof.
  intros Hreach Hrun.
  pose proof (reachable_gui_ok self Hreach) as Hok.
  destruct Hok as (Hc & Hng & Hpend & Hsync).
  assert (EmuDSNoGBA.rom_name self ≠ "NO GAME") as Hname.
  { intros Hn. destruct (Hng Hn) as [Hfalse _]. congruence. }
  destruct (run_started (EmuDSNoGBA.stop self) g)
    as (self' & g' & Hstart & Hf & Hr & _ & _ & Hp & _).
  - unfold gui_ok. gui_unfold. split; [done|]. split; [|done].
    intros Hn. by destruct (Hname Hn).
  - by gui_unfold.
  - by gui_unfold.
  - exists self', g'. split.
    { cbn [EmuDSNoGBA.handle_all].
      change (EmuDSNoGBA.handle Stop self g)
        with (Ok (A := EmuDSNoGBA.gui L * G) (EmuDSNoGBA.stop self, g)).
      cbn [mbind result_bind]. by rewrite Hstart. }
    gui_unfold. split; [done|]. split; [done|]. split; [|done].
    specialize (Hpend Hrun). lia.
Qed.

Lemma stop_then_run_adds_a_callback_witness :
  ∃ self : EmuDSNoGBA.gui Z,
    EmuDSNoGBA.reachable (G := Z) self ∧
    EmuDSNoGBA.running self = true ∧
    ∃ self' g',
      EmuDSNoGBA.handle_all [Stop; Run] self 13 = Ok (self', g') ∧
      EmuDSNoGBA.running self' = true ∧
      EmuDSNoGBA.after_pending self' = S (EmuDSNoGBA.after_pending self) ∧
      (2 ≤ EmuDSNoGBA.after_pending self')%nat ∧
      _frame (Core.attrs (EmuDSNoGBA.core self'))
      = _frame (Core.attrs (EmuDSNoGBA.core self)) + 1.
Proof.
  destruct demo_running as (self & Hreach & Hrun & Hmem).
  exists self. split; [exact Hreach|]. split; [exact Hrun|].
  exact (stop_then_run_adds_a_callback (G := Z) self 13 Hreach Hrun).
Defined.

(** X25: The name "NO GAME" is the mark of "nothing loaded": after a game
    whose file has that base name is loaded successfully, [Run] still
    answers "No ROM loaded." and the emulation does not start, although
    the core holds the path. *)
Theorem game_named_no_game_cannot_run {L : Type} `{NativeLib L} {G : Type}
    `{RandomSource G} `{Toolkit} (self : EmuDSNoGBA.gui L) (fname : string)
    (g : G) (c : core L) :
  EmuDSNoGBA.reachable (G := G) self → fname ≠ "" →
  Core.load_rom (EmuDSNoGBA.core self) fname = Ok (true, c) →
  os_path_basename fname = "NO GAME" →
  ∃ self' g',
    EmuDSNoGBA.handle_all [LoadGame fname; Run] self g = Ok (self', g') ∧
    EmuDSNoGBA.running self' = false ∧
    EmuDSNoGBA.statusbar self' = "No ROM loaded." ∧
    _frame (Core.attrs (EmuDSNoGBA.core self')) = 0 ∧
    rom_path (Core.attrs (EmuDSNoGBA.core self')) = Some fname.
Proof.
  intros Hreach Hf Hload Hbase.
  destruct (load_game_accepted self fname g c (reachable_gui_ok self Hreach)
              Hf Hload)
    as (s1 & g1 & Hh & Hcore & Hname & _ & _ & Hrun & _).
  rewrite Hbase in Hname.
  exists (EmuDSNoGBA.status "No ROM loaded." s1), g1. split.
  { cbn [EmuDSNoGBA.handle_all]. rewrite Hh. cbn [mbind result_bind].
    unfold EmuDSNoGBA.handle, EmuDSNoGBA.run. by rewrite Hname. }
  gui_unfold. split; [done|]. split; [done|]. rewrite Hcore, reset_attrs.
  split; [done|].
  pose proof (load_rom_frame (EmuDSNoGBA.core self) fname) as Hframe.
  rewrite Hload in Hframe. destruct Hframe as (_ & _ & _ & _ & _ & Hpath & _).
  unfold EmulatorCore.reset, EmulatorCore.set_running, EmulatorCore.set_frame.
  cbn [rom_path]. by apply Hpath.
Qed.

Lemma game_named_no_game_cannot_run_witness :
  ∃ self, (EmuDSNoGBA.main env_no_library).2 = Ok self ∧
    ∃ self' g',
      EmuDSNoGBA.handle_all [LoadGame "/roms/NO GAME"; Run] self 21
      = Ok (self', g') ∧
      EmuDSNoGBA.running self' = false ∧
      EmuDSNoGBA.statusbar self' = "No ROM loaded." ∧
      _frame (Core.attrs (EmuDSNoGBA.core self')) = 0 ∧
      rom_path (Core.attrs (EmuDSNoGBA.core self')) = Some "/roms/NO GAME".
Proof.
  destruct demo_started as (self & Hmain & Hreach & Hcore & _).
  exists self. split; [exact Hmain|].
  apply (game_named_no_game_cannot_run (G := Z) self "/roms/NO GAME" 21
           (AsNoGbaCore (mkNoGbaCore
              (EmulatorCore.set_rom_path (Some "/roms/NO GAME")
                 EmulatorCore.__init__) None)) Hreach).
  - discriminate.
  - rewrite Hcore. reflexivity.
  - reflexivity.
Defined.

(** ** The layout of the texts *)

Lemma string_length_app (s1 s2 : string) :
  String.length (s1 +:+ s2) = (String.length s1 + String.length s2)%nat.
Proof.
  induction s1 as [|c s1 IH]; [done|].
  change (S (String.length (s1 +:+ s2))
          = S (String.length s1 + String.length s2)).
  by rewrite IH.
Qed.

Lemma zeros_length (n : nat) : String.length (zeros n) = n.
Proof.
  induction n as [|n IH]; [done|]. cbn [zeros String.length]. by rewrite IH.
Qed.

Lemma zfill_length (width : nat) (s : string) :
  String.length (zfill width s) = (width `max` String.length s)%nat.
Proof. unfold zfill. rewrite string_length_app, zeros_length. lia. Qed.

Lemma digits_from_length (fuel : nat) (base v : Z) (acc : string) (k : nat) :
  2 ≤ base → 0 ≤ v < base ^ Z.of_nat k → (1 ≤ k)%nat →
  (String.length acc ≤ String.length (digits_from fuel base v acc)
   ≤ k + String.length acc)%nat.
Proof.
  intros Hbase. revert v acc k. induction fuel as [|fuel IH];
    intros v acc k Hv Hk; cbn [digits_from]; [lia|].
  destruct (decide (v / base = 0)) as [Hz|Hnz]; [cbn [String.length]; lia|].
  assert (2 ≤ k)%nat as Hk2.
  { destruct (decide (k = 1%nat)) as [->|]; [|lia].
    exfalso. apply Hnz. apply Z.div_small. by rewrite Z.pow_1_r in Hv. }
  specialize (IH (v / base) (String (digit_char (v mod base)) acc) (k - 1)%nat).
  cbn [String.length] in IH.
  assert (0 ≤ v / base < base ^ Z.of_nat (k - 1)) as Hdiv.
  { split; [apply Z.div_pos; lia|].
    apply Z.div_lt_upper_bound; [lia|].
    rewrite <- Z.pow_succ_r by lia.
    replace (Z.succ (Z.of_nat (k - 1))) with (Z.of_nat k) by lia. lia. }
  specialize (IH Hdiv ltac:(lia)). lia.
Qed.

(** A value of [k] digits at most, printed with zero padding to the
    width [k], takes exactly [k] characters. *)
Lemma format_int_length (base : Z) (k : nat) (v : Z) :
  2 ≤ base → 0 ≤ v < base ^ Z.of_nat k → (1 ≤ k)%nat →
  String.length (format_int base k v) = k.
Proof.
  intros Hbase Hv Hk. unfold format_int.
  destruct (decide (v < 0)); [lia|]. rewrite zfill_length. unfold digits.
  pose proof (digits_from_length (S (Z.to_nat (Z.log2 v))) base v "" k
                Hbase Hv Hk) as Hlen.
  cbn [String.length] in Hlen. lia.
Qed.

Lemma format_08X_length (v : Z) : u32 v → String.length (format_int 16 8 v) = 8%nat.
Proof. intros Hv. apply format_int_length; [lia|exact Hv|lia]. Qed.

Lemma getitem_Forall (P : Z → Prop) (l : list Z) (i : nat) :
  Forall P l → (i < length l)%nat → ∃ v, getitem l i = Ok v ∧ P v.
Proof.
  intros Hall Hi. unfold getitem.
  destruct (lookup_lt_is_Some_2 l i Hi) as [v Hv]. rewrite Hv.
  exists v. split; [done|]. by eapply Forall_lookup_1.
Qed.

Lemma reg_line_length (regs : list Z) (i : nat) (text : string) :
  Forall u32 regs → (i + 1 < length regs)%nat → (i + 1 < 100)%nat →
  ∃ text', EmuDSNoGBA.reg_line regs i text = Ok text' ∧
           String.length text' = (String.length text + 28)%nat.
Proof.
  intros Hregs Hi Hsmall. unfold EmuDSNoGBA.reg_line.
  destruct (getitem_Forall u32 regs i Hregs) as (a & -> & Ha); [lia|].
  destruct (getitem_Forall u32 regs (i + 1) Hregs) as (b & -> & Hb); [lia|].
  cbn [mbind result_bind]. eexists. split; [done|].
  rewrite !string_length_app, !format_08X_length by done.
  rewrite !(format_int_length 10 2) by lia. cbn [String.length nl]. lia.
Qed.

Lemma reg_lines_length (regs : list Z) (rows : list nat) (text : string) :
  Forall u32 regs →
  Forall (fun i => i + 1 < length regs ∧ i + 1 < 100)%nat rows →
  ∃ text', for_each rows (EmuDSNoGBA.reg_line regs) text = Ok text' ∧
           String.length text'
           = (String.length text + 28 * length rows)%nat.
Proof.
  intros Hregs Hrows. revert text.
  induction Hrows as [|i rows [Hi Hsmall] _ IH]; intros text.
  - exists text. split; [done|]. cbn [length]. lia.
  - destruct (reg_line_length regs i text Hregs Hi Hsmall) as (t1 & Ht1 & Hl1).
    destruct (IH t1) as (t2 & Ht2 & Hl2).
    exists t2. split; [cbn [for_each]; by rewrite Ht1|].
    cbn [length]. lia.
Qed.

Lemma registers_text_length (r9 r7 : list Z) (c9 c7 : Z) (text : string) :
  Forall u32 r9 → Forall u32 r7 → u32 c9 → u32 c7 →
  length r9 = 16%nat → length r7 = 16%nat →
  EmuDSNoGBA.registers_text (r9, r7, c9, c7) = Ok text →
  String.length text = 505%nat.
Proof.
  intros H9 H7 Hc9 Hc7 Hl9 Hl7. unfold EmuDSNoGBA.registers_text.
  assert (∀ n, n = 16%nat →
    Forall (fun i => i + 1 < n ∧ i + 1 < 100)%nat EmuDSNoGBA.range_0_16_2)
    as Hrows.
  { intros n ->. unfold EmuDSNoGBA.range_0_16_2. cbn.
    repeat (constructor; [lia|]). constructor. }
  destruct (reg_lines_length r9 EmuDSNoGBA.range_0_16_2
              ("ARM9 (67 MHz)" +:+ nl) H9 (Hrows _ Hl9)) as (t1 & -> & Hl1).
  cbn [mbind result_bind].
  destruct (reg_lines_length r7 EmuDSNoGBA.range_0_16_2
              (t1 +:+ "CPSR=" +:+ format_int 16 8 c9 +:+ nl +:+ nl
               +:+ "ARM7 (33 MHz)" +:+ nl) H7 (Hrows _ Hl7))
    as (t2 & -> & Hl2).
  cbn [mbind result_bind]. intros [= <-].
  rewrite !string_length_app, format_08X_length by done.
  rewrite Hl2. rewrite !string_length_app, format_08X_length by done.
  rewrite Hl1. reflexivity.
Qed.

(** X26: With a random source that keeps the contract of [random], the
    register text shown by the front end always has 505 characters: every
    register and status word takes exactly the 8 columns of its
    format. *)
Theorem register_text_has_fixed_layout {L : Type} `{NativeLib L} {G : Type}
    `{RandomContract G} `{Toolkit} (self : EmuDSNoGBA.gui L) :
  EmuDSNoGBA.reachable (G := G) self →
  String.length (EmuDSNoGBA.reg_text self) = 505%nat.
Proof.
  intros Hreach.
  destruct (reachable_gui_ok self Hreach) as (Hc & _ & _ & Htext & _).
  destruct (reachable_regs_u32 _ Hc) as (H9 & H7 & Hc9 & Hc7).
  destruct (reachable_inv _ Hc) as [_ [Hl9 Hl7]].
  destruct (Core.get_registers (EmuDSNoGBA.core self))
    as [[[r9 r7] c9] c7] eqn:Hregs.
  cbn [fst snd] in *.
  assert (length r9 = 16%nat ∧ length r7 = 16%nat) as [H3 H4].
  { destruct (EmuDSNoGBA.core self) as [e|n]; cbn in Hregs;
      by injection Hregs as <- <- <- <-. }
  exact (registers_text_length r9 r7 c9 c7 _ H9 H7 Hc9 Hc7 H3 H4 Htext).
Qed.

Lemma register_text_has_fixed_layout_witness :
  ∃ self : EmuDSNoGBA.gui Z,
    EmuDSNoGBA.reachable (G := Z) self ∧
    EmuDSNoGBA.running self = true ∧
    String.length (EmuDSNoGBA.reg_text self) = 505%nat.
Proof.
  destruct demo_running as (self & Hreach & Hrun & Hmem).
  exists self. split; [exact Hreach|]. split; [exact Hrun|].
  exact (register_text_has_fixed_layout (G := Z) (H1 := lcg_contract)
           self Hreach).
Defined.

Example format_wide_value :
  String.length (format_int 16 8 (2 ^ 32)) = 9%nat.
Proof. reflexivity. Qed.



Section MemoryDump.
Context {L : Type} `{NativeLib L} {G : Type} `{RandomSource G} `{Toolkit}.



End MemoryDump.



(** Before the first refresh the view takes what the user types: a state
    that a run goes through in which it holds three characters. *)
Example memory_view_typed :
  ∃ self : EmuDSNoGBA.gui Z,
    EmuDSNoGBA.reachable (G := Z) self ∧
    EmuDSNoGBA.mem_editable self = true ∧
    EmuDSNoGBA.mem_view self = "abc".
Proof.
  destruct (gui_ok_main (G := Z) env_no_library
              (AsNoGbaCore (mkNoGbaCore EmulatorCore.__init__ None)))
    as (self & Hmain & _ & _ & _ & _ & _ & Hed & _); [reflexivity|].
  exists (EmuDSNoGBA.edit_mem_view "abc" self). split.
  - eapply (EmuDSNoGBA.reach_handle (G := Z) (EditMemView "abc") self 0).
    + by eapply EmuDSNoGBA.reach_main.
    + reflexivity.
  - unfold EmuDSNoGBA.edit_mem_view. rewrite Hed. by gui_unfold.
Qed.
